(** * Reorg monitor: a shallow embedding of the polling loop and its block
      processor, and the properties of the specification checked against it.

    Two monitors of the repository are embedded, each from its own source:

    - [MonitorReorg]: [createMonitor] of src/monitor_reorg.js (the Arbitrum
      and Optimism monitors carry the same [processBlock] and [tick]);
    - [MonadMainnet]: [createMonitor] of the Monad mainnet monitor, the one
      with the hourly report and the cold start.

    Heights, chain ids and clock readings are JavaScript numbers or bigints
    holding integers; they are [Z] here.  Hashes are strings.  A value thrown
    by the RPC client is an [Error] and is identified with its [message]. *)

From Stdlib Require Import ZArith String List Lia.
From stdpp Require Import gmap strings list fin_maps pretty.

Local Open Scope string_scope.
Local Open Scope list_scope.
Local Open Scope Z_scope.

(** ** Blocks as the RPC client returns them *)

Abbreviation Hash := string (only parsing).

Record Transaction := { tx_hash : Hash }.

Record Block := {
  number : Z;
  hash : Hash;
  parentHash : Hash;
  stateRoot : Hash;
  baseFeePerGas : option Z;
  gasUsed : Z;
  transactions : list Transaction
}.

(** The value stored in [blockCache] under a height:
    [{ hash, parentHash, stateRoot, transactions: txHashes }]. *)
Record CachedBlock := {
  cached_hash : Hash;
  cached_parentHash : Hash;
  cached_stateRoot : Hash;
  cached_transactions : list Hash
}.

(** [hourlyStats] of the Monad mainnet monitor. *)
Record HourlyStats := {
  startTime : Z;
  blocksProcessed : Z;
  reorgsDetected : Z;
  blocksReplaced : Z;
  chainRewinds : Z
}.

(** ** Events: the second argument of [logJson] and [sendAlert] *)

Inductive Payload :=
| BlockReplacedData (height : Z) (old_hash new_hash : Hash)
    (old_state_root new_state_root : Hash)
    (dropped added : list Hash) (severity : string)
| ParentMismatchData (at_height : Z) (expected_parent actual_parent : Hash)
    (severity : string)
| BlockReceivedData (height : Z) (hash parent_hash state_root : Hash)
    (base_fee : option string) (gas_used : string) (tx_count : nat)
    (transactions : list Hash)
| ChainRewindData (from_height to_height : Z) (severity : string)
| ChainIdChangedData (old_chain_id new_chain_id : Z) (severity : string)
| GenesisChangedData (old_genesis_hash new_genesis_hash : Hash)
    (severity : string)
| SkipHistoryData (message : string) (skipped_to_height : Z)
| RpcErrorData (message : option string) (error : string)
| HourlyReportData (report_type : string) (duration_ms : Z)
    (stats : HourlyStats) (threat_assessment : string)
    (threat_details : list string).

(** One call [logJson(type, data)], or one call [sendAlert(type, data)]. *)
Record Event := { event_type : string; data : Payload }.

(** ** The RPC client and the clock *)

Inductive Outcome (A : Type) :=
| Ret (a : A)
| Throw (message : string).
Arguments Ret {A} a.
Arguments Throw {A} message.

(** The argument of [client.getBlock]: [{ blockTag: 'latest' }] or
    [{ blockNumber, includeTransactions }]. *)
Inductive GetBlockArgs :=
| BlockTagLatest
| BlockNumber (n : Z) (includeTransactions : bool).

Inductive RpcCall :=
| CallGetChainId
| CallGetBlock (args : GetBlockArgs).

(** The injected client is any object answering the two calls; [W] is
    whatever hidden state decides its answers, so that two calls with the
    same arguments may be answered differently.  The client also decides
    when each of its promises settles: [laterRejectsFirst] says, for two
    calls that are in flight together and are both rejected, whether the
    rejection of the call issued second reaches the caller first. *)
Record Client (W : Type) := {
  getChainId : W -> Outcome Z * W;
  getBlock : GetBlockArgs -> W -> Outcome Block * W;
  laterRejectsFirst : W -> bool
}.
Arguments getChainId {W} _ _.
Arguments getBlock {W} _ _ _.
Arguments laterRejectsFirst {W} _ _.

(** The options of [createMonitor] that the polling loop reads. *)
Record Options (W : Type) := {
  client : Client W;
  recheckDepth : Z;
  cacheDepth : Z;
  chainMetadataPollMs : Z;
  now : W -> Z * W
}.
Arguments client {W} _.
Arguments recheckDepth {W} _.
Arguments cacheDepth {W} _.
Arguments chainMetadataPollMs {W} _.
Arguments now {W} _ _.

(** ** The state a monitor runs in

    [vars] holds the [let] variables of the closure; [events] is what
    [logJson] has received, [alerts] what [sendAlert] has received,
    [rpc_log] the calls made on the client, all oldest first. *)
Record Sys (W V : Type) := {
  vars : V;
  events : list Event;
  alerts : list Event;
  rpc_log : list RpcCall;
  world : W
}.
Arguments vars {W V} _.
Arguments events {W V} _.
Arguments alerts {W V} _.
Arguments rpc_log {W V} _.
Arguments world {W V} _.

(** What happens to the client between two ticks: its hidden state moves on
    (blocks are mined, the chain is rewound, the clock advances). *)
Definition withWorld {W V} (f : W -> W) (s : Sys W V) : Sys W V :=
  {| vars := vars s; events := events s; alerts := alerts s;
     rpc_log := rpc_log s; world := f (world s) |}.

(** ** A state-and-exception monad for the bodies of the async functions *)

Definition M (W V A : Type) := Sys W V -> Outcome A * Sys W V.

Section Monad.
Context {W V : Type}.

Definition ret {A} (a : A) : M W V A := fun s => (Ret a, s).

Definition bind {A B} (m : M W V A) (k : A -> M W V B) : M W V B :=
  fun s =>
    match m s with
    | (Ret a, s') => k a s'
    | (Throw e, s') => (Throw e, s')
    end.

(** [try { m } catch (err) { handler err.message }]: what [m] did to the
    state before it threw stays done. *)
Definition try_catch {A} (m : M W V A) (handler : string -> M W V A)
  : M W V A :=
  fun s =>
    match m s with
    | (Ret a, s') => (Ret a, s')
    | (Throw e, s') => handler e s'
    end.

Definition gets {A} (f : V -> A) : M W V A := fun s => (Ret (f (vars s)), s).

Definition modify (f : V -> V) : M W V unit :=
  fun s =>
    (Ret tt,
     {| vars := f (vars s); events := events s; alerts := alerts s;
        rpc_log := rpc_log s; world := world s |}).

Definition logJson (type : string) (d : Payload) : M W V unit :=
  fun s =>
    (Ret tt,
     {| vars := vars s;
        events := events s ++ [{| event_type := type; data := d |}];
        alerts := alerts s; rpc_log := rpc_log s; world := world s |}).

(** [sendAlert] posts to the webhook when one is configured and swallows
    every failure of the post; the call itself is what is recorded. *)
Definition sendAlert (type : string) (d : Payload) : M W V unit :=
  fun s =>
    (Ret tt,
     {| vars := vars s; events := events s;
        alerts := alerts s ++ [{| event_type := type; data := d |}];
        rpc_log := rpc_log s; world := world s |}).

Definition call_now (opts : Options W) : M W V Z :=
  fun s =>
    let '(t, w') := now opts (world s) in
    (Ret t,
     {| vars := vars s; events := events s; alerts := alerts s;
        rpc_log := rpc_log s; world := w' |}).

(** [await client.getBlock(args)]: a rejected promise is a throw. *)
Definition call_getBlock (opts : Options W) (args : GetBlockArgs)
  : M W V Block :=
  fun s =>
    let '(r, w') := getBlock (client opts) args (world s) in
    (r,
     {| vars := vars s; events := events s; alerts := alerts s;
        rpc_log := rpc_log s ++ [CallGetBlock args]; world := w' |}).

(** [await Promise.all([client.getChainId(), client.getBlock({ blockNumber:
    0n })])]: both calls are issued, in this order, before either is
    awaited; the result is rejected as soon as one of them is, with that
    rejection.  When both reject, the client decides which rejection comes
    first. *)
Definition call_metadata (opts : Options W) : M W V (Z * Block) :=
  fun s =>
    let '(r1, w1) := getChainId (client opts) (world s) in
    let '(r2, w2) := getBlock (client opts) (BlockNumber 0 false) w1 in
    let s' :=
      {| vars := vars s; events := events s; alerts := alerts s;
         rpc_log :=
           rpc_log s ++ [CallGetChainId; CallGetBlock (BlockNumber 0 false)];
         world := w2 |} in
    match r1, r2 with
    | Ret chainId, Ret genesis => (Ret (chainId, genesis), s')
    | Throw e, Ret _ => (Throw e, s')
    | Ret _, Throw e => (Throw e, s')
    | Throw e1, Throw e2 =>
        if laterRejectsFirst (client opts) w2 then (Throw e2, s')
        else (Throw e1, s')
    end.
End Monad.

Declare Scope monitor_scope.
Delimit Scope monitor_scope with monitor.
Notation "x <- m ;; k" := (bind m (fun x => k))
  (at level 100, m at next level, right associativity) : monitor_scope.
Notation "m ;;; k" := (bind m (fun _ => k))
  (at level 100, right associativity) : monitor_scope.

(** [if (c) { m }] with no [else]. *)
Definition when {W V} (c : bool) (m : M W V unit) : M W V unit :=
  if c then m else ret tt.

(** [message.includes(needle)] *)
Fixpoint includes (needle s : string) : bool :=
  String.prefix needle s
  || match s with
     | EmptyString => false
     | String _ s' => includes needle s'
     end.

(** The heights [for (let h = from; h <= to; h++)] runs through. *)
Definition heights (from to : Z) : list Z := seqZ from (to - from + 1).

(** ** src/monitor_reorg.js *)

Module MonitorReorg.

(** The [let] variables of [createMonitor]. *)
Record Vars := {
  blockCache : gmap Z CachedBlock;
  maxObservedHeight : Z;
  lastProcessedHeight : Z;
  lastChainId : option Z;
  lastGenesisHash : option Hash;
  lastMetadataCheckMs : Z
}.

Definition initial : Vars :=
  {| blockCache := ∅; maxObservedHeight := 0; lastProcessedHeight := -1;
     lastChainId := None; lastGenesisHash := None;
     lastMetadataCheckMs := 0 |}.

Definition set_blockCache (c : gmap Z CachedBlock) (v : Vars) : Vars :=
  {| blockCache := c; maxObservedHeight := maxObservedHeight v;
     lastProcessedHeight := lastProcessedHeight v;
     lastChainId := lastChainId v; lastGenesisHash := lastGenesisHash v;
     lastMetadataCheckMs := lastMetadataCheckMs v |}.

Definition set_maxObservedHeight (h : Z) (v : Vars) : Vars :=
  {| blockCache := blockCache v; maxObservedHeight := h;
     lastProcessedHeight := lastProcessedHeight v;
     lastChainId := lastChainId v; lastGenesisHash := lastGenesisHash v;
     lastMetadataCheckMs := lastMetadataCheckMs v |}.

Definition set_lastProcessedHeight (h : Z) (v : Vars) : Vars :=
  {| blockCache := blockCache v; maxObservedHeight := maxObservedHeight v;
     lastProcessedHeight := h;
     lastChainId := lastChainId v; lastGenesisHash := lastGenesisHash v;
     lastMetadataCheckMs := lastMetadataCheckMs v |}.

Definition set_lastChainId (c : option Z) (v : Vars) : Vars :=
  {| blockCache := blockCache v; maxObservedHeight := maxObservedHeight v;
     lastProcessedHeight := lastProcessedHeight v;
     lastChainId := c; lastGenesisHash := lastGenesisHash v;
     lastMetadataCheckMs := lastMetadataCheckMs v |}.

Definition set_lastGenesisHash (g : option Hash) (v : Vars) : Vars :=
  {| blockCache := blockCache v; maxObservedHeight := maxObservedHeight v;
     lastProcessedHeight := lastProcessedHeight v;
     lastChainId := lastChainId v; lastGenesisHash := g;
     lastMetadataCheckMs := lastMetadataCheckMs v |}.

Definition set_lastMetadataCheckMs (t : Z) (v : Vars) : Vars :=
  {| blockCache := blockCache v; maxObservedHeight := maxObservedHeight v;
     lastProcessedHeight := lastProcessedHeight v;
     lastChainId := lastChainId v; lastGenesisHash := lastGenesisHash v;
     lastMetadataCheckMs := t |}.

Section WithOptions.
Context {W : Type}.
Variable opts : Options W.

Local Open Scope monitor_scope.

(** [async function processBlock(blockNumber)]: the fetch is outside any
    [try], its rejection goes to the caller. *)
Definition processBlock (blockNumber : Z) : M W Vars bool :=
  block <- call_getBlock opts (BlockNumber blockNumber true) ;;
  let height := number block in
  let hash := hash block in
  let parentHash := parentHash block in
  let txHashes := map tx_hash (transactions block) in
  let txHashSet : gset string := list_to_set txHashes in
  (* Check: Block Replaced (Same Height, Different Hash) *)
  cache <- gets blockCache ;;
  match cache !! height with
  | Some cached =>
      if decide (cached_hash cached ≠ hash) then
        let cachedTxHashSet : gset string :=
          list_to_set (cached_transactions cached) in
        let eventData :=
          BlockReplacedData height (cached_hash cached) hash
            (cached_stateRoot cached) (stateRoot block)
            (filter (fun tx => tx ∉ txHashSet) (cached_transactions cached))
            (filter (fun tx => tx ∉ cachedTxHashSet) txHashes)
            "CRITICAL" in
        logJson "BLOCK_REPLACED" eventData ;;;
        sendAlert "BLOCK_REPLACED" eventData
      else ret tt
  | None => ret tt
  end ;;;
  (* Check: Reorg Detected (Parent Hash Mismatch) *)
  cache <- gets blockCache ;;
  match cache !! (height - 1) with
  | Some parent =>
      if decide (parentHash ≠ cached_hash parent) then
        let alertData :=
          ParentMismatchData height (cached_hash parent) parentHash
            "CRITICAL" in
        logJson "PARENT_HASH_MISMATCH_DETECTED" alertData ;;;
        sendAlert "PARENT_HASH_MISMATCH_DETECTED" alertData
      else ret tt
  | None => ret tt
  end ;;;
  (* Update Cache if new block or replaced *)
  cache <- gets blockCache ;;
  when (match cache !! height with
        | None => true
        | Some cached => bool_decide (cached_hash cached ≠ hash)
        end)
    (logJson "BLOCK_RECEIVED"
       (BlockReceivedData height hash parentHash (stateRoot block)
          (pretty <$> baseFeePerGas block) (pretty (gasUsed block))
          (length txHashes) txHashes) ;;;
     modify (fun v => set_blockCache
       (<[height :=
            {| cached_hash := hash; cached_parentHash := parentHash;
               cached_stateRoot := stateRoot block;
               cached_transactions := txHashes |}]> (blockCache v)) v)) ;;;
  maxObserved <- gets maxObservedHeight ;;
  when (bool_decide (height > maxObserved))
    (modify (set_maxObservedHeight height)) ;;;
  ret true.

(** The phases of [tick], in the order of its body. *)

(** Periodic Chain Metadata Check (ChainId, Genesis) *)
Definition metadataCheck : M W Vars unit :=
  nowMs <- call_now opts ;;
  lastCheck <- gets lastMetadataCheckMs ;;
  when (bool_decide (nowMs - lastCheck >= chainMetadataPollMs opts))
    (modify (set_lastMetadataCheckMs nowMs) ;;;
     r <- call_metadata opts ;;
     let '(chainId, genesis) := r in
     lastId <- gets lastChainId ;;
     match lastId with
     | Some old =>
         if decide (chainId ≠ old) then
           let alertData := ChainIdChangedData old chainId "CRITICAL" in
           logJson "CHAIN_ID_CHANGED" alertData ;;;
           sendAlert "CHAIN_ID_CHANGED" alertData
         else ret tt
     | None => ret tt
     end ;;;
     modify (set_lastChainId (Some chainId)) ;;;
     lastGenesis <- gets lastGenesisHash ;;
     match lastGenesis with
     | Some old =>
         if decide (hash genesis ≠ old) then
           let alertData :=
             GenesisChangedData old (hash genesis) "CRITICAL" in
           logJson "GENESIS_CHANGED" alertData ;;;
           sendAlert "GENESIS_CHANGED" alertData
         else ret tt
     | None => ret tt
     end ;;;
     modify (set_lastGenesisHash (Some (hash genesis)))).

Definition fetchLatestHeight : M W Vars Z :=
  latestBlock <- call_getBlock opts BlockTagLatest ;;
  ret (number latestBlock).

(** Check: Chain Rewind (Latest Height < Max Observed Height) *)
Definition rewindCheck (latestHeight : Z) : M W Vars unit :=
  maxObserved <- gets maxObservedHeight ;;
  when (bool_decide (latestHeight < maxObserved))
    (let alertData :=
       ChainRewindData maxObserved latestHeight "CRITICAL" in
     logJson "CHAIN_REWIND" alertData ;;;
     sendAlert "CHAIN_REWIND" alertData ;;;
     modify (set_maxObservedHeight latestHeight) ;;;
     modify (set_lastProcessedHeight latestHeight)).

(** The body of the forward-sync [for], over the heights it still has to
    visit: [continue] on a negative height, [break] after a failure. *)
Fixpoint forwardSyncLoop (hs : list Z) : M W Vars unit :=
  match hs with
  | [] => ret tt
  | h :: rest =>
      if decide (h < 0) then forwardSyncLoop rest
      else
        ok <- try_catch
                (processBlock h ;;;
                 modify (set_lastProcessedHeight h) ;;;
                 ret true)
                (fun err =>
                   logJson "RPC_ERROR"
                     (RpcErrorData
                        (Some ("Failed to process block " +:+ pretty h))
                        err) ;;;
                   ret false) ;;
        if ok : bool then forwardSyncLoop rest else ret tt
  end.

(** Process new blocks (Forward Sync) *)
Definition forwardSync (latestHeight : Z) : M W Vars unit :=
  lastProcessed <- gets lastProcessedHeight ;;
  when (bool_decide (latestHeight > lastProcessed))
    (forwardSyncLoop (heights (lastProcessed + 1) latestHeight)).

Fixpoint recheckLoop (hs : list Z) : M W Vars unit :=
  match hs with
  | [] => ret tt
  | h :: rest =>
      try_catch
        (processBlock h ;;; ret tt)
        (fun err =>
           logJson "RPC_ERROR"
             (RpcErrorData (Some ("Recheck failed for " +:+ pretty h))
                err)) ;;;
      recheckLoop rest
  end.

(** Recheck recent blocks (Deep Reorg Detection); [processBlock] leaves
    [lastProcessedHeight] alone, so the bound of the [for] is the value
    read on entry. *)
Definition deepRecheck (latestHeight : Z) : M W Vars unit :=
  let startHeight := Z.max 0 (latestHeight - recheckDepth opts + 1) in
  lastProcessed <- gets lastProcessedHeight ;;
  recheckLoop (heights startHeight lastProcessed).

(** Prune Cache *)
Definition pruneCache (latestHeight : Z) : M W Vars unit :=
  let minHeightToKeep := Z.max 0 (latestHeight - cacheDepth opts + 1) in
  modify (fun v =>
    set_blockCache
      (filter (fun kv => ¬ (kv.1 < minHeightToKeep)) (blockCache v)) v).

Definition tickBody : M W Vars unit :=
  metadataCheck ;;;
  latestHeight <- fetchLatestHeight ;;
  rewindCheck latestHeight ;;;
  forwardSync latestHeight ;;;
  deepRecheck latestHeight ;;;
  pruneCache latestHeight.

(** [async function tick()] *)
Definition tick : M W Vars unit :=
  try_catch tickBody
    (fun message =>
       when (negb (includes "Block not found" message))
         (logJson "RPC_ERROR" (RpcErrorData None message))).

(** [tick] cut at the tip fetch: what runs up to and including it, and
    the phases that run once the latest height is known. *)
Definition tickPrefix : M W Vars Z :=
  metadataCheck ;;; fetchLatestHeight.

Definition tickSuffix (latestHeight : Z) : M W Vars unit :=
  rewindCheck latestHeight ;;;
  forwardSync latestHeight ;;;
  deepRecheck latestHeight ;;;
  pruneCache latestHeight.
End WithOptions.
End MonitorReorg.

(** ** The Monad mainnet monitor *)

Module MonadMainnet.

(** The [let] variables of [createMonitor]. *)
Record Vars := {
  blockCache : gmap Z CachedBlock;
  maxObservedHeight : Z;
  lastProcessedHeight : Z;
  lastChainId : option Z;
  lastGenesisHash : option Hash;
  lastMetadataCheckMs : Z;
  hourlyStats : HourlyStats
}.

(** [startTime] is the reading of [now()] when the monitor is created. *)
Definition freshStats (t : Z) : HourlyStats :=
  {| startTime := t; blocksProcessed := 0; reorgsDetected := 0;
     blocksReplaced := 0; chainRewinds := 0 |}.

Definition initial (t : Z) : Vars :=
  {| blockCache := ∅; maxObservedHeight := 0; lastProcessedHeight := -1;
     lastChainId := None; lastGenesisHash := None;
     lastMetadataCheckMs := 0; hourlyStats := freshStats t |}.

Definition set_blockCache (c : gmap Z CachedBlock) (v : Vars) : Vars :=
  {| blockCache := c; maxObservedHeight := maxObservedHeight v;
     lastProcessedHeight := lastProcessedHeight v;
     lastChainId := lastChainId v; lastGenesisHash := lastGenesisHash v;
     lastMetadataCheckMs := lastMetadataCheckMs v;
     hourlyStats := hourlyStats v |}.

Definition set_maxObservedHeight (h : Z) (v : Vars) : Vars :=
  {| blockCache := blockCache v; maxObservedHeight := h;
     lastProcessedHeight := lastProcessedHeight v;
     lastChainId := lastChainId v; lastGenesisHash := lastGenesisHash v;
     lastMetadataCheckMs := lastMetadataCheckMs v;
     hourlyStats := hourlyStats v |}.

Definition set_lastProcessedHeight (h : Z) (v : Vars) : Vars :=
  {| blockCache := blockCache v; maxObservedHeight := maxObservedHeight v;
     lastProcessedHeight := h;
     lastChainId := lastChainId v; lastGenesisHash := lastGenesisHash v;
     lastMetadataCheckMs := lastMetadataCheckMs v;
     hourlyStats := hourlyStats v |}.

Definition set_lastChainId (c : option Z) (v : Vars) : Vars :=
  {| blockCache := blockCache v; maxObservedHeight := maxObservedHeight v;
     lastProcessedHeight := lastProcessedHeight v;
     lastChainId := c; lastGenesisHash := lastGenesisHash v;
     lastMetadataCheckMs := lastMetadataCheckMs v;
     hourlyStats := hourlyStats v |}.

Definition set_lastGenesisHash (g : option Hash) (v : Vars) : Vars :=
  {| blockCache := blockCache v; maxObservedHeight := maxObservedHeight v;
     lastProcessedHeight := lastProcessedHeight v;
     lastChainId := lastChainId v; lastGenesisHash := g;
     lastMetadataCheckMs := lastMetadataCheckMs v;
     hourlyStats := hourlyStats v |}.

Definition set_lastMetadataCheckMs (t : Z) (v : Vars) : Vars :=
  {| blockCache := blockCache v; maxObservedHeight := maxObservedHeight v;
     lastProcessedHeight := lastProcessedHeight v;
     lastChainId := lastChainId v; lastGenesisHash := lastGenesisHash v;
     lastMetadataCheckMs := t; hourlyStats := hourlyStats v |}.

Definition set_hourlyStats (h : HourlyStats) (v : Vars) : Vars :=
  {| blockCache := blockCache v; maxObservedHeight := maxObservedHeight v;
     lastProcessedHeight := lastProcessedHeight v;
     lastChainId := lastChainId v; lastGenesisHash := lastGenesisHash v;
     lastMetadataCheckMs := lastMetadataCheckMs v; hourlyStats := h |}.

(** [hourlyStats.blocksProcessed++] and its three siblings. *)
Definition incr_blocksProcessed (h : HourlyStats) : HourlyStats :=
  {| startTime := startTime h; blocksProcessed := blocksProcessed h + 1;
     reorgsDetected := reorgsDetected h;
     blocksReplaced := blocksReplaced h; chainRewinds := chainRewinds h |}.

Definition incr_reorgsDetected (h : HourlyStats) : HourlyStats :=
  {| startTime := startTime h; blocksProcessed := blocksProcessed h;
     reorgsDetected := reorgsDetected h + 1;
     blocksReplaced := blocksReplaced h; chainRewinds := chainRewinds h |}.

Definition incr_blocksReplaced (h : HourlyStats) : HourlyStats :=
  {| startTime := startTime h; blocksProcessed := blocksProcessed h;
     reorgsDetected := reorgsDetected h;
     blocksReplaced := blocksReplaced h + 1;
     chainRewinds := chainRewinds h |}.

Definition incr_chainRewinds (h : HourlyStats) : HourlyStats :=
  {| startTime := startTime h; blocksProcessed := blocksProcessed h;
     reorgsDetected := reorgsDetected h;
     blocksReplaced := blocksReplaced h;
     chainRewinds := chainRewinds h + 1 |}.

Definition bump (f : HourlyStats -> HourlyStats) (v : Vars) : Vars :=
  set_hourlyStats (f (hourlyStats v)) v.

Section WithOptions.
Context {W : Type}.
Variable opts : Options W.

Local Open Scope monitor_scope.

Definition resetHourlyStats : M W Vars unit :=
  t <- call_now opts ;;
  modify (set_hourlyStats (freshStats t)).

(** [async function generateHourlyReport()].  [duration_minutes] is the
    elapsed time divided by 60000 and printed with two decimals; the
    elapsed milliseconds are kept in its place. *)
Definition generateHourlyReport : M W Vars unit :=
  t <- call_now opts ;;
  stats <- gets hourlyStats ;;
  let duration := t - startTime stats in
  (* Determine Threat Level *)
  let '(assessment, reasons) :=
    if decide (chainRewinds stats > 0) then
      ("CRITICAL", ["Chain rewind detected"])
    else if decide (reorgsDetected stats > 5 ∨ blocksReplaced stats > 10)
    then ("HIGH", ["High frequency of reorgs/replacements"])
    else if decide (reorgsDetected stats > 0 ∨ blocksReplaced stats > 0)
    then ("MEDIUM", ["Minor reorg activity observed"])
    else ("LOW", []) in
  let report :=
    HourlyReportData "HOURLY_ANALYSIS" duration stats assessment reasons in
  logJson "HOURLY_REPORT" report ;;;
  (* Alert if threat is not LOW *)
  when (bool_decide (assessment ≠ "LOW"))
    (sendAlert "HOURLY_THREAT_REPORT" report) ;;;
  resetHourlyStats.

(** [async function processBlock(blockNumber)]: the whole body sits in
    [try { ... } catch { return false; }]. *)
Definition processBlock (blockNumber : Z) : M W Vars bool :=
  try_catch
    (block <- call_getBlock opts (BlockNumber blockNumber true) ;;
     let height := number block in
     let hash := hash block in
     let parentHash := parentHash block in
     let txHashes := map tx_hash (transactions block) in
     let txHashSet : gset string := list_to_set txHashes in
     modify (bump incr_blocksProcessed) ;;;
     (* Check: Block Replaced (Same Height, Different Hash) *)
     cache <- gets blockCache ;;
     match cache !! height with
     | Some cached =>
         if decide (cached_hash cached ≠ hash) then
           modify (bump incr_blocksReplaced) ;;;
           let cachedTxHashSet : gset string :=
             list_to_set (cached_transactions cached) in
           let eventData :=
             BlockReplacedData height (cached_hash cached) hash
               (cached_stateRoot cached) (stateRoot block)
               (filter (fun tx => tx ∉ txHashSet)
                  (cached_transactions cached))
               (filter (fun tx => tx ∉ cachedTxHashSet) txHashes)
               "CRITICAL" in
           logJson "BLOCK_REPLACED" eventData ;;;
           sendAlert "BLOCK_REPLACED" eventData
         else ret tt
     | None => ret tt
     end ;;;
     (* Check: Reorg Detected (Parent Hash Mismatch) *)
     cache <- gets blockCache ;;
     match cache !! (height - 1) with
     | Some parent =>
         if decide (parentHash ≠ cached_hash parent) then
           modify (bump incr_reorgsDetected) ;;;
           let alertData :=
             ParentMismatchData height (cached_hash parent) parentHash
               "CRITICAL" in
           logJson "REORG_DETECTED" alertData ;;;
           sendAlert "REORG_DETECTED" alertData
         else ret tt
     | None => ret tt
     end ;;;
     (* Update Cache if new block or replaced *)
     cache <- gets blockCache ;;
     when (match cache !! height with
           | None => true
           | Some cached => bool_decide (cached_hash cached ≠ hash)
           end)
       (logJson "BLOCK_RECEIVED"
          (BlockReceivedData height hash parentHash (stateRoot block)
             (pretty <$> baseFeePerGas block) (pretty (gasUsed block))
             (length txHashes) txHashes) ;;;
        modify (fun v => set_blockCache
          (<[height :=
               {| cached_hash := hash; cached_parentHash := parentHash;
                  cached_stateRoot := stateRoot block;
                  cached_transactions := txHashes |}]> (blockCache v))
          v)) ;;;
     maxObserved <- gets maxObservedHeight ;;
     when (bool_decide (height > maxObserved))
       (modify (set_maxObservedHeight height)) ;;;
     ret true)
    (fun _ => ret false).

(** The phases of [tick], in the order of its body. *)

(** Periodic Chain Metadata Check (ChainId, Genesis) *)
Definition metadataCheck : M W Vars unit :=
  nowMs <- call_now opts ;;
  lastCheck <- gets lastMetadataCheckMs ;;
  when (bool_decide (nowMs - lastCheck >= chainMetadataPollMs opts))
    (modify (set_lastMetadataCheckMs nowMs) ;;;
     r <- call_metadata opts ;;
     let '(chainId, genesis) := r in
     lastId <- gets lastChainId ;;
     match lastId with
     | Some old =>
         if decide (chainId ≠ old) then
           logJson "CHAIN_ID_CHANGED"
             (ChainIdChangedData old chainId "CRITICAL")
         else ret tt
     | None => ret tt
     end ;;;
     modify (set_lastChainId (Some chainId)) ;;;
     lastGenesis <- gets lastGenesisHash ;;
     match lastGenesis with
     | Some old =>
         if decide (hash genesis ≠ old) then
           logJson "GENESIS_CHANGED"
             (GenesisChangedData old (hash genesis) "CRITICAL")
         else ret tt
     | None => ret tt
     end ;;;
     modify (set_lastGenesisHash (Some (hash genesis)))).

Definition fetchLatestHeight : M W Vars Z :=
  latestBlock <- call_getBlock opts BlockTagLatest ;;
  ret (number latestBlock).

(** Optimization: On first run, skip historical blocks *)
Definition coldStart (latestHeight : Z) : M W Vars unit :=
  lastProcessed <- gets lastProcessedHeight ;;
  when (bool_decide (lastProcessed = -1) && bool_decide (latestHeight > 0))
    (logJson "MONITOR_SKIP_HISTORY"
       (SkipHistoryData "Skipping historical blocks to start from latest"
          latestHeight) ;;;
     modify (set_lastProcessedHeight (latestHeight - 1))).

(** Check: Chain Rewind (Latest Height < Max Observed Height) *)
Definition rewindCheck (latestHeight : Z) : M W Vars unit :=
  maxObserved <- gets maxObservedHeight ;;
  when (bool_decide (latestHeight < maxObserved))
    (modify (bump incr_chainRewinds) ;;;
     let alertData :=
       ChainRewindData maxObserved latestHeight "CRITICAL" in
     logJson "CHAIN_REWIND" alertData ;;;
     sendAlert "CHAIN_REWIND" alertData ;;;
     modify (set_maxObservedHeight latestHeight) ;;;
     modify (set_lastProcessedHeight latestHeight)).

(** The body of the forward-sync [for]: the result of [processBlock] is
    dropped. *)
Fixpoint forwardSyncLoop (hs : list Z) : M W Vars unit :=
  match hs with
  | [] => ret tt
  | h :: rest =>
      if decide (h < 0) then forwardSyncLoop rest
      else processBlock h ;;; forwardSyncLoop rest
  end.

(** Process new blocks (Forward Sync) *)
Definition forwardSync (latestHeight : Z) : M W Vars unit :=
  lastProcessed <- gets lastProcessedHeight ;;
  when (bool_decide (latestHeight > lastProcessed))
    (forwardSyncLoop (heights (lastProcessed + 1) latestHeight) ;;;
     modify (set_lastProcessedHeight latestHeight)).

Fixpoint recheckLoop (hs : list Z) : M W Vars unit :=
  match hs with
  | [] => ret tt
  | h :: rest => processBlock h ;;; recheckLoop rest
  end.

(** Recheck recent blocks (Deep Reorg Detection) *)
Definition deepRecheck (latestHeight : Z) : M W Vars unit :=
  let startHeight := Z.max 0 (latestHeight - recheckDepth opts + 1) in
  recheckLoop (heights startHeight latestHeight).

(** Prune Cache *)
Definition pruneCache (latestHeight : Z) : M W Vars unit :=
  let minHeightToKeep := Z.max 0 (latestHeight - cacheDepth opts + 1) in
  modify (fun v =>
    set_blockCache
      (filter (fun kv => ¬ (kv.1 < minHeightToKeep)) (blockCache v)) v).

Definition tickBody : M W Vars unit :=
  metadataCheck ;;;
  latestHeight <- fetchLatestHeight ;;
  coldStart latestHeight ;;;
  rewindCheck latestHeight ;;;
  forwardSync latestHeight ;;;
  deepRecheck latestHeight ;;;
  pruneCache latestHeight.

(** [async function tick()] *)
Definition tick : M W Vars unit :=
  try_catch tickBody
    (fun message =>
       when (negb (includes "Block not found" message))
         (logJson "RPC_ERROR" (RpcErrorData None message))).

(** [tick] cut at the tip fetch: what runs up to and including it, and
    the phases that run once the latest height is known. *)
Definition tickPrefix : M W Vars Z :=
  metadataCheck ;;; fetchLatestHeight.

Definition tickSuffix (latestHeight : Z) : M W Vars unit :=
  coldStart latestHeight ;;;
  rewindCheck latestHeight ;;;
  forwardSync latestHeight ;;;
  deepRecheck latestHeight ;;;
  pruneCache latestHeight.
End WithOptions.
End MonadMainnet.

(** ** test/monitor_reorg.test.js: the fake client and its chains *)

Module Fake.

(** The private fields of [FakeClient], and the [nowMs] the test hands to
    [createMonitor] as its clock. *)
Record World := {
  chainId : Z;
  latestHeight : Z;
  blocks : gmap Z Block;
  nowMs : Z
}.

Definition makeBlock (number : Z) (hash parentHash stateRoot : Hash)
    (txHashes : list Hash) : Block :=
  {| number := number; hash := hash; parentHash := parentHash;
     stateRoot := stateRoot; baseFeePerGas := Some 0; gasUsed := 0;
     transactions := map Build_Transaction txHashes |}.

Definition setChainId (c : Z) (w : World) : World :=
  {| chainId := c; latestHeight := latestHeight w; blocks := blocks w;
     nowMs := nowMs w |}.

Definition setLatestHeight (h : Z) (w : World) : World :=
  {| chainId := chainId w; latestHeight := h; blocks := blocks w;
     nowMs := nowMs w |}.

Definition setBlock (b : Block) (w : World) : World :=
  {| chainId := chainId w; latestHeight := latestHeight w;
     blocks := <[number b := b]> (blocks w); nowMs := nowMs w |}.

Definition setNow (t : Z) (w : World) : World :=
  {| chainId := chainId w; latestHeight := latestHeight w;
     blocks := blocks w; nowMs := t |}.

Definition fake_getBlock (args : GetBlockArgs) (w : World)
  : Outcome Block * World :=
  let height :=
    match args with
    | BlockTagLatest => latestHeight w
    | BlockNumber n _ => n
    end in
  match blocks w !! height with
  | Some block => (Ret block, w)
  | None => (Throw "Block not found", w)
  end.

Definition fakeClient : Client World :=
  {| getChainId := fun w => (Ret (chainId w), w);
     getBlock := fake_getBlock;
     laterRejectsFirst := fun _ => false |}.

(** A client whose every [getBlock] is rejected with [boom]. *)
Definition boomClient : Client World :=
  {| getChainId := fun w => (Ret (chainId w), w);
     getBlock := fun _ w => (Throw "boom", w);
     laterRejectsFirst := fun _ => false |}.

Definition new : World :=
  {| chainId := 1; latestHeight := 0; blocks := ∅; nowMs := 0 |}.

(** [createLinearChain({ from: 0, to })]: block 0 is its own parent, block
    [h] has hash [0xblock<h>] and transactions [0xtx<h>a], [0xtx<h>b]; the
    default state root of [makeBlock] is the height padded to 64 digits. *)
Definition blockHash (h : Z) : Hash :=
  if decide (h = 0) then "0xgenesis" else "0xblock" +:+ pretty h.

Definition defaultStateRoot (h : Z) : Hash :=
  let digits := pretty h in
  "0x" +:+ String.concat EmptyString (replicate (64 - String.length digits) "0")
       +:+ digits.

Definition linearBlock (h : Z) : Block :=
  if decide (h = 0) then
    makeBlock 0 "0xgenesis" "0xgenesis" (defaultStateRoot 0) []
  else
    makeBlock h (blockHash h) (blockHash (h - 1)) (defaultStateRoot h)
      ["0xtx" +:+ pretty h +:+ "a"; "0xtx" +:+ pretty h +:+ "b"].

Definition createLinearChain (to : Z) : list Block :=
  map linearBlock (heights 0 to).

Definition withChain (to : Z) (w : World) : World :=
  setLatestHeight to (foldl (fun w b => setBlock b w) w (createLinearChain to)).

(** The options of the tests: defaults of the module for the depths,
    [chainMetadataPollMs: 0], the clock read from the world. *)
Definition options (cl : Client World) (recheck cache : Z) : Options World :=
  {| client := cl; recheckDepth := recheck; cacheDepth := cache;
     chainMetadataPollMs := 0; now := fun w => (nowMs w, w) |}.

Definition start {V} (v : V) (w : World) : Sys World V :=
  {| vars := v; events := []; alerts := []; rpc_log := []; world := w |}.

(** What the test does between two ticks: it edits the client. *)
Definition edit {V} (f : World -> World) (s : Sys World V) : Sys World V :=
  withWorld f s.

(** The fake client with the fetch of the heights in [bad] rejected, the
    way the last test replaces [getBlock] by a function that throws. *)
Definition rejectingClient (bad : list Z) : Client World :=
  {| getChainId := fun w => (Ret (chainId w), w);
     getBlock := fun args w =>
       match args with
       | BlockNumber n _ =>
           if bool_decide (n ∈ bad) then (Throw "boom", w)
           else fake_getBlock args w
       | BlockTagLatest => fake_getBlock args w
       end;
     laterRejectsFirst := fun _ => false |}.
End Fake.

(** ** Predicates on monitor code used in the statements *)

Section Predicates.
Context {W V : Type}.

(** [m] only adds events to the log, and each of them satisfies [Q]. *)
Definition appends (Q : Event -> Prop) {A} (m : M W V A) : Prop :=
  forall s, exists l, events (m s).2 = events s ++ l /\ Forall Q l.

(** [m] returns, whatever the state it is run in. *)
Definition never_throws {A} (m : M W V A) : Prop :=
  forall s, exists a, (m s).1 = Ret a.

(** [m] leaves the part [f] of the variables as it found it. *)
Definition preserves {A B} (f : V -> B) (m : M W V A) : Prop :=
  forall s, f (vars (m s).2) = f (vars s).
End Predicates.

(** ** One call of [processBlock] on a fetched block, rule by rule

    The events each of the three rules of [processBlock] logs for a fetched
    block [b] and a cache [cache], with the membership tests of the
    transaction diff made on the lists themselves. *)

Definition txHashesOf (b : Block) : list Hash := map tx_hash (transactions b).

Definition cachedOf (b : Block) : CachedBlock :=
  {| cached_hash := hash b; cached_parentHash := parentHash b;
     cached_stateRoot := stateRoot b; cached_transactions := txHashesOf b |}.

Definition replacedEvents (cache : gmap Z CachedBlock) (b : Block)
  : list Event :=
  match cache !! number b with
  | Some cached =>
      if decide (cached_hash cached ≠ hash b) then
        [{| event_type := "BLOCK_REPLACED";
            data :=
              BlockReplacedData (number b) (cached_hash cached) (hash b)
                (cached_stateRoot cached) (stateRoot b)
                (filter (fun tx => tx ∉ txHashesOf b)
                   (cached_transactions cached))
                (filter (fun tx => tx ∉ cached_transactions cached)
                   (txHashesOf b))
                "CRITICAL" |}]
      else []
  | None => []
  end.

Definition mismatchEvents (name : string) (cache : gmap Z CachedBlock)
    (b : Block) : list Event :=
  match cache !! (number b - 1) with
  | Some parent =>
      if decide (parentHash b ≠ cached_hash parent) then
        [{| event_type := name;
            data :=
              ParentMismatchData (number b) (cached_hash parent)
                (parentHash b) "CRITICAL" |}]
      else []
  | None => []
  end.

Definition newOrChanged (cache : gmap Z CachedBlock) (b : Block) : bool :=
  match cache !! number b with
  | None => true
  | Some cached => bool_decide (cached_hash cached ≠ hash b)
  end.

Definition receivedEvents (cache : gmap Z CachedBlock) (b : Block)
  : list Event :=
  if newOrChanged cache b then
    [{| event_type := "BLOCK_RECEIVED";
        data :=
          BlockReceivedData (number b) (hash b) (parentHash b) (stateRoot b)
            (pretty <$> baseFeePerGas b) (pretty (gasUsed b))
            (length (txHashesOf b)) (txHashesOf b) |}]
  else [].

Definition cacheAfter (cache : gmap Z CachedBlock) (b : Block)
  : gmap Z CachedBlock :=
  if newOrChanged cache b then <[number b := cachedOf b]> cache else cache.

(** The variables of each monitor after one successful [processBlock]. *)

Definition reorgVarsAfter (v : MonitorReorg.Vars) (b : Block)
  : MonitorReorg.Vars :=
  let v1 :=
    MonitorReorg.set_blockCache (cacheAfter (MonitorReorg.blockCache v) b) v in
  if bool_decide (number b > MonitorReorg.maxObservedHeight v) then
    MonitorReorg.set_maxObservedHeight (number b) v1
  else v1.

Definition isReplaced (cache : gmap Z CachedBlock) (b : Block) : bool :=
  match cache !! number b with
  | Some cached => bool_decide (cached_hash cached ≠ hash b)
  | None => false
  end.

Definition isMismatch (cache : gmap Z CachedBlock) (b : Block) : bool :=
  match cache !! (number b - 1) with
  | Some parent => bool_decide (parentHash b ≠ cached_hash parent)
  | None => false
  end.

Definition monadVarsAfter (v : MonadMainnet.Vars) (b : Block)
  : MonadMainnet.Vars :=
  let cache := MonadMainnet.blockCache v in
  let v0 := MonadMainnet.bump MonadMainnet.incr_blocksProcessed v in
  let v1 :=
    if isReplaced cache b then
      MonadMainnet.bump MonadMainnet.incr_blocksReplaced v0
    else v0 in
  let v2 :=
    if isMismatch cache b then
      MonadMainnet.bump MonadMainnet.incr_reorgsDetected v1
    else v1 in
  let v3 := MonadMainnet.set_blockCache (cacheAfter cache b) v2 in
  if bool_decide (number b > MonadMainnet.maxObservedHeight v) then
    MonadMainnet.set_maxObservedHeight (number b) v3
  else v3.

(** ** The transaction diff in the words of the specification

    [d] is the multiset difference of [l] and [k] in the order of [l]: it
    is picked out of [l] in order, and it holds each hash as many times as
    [l] holds it more often than [k]. *)
Definition isMultisetDifference (d l k : list Hash) : Prop :=
  sublist d l
  /\ forall x : Hash,
       count_occ String.string_dec d x
       = (count_occ String.string_dec l x - count_occ String.string_dec k x)%nat.

(** ** The runs of the test file, as states to evaluate the monitors on *)

Module Scenario.

(** The options of the tests: [recheckDepth] 16 and [cacheDepth] 2048
    unless the test sets them. *)
Definition opts : Options Fake.World := Fake.options Fake.fakeClient 16 2048.

(** After the first tick of src/monitor_reorg.js on the linear chain
    [0 .. to]. *)
Definition reorgAfterFirstTick (to : Z) : Sys Fake.World MonitorReorg.Vars :=
  (MonitorReorg.tick opts
     (Fake.start MonitorReorg.initial (Fake.withChain to Fake.new))).2.

(** After the first tick of the Monad mainnet monitor on the same chain. *)
Definition monadAfterFirstTick (to : Z) : Sys Fake.World MonadMainnet.Vars :=
  (MonadMainnet.tick opts
     (Fake.start (MonadMainnet.initial 0) (Fake.withChain to Fake.new))).2.

(** 'detects BLOCK_REPLACED with tx diff when same height hash changes' *)
Definition block2_new : Block :=
  Fake.makeBlock 2 "0xblock2_new" "0xblock1" "0xstate2_new"
    ["0xtx2b"; "0xtx2c"].

(** 'detects REORG_DETECTED when parent hash becomes discontinuous' *)
Definition block2_reorg : Block :=
  Fake.makeBlock 2 "0xblock2_reorg" "0xsome_other_parent"
    (Fake.defaultStateRoot 2) ["0xtx2x"].

(** A block at height 1 that repeats a transaction, and a replacement of
    it that holds the transaction once. *)
Definition block1_twice : Block :=
  Fake.makeBlock 1 "0xblock1" "0xgenesis" (Fake.defaultStateRoot 1)
    ["0xtxa"; "0xtxa"].

Definition block1_once : Block :=
  Fake.makeBlock 1 "0xblock1_new" "0xgenesis" (Fake.defaultStateRoot 1)
    ["0xtxa"].

Definition twiceThenOnce : Sys Fake.World MonitorReorg.Vars :=
  Fake.edit (Fake.setBlock block1_once)
    (MonitorReorg.tick opts
       (Fake.start MonitorReorg.initial
          (Fake.setLatestHeight 1
             (Fake.setBlock block1_twice
                (Fake.setBlock (Fake.linearBlock 0) Fake.new))))).2.
End Scenario.

(** The heights and the cache of each monitor as one value, to speak of
    them together. *)

Definition reorgHeightsAndCache (v : MonitorReorg.Vars) :=
  (MonitorReorg.blockCache v, MonitorReorg.maxObservedHeight v,
   MonitorReorg.lastProcessedHeight v).

Definition monadHeightsAndCache (v : MonadMainnet.Vars) :=
  (MonadMainnet.blockCache v, MonadMainnet.maxObservedHeight v,
   MonadMainnet.lastProcessedHeight v).

Module ScenarioCacheDepth3.

(** 'trims cache to CACHE_DEPTH': the chain 0..10 with [cacheDepth: 3]. *)
Definition opts : Options Fake.World := Fake.options Fake.fakeClient 16 3.

Definition afterFirstTick : Sys Fake.World MonitorReorg.Vars :=
  (MonitorReorg.tick opts
     (Fake.start MonitorReorg.initial (Fake.withChain 10 Fake.new))).2.

(** Then the client reports 3 as the latest height, as in 'detects
    CHAIN_REWIND when latest height decreases'. *)
Definition rewound : Sys Fake.World MonitorReorg.Vars :=
  Fake.edit (fun w => Fake.setNow 1 (Fake.setLatestHeight 3 w))
    afterFirstTick.
End ScenarioCacheDepth3.

(** A run in which the fetch of height 1 is rejected: the Monad mainnet
    monitor ticks once on the chain 0..0, the chain grows to 0..2, and the
    monitor ticks again. *)
Module ScenarioRejectedFetch.

Definition opts : Options Fake.World :=
  Fake.options (Fake.rejectingClient [1]) 16 2048.

Definition monadAfterFirstTick : Sys Fake.World MonadMainnet.Vars :=
  (MonadMainnet.tick opts
     (Fake.start (MonadMainnet.initial 0) (Fake.withChain 0 Fake.new))).2.

Definition monadGrown : Sys Fake.World MonadMainnet.Vars :=
  Fake.edit (fun w => Fake.setNow 1 (Fake.withChain 2 w))
    monadAfterFirstTick.

(** The same run of src/monitor_reorg.js. *)
Definition reorgAfterFirstTick : Sys Fake.World MonitorReorg.Vars :=
  (MonitorReorg.tick opts
     (Fake.start MonitorReorg.initial (Fake.withChain 0 Fake.new))).2.

Definition reorgGrown : Sys Fake.World MonitorReorg.Vars :=
  Fake.edit (fun w => Fake.setNow 1 (Fake.withChain 2 w))
    reorgAfterFirstTick.
End ScenarioRejectedFetch.

(** A chain the node has a hole in: blocks 0 and 2 are there, block 1 is
    not, and 2 is the latest height. *)
Module ScenarioMissingBlock.

Definition world : Fake.World :=
  Fake.setLatestHeight 2
    (Fake.setBlock (Fake.linearBlock 2)
       (Fake.setBlock (Fake.linearBlock 0) Fake.new)).

Definition reorgStart : Sys Fake.World MonitorReorg.Vars :=
  Fake.start MonitorReorg.initial world.
End ScenarioMissingBlock.

(** The call [processBlock] makes on the client for a height. *)
Definition fetchOf (h : Z) : RpcCall := CallGetBlock (BlockNumber h true).

Definition isRpcError (e : Event) : Prop := event_type e = "RPC_ERROR".

(** ** Runs of ticks and the RPC_ERROR records they log *)

(** [ticks tick s s']: [s'] is reached from [s] by some number of ticks,
    the client's hidden state moving on in any way before each of them. *)
Inductive ticks {W V} (tick : M W V unit) : Sys W V -> Sys W V -> Prop :=
| ticks_none (s : Sys W V) : ticks tick s s
| ticks_more (s s1 : Sys W V) (f : W -> W) :
    ticks tick s s1 -> ticks tick s (tick (withWorld f s1)).2.

(** An RPC_ERROR record whose [error] contains [Block not found]. *)
Definition isNotFoundError (e : Event) : Prop :=
  event_type e = "RPC_ERROR"
  /\ exists msg err,
       data e = RpcErrorData msg err
       /\ includes "Block not found" err = true.

(** An error record that carries a [message], as the handlers around one
    [processBlock] call write it; the guard around the whole tick writes
    [{ error }] alone. *)
Definition isPerBlockError (e : Event) : Prop :=
  exists msg err, data e = RpcErrorData (Some msg) err.

(** ** Further runs to evaluate the monitors on *)

Module ScenarioMetadata.

(** The options of the tests, but with the default
    [chainMetadataPollMs] of the module, 10000. *)
Definition opts : Options Fake.World :=
  {| client := Fake.fakeClient; recheckDepth := 16; cacheDepth := 2048;
     chainMetadataPollMs := 10000; now := fun w => (Fake.nowMs w, w) |}.

(** src/monitor_reorg.js after a first tick at time 10000 on the chain
    0..1, the clock then standing at 10500. *)
Definition reorgProbed : Sys Fake.World MonitorReorg.Vars :=
  Fake.edit (Fake.setNow 10500)
    (MonitorReorg.tick opts
       (Fake.start MonitorReorg.initial
          (Fake.setNow 10000 (Fake.withChain 1 Fake.new)))).2.

(** 'detects chain reset signals via chainId/genesis changes': after the
    first tick the chain id becomes 2 and block 0 is replaced. *)
Definition genesis_b : Block :=
  Fake.makeBlock 0 "0xgenesis_b" "0xgenesis_b" (Fake.defaultStateRoot 0) [].

Definition reorgReset : Sys Fake.World MonitorReorg.Vars :=
  Fake.edit
    (fun w => Fake.setNow 1 (Fake.setBlock genesis_b (Fake.setChainId 2 w)))
    (Scenario.reorgAfterFirstTick 1).

(** The Monad mainnet monitor after the same first tick. *)
Definition monadProbed : Sys Fake.World MonadMainnet.Vars :=
  Fake.edit (Fake.setNow 10500)
    (MonadMainnet.tick opts
       (Fake.start (MonadMainnet.initial 10000)
          (Fake.setNow 10000 (Fake.withChain 1 Fake.new)))).2.

Definition monadReset : Sys Fake.World MonadMainnet.Vars :=
  Fake.edit
    (fun w => Fake.setNow 1 (Fake.setBlock genesis_b (Fake.setChainId 2 w)))
    (Scenario.monadAfterFirstTick 1).
End ScenarioMetadata.

(** The client of the last test once [getBlock] is replaced: every fetch is
    rejected with [boom], the chain id is still answered. *)
Module ScenarioBoom.

Definition opts : Options Fake.World := Fake.options Fake.boomClient 16 2048.

Definition reorgStart : Sys Fake.World MonitorReorg.Vars :=
  Fake.edit (Fake.setNow 7) (Scenario.reorgAfterFirstTick 1).
End ScenarioBoom.

(** A node that is down: the chain id is refused with [chain id down],
    every fetch with [boom], and of two rejections in flight the one of the
    fetch arrives first. *)
Module ScenarioBothRejected.

Definition downClient : Client Fake.World :=
  {| getChainId := fun w => (Throw "chain id down", w);
     getBlock := fun _ w => (Throw "boom", w);
     laterRejectsFirst := fun _ => true |}.

Definition opts : Options Fake.World := Fake.options downClient 16 2048.

Definition reorgStart : Sys Fake.World MonitorReorg.Vars :=
  Fake.start MonitorReorg.initial (Fake.setNow 7 Fake.new).
End ScenarioBothRejected.

(** ** Relations between the state before and after a piece of monitor code *)

(** [m] takes every state to a state related to it by [R], whether it
    returns or throws. *)
Definition relates {W V A} (R : Sys W V -> Sys W V -> Prop) (m : M W V A)
  : Prop :=
  forall s, R s (m s).2.

(** The two states differ at most in what the client has seen and become. *)
Definition sameButClient {W V} (s s' : Sys W V) : Prop :=
  vars s' = vars s /\ events s' = events s /\ alerts s' = alerts s.

(** Neither height has gone down. *)
Definition reorgHeightsGrow {W} (s s' : Sys W MonitorReorg.Vars) : Prop :=
  MonitorReorg.lastProcessedHeight (vars s)
  <= MonitorReorg.lastProcessedHeight (vars s')
  /\ MonitorReorg.maxObservedHeight (vars s)
     <= MonitorReorg.maxObservedHeight (vars s').

(** [lastProcessedHeight] has not moved and [maxObservedHeight] has not gone
    down: what the loops of the Monad mainnet monitor do to the heights. *)
Definition monadWatermarkGrows {W} (s s' : Sys W MonadMainnet.Vars) : Prop :=
  MonadMainnet.lastProcessedHeight (vars s')
  = MonadMainnet.lastProcessedHeight (vars s)
  /\ MonadMainnet.maxObservedHeight (vars s)
     <= MonadMainnet.maxObservedHeight (vars s').

(** ** The hourly counters against the log *)

(** How many events of type [t] the list holds. *)
Definition countType (t : string) (l : list Event) : Z :=
  Z.of_nat (length (filter (fun e => event_type e = t) l)).

(** Between [s] and [s'] the log has only grown, and the three incident
    counters of [hourlyStats] have grown by the number of events of their
    own type that were logged. *)
Definition monadCountersTrack {W} (s s' : Sys W MonadMainnet.Vars) : Prop :=
  exists l,
    events s' = events s ++ l
    /\ blocksReplaced (MonadMainnet.hourlyStats (vars s'))
       = blocksReplaced (MonadMainnet.hourlyStats (vars s))
         + countType "BLOCK_REPLACED" l
    /\ reorgsDetected (MonadMainnet.hourlyStats (vars s'))
       = reorgsDetected (MonadMainnet.hourlyStats (vars s))
         + countType "REORG_DETECTED" l
    /\ chainRewinds (MonadMainnet.hourlyStats (vars s'))
       = chainRewinds (MonadMainnet.hourlyStats (vars s))
         + countType "CHAIN_REWIND" l.

(** ** The alerts against the log *)

(** The event types each monitor hands to [sendAlert] next to [logJson]. *)
Definition reorgAlertTypes : list string :=
  ["BLOCK_REPLACED"; "PARENT_HASH_MISMATCH_DETECTED"; "CHAIN_ID_CHANGED";
   "GENESIS_CHANGED"; "CHAIN_REWIND"].

Definition monadAlertTypes : list string :=
  ["BLOCK_REPLACED"; "REORG_DETECTED"; "CHAIN_REWIND"].

(** The events of [l] whose type is one of [types], in the order of [l]. *)
Definition ofTypes (types : list string) (l : list Event) : list Event :=
  filter (fun e => event_type e ∈ types) l.

(** Between [s] and [s'] the log has only grown, and the alerts have grown
    by the logged events of the given types, with their payloads and in
    their order. *)
Definition alertsFollow (types : list string) {W V} (s s' : Sys W V)
  : Prop :=
  exists l,
    events s' = events s ++ l /\ alerts s' = alerts s ++ ofTypes types l.

(** ** The hourly report against the log *)

(** The three incident counters are zero, as [resetHourlyStats] and the
    start of the monitor leave them. *)
Definition noIncidentsCounted (st : HourlyStats) : Prop :=
  blocksReplaced st = 0 /\ reorgsDetected st = 0 /\ chainRewinds st = 0.

(** [s''] is [s'] after an hourly report over a stretch of the log [l]:
    one HOURLY_REPORT record is logged whose [stats] count the incidents
    of [l]; its [threat_assessment] is LOW exactly when [l] holds none;
    the same record is sent as HOURLY_THREAT_REPORT unless the assessment
    is LOW; and the incident counters are zero afterwards. *)
Definition reportsIncidents {W} (l : list Event)
    (s' s'' : Sys W MonadMainnet.Vars) : Prop :=
  exists dur st lvl why,
    let report := HourlyReportData "HOURLY_ANALYSIS" dur st lvl why in
    events s'' = events s' ++ [{| event_type := "HOURLY_REPORT";
                                  data := report |}]
    /\ blocksReplaced st = countType "BLOCK_REPLACED" l
    /\ reorgsDetected st = countType "REORG_DETECTED" l
    /\ chainRewinds st = countType "CHAIN_REWIND" l
    /\ (lvl = "LOW"
        <-> countType "BLOCK_REPLACED" l = 0
            /\ countType "REORG_DETECTED" l = 0
            /\ countType "CHAIN_REWIND" l = 0)
    /\ alerts s''
       = alerts s'
         ++ (if decide (lvl = "LOW") then []
             else [{| event_type := "HOURLY_THREAT_REPORT";
                      data := report |}])
    /\ noIncidentsCounted (MonadMainnet.hourlyStats (vars s'')).

(** ** The first script of src/monitor_reorg.js: the watcher for Anvil

    One module-level [blockCache], a [logJson] that prints, and a timer
    whose callback fetches the latest block once a second.  Heights are
    [Number(block.number)], taken as integers. *)

Module AnvilMonitor.

(** The value stored under a height: [{ hash, parentHash }]. *)
Record Cached := { cached_hash : Hash; cached_parentHash : Hash }.

(** The second argument of [logJson]. *)
Inductive LogData :=
| MonitorStartData (message : string)
| ReorgDetectedData (height : Z) (actual_parent_hash : Hash)
    (expected_parent_hash : Hash) (reorg_depth : string) (severity : string)
| BlockReceivedData (height : Z) (hash : Hash) (parent_hash : Hash)
    (tx_count : nat)
| RpcErrorData (error : string).

Record Event := { event_type : string; data : LogData }.

(** [blockCache] and what has been printed so far. *)
Record State := { blockCache : gmap Z Cached; printed : list Event }.

Definition MAX_CACHE_SIZE : nat := 100.

Definition initial : State := {| blockCache := ∅; printed := [] |}.

Definition logJson (type : string) (d : LogData) (st : State) : State :=
  {| blockCache := blockCache st;
     printed := printed st ++ [{| event_type := type; data := d |}] |}.

Definition set_blockCache (c : gmap Z Cached) (st : State) : State :=
  {| blockCache := c; printed := printed st |}.

Definition calculateDepth (currentHeight : Z) : string :=
  "Calculated based on fork point".

(** [Math.min(...blockCache.keys())]; on an empty map it is [Infinity],
    which is no key. *)
Definition oldestKey (cache : gmap Z Cached) : option Z :=
  match (map_to_list cache).*1 with
  | [] => None
  | k :: ks => Some (foldr Z.min k ks)
  end.

(** [blockCache.set(...)] followed by the clean-up of the oldest entry. *)
Definition store (currentNumber : Z) (entry : Cached)
    (cache : gmap Z Cached) : gmap Z Cached :=
  let cache1 := <[currentNumber := entry]> cache in
  if decide (MAX_CACHE_SIZE < size cache1)%nat then
    match oldestKey cache1 with
    | Some oldest => delete oldest cache1
    | None => cache1
    end
  else cache1.

(** The continuity check on a fetched block. *)
Definition checkContinuity (block : Block) (st : State) : State :=
  let currentNumber := number block in
  let currentParentHash := parentHash block in
  match blockCache st !! (currentNumber - 1) with
  | Some previousBlock =>
      if decide (currentParentHash ≠ cached_hash previousBlock) then
        logJson "REORG_DETECTED"
          (ReorgDetectedData currentNumber currentParentHash
             (cached_hash previousBlock) (calculateDepth currentNumber)
             "HIGH")
          st
      else st
  | None => st
  end.

(** [!blockCache.has(n) || blockCache.get(n).hash !== currentHash] *)
Definition newOrChanged (block : Block) (st : State) : bool :=
  match blockCache st !! number block with
  | None => true
  | Some cached => bool_decide (cached_hash cached ≠ hash block)
  end.

Definition updateCache (block : Block) (st : State) : State :=
  if newOrChanged block st then
    let st1 :=
      logJson "BLOCK_RECEIVED"
        (BlockReceivedData (number block) (hash block) (parentHash block)
           (length (transactions block)))
        st in
    set_blockCache
      (store (number block)
         {| cached_hash := hash block;
            cached_parentHash := parentHash block |}
         (blockCache st1))
      st1
  else st.

(** The callback of [setInterval]: the whole body sits in
    [try { ... } catch (err) { logJson("RPC_ERROR", ...) }], and only the
    fetch can throw. *)
Definition poll {W} (client : Client W) (x : State * W) : State * W :=
  match getBlock client BlockTagLatest x.2 with
  | (Ret block, w') => (updateCache block (checkContinuity block x.1), w')
  | (Throw err, w') => (logJson "RPC_ERROR" (RpcErrorData err) x.1, w')
  end.

(** Any number of callbacks, the node doing anything in between. *)
Inductive polls {W} (client : Client W)
  : State * W -> State * W -> Prop :=
| polls_none (x : State * W) : polls client x x
| polls_more (x y : State * W) (f : W -> W) :
    polls client x y -> polls client x (poll client (y.1, f y.2)).
End AnvilMonitor.

Module AnvilScenario.

(** A cache holding the heights 11..110 of the linear chain. *)
Definition fullCache : gmap Z AnvilMonitor.Cached :=
  list_to_map
    ((fun h =>
        (h, {| AnvilMonitor.cached_hash := Fake.blockHash h;
               AnvilMonitor.cached_parentHash := Fake.blockHash (h - 1) |}))
       <$> seqZ 11 100).

Definition full : AnvilMonitor.State :=
  {| AnvilMonitor.blockCache := fullCache; AnvilMonitor.printed := [] |}.

(** The node now answers with block 5 of the chain. *)
Definition rewound : Fake.World :=
  Fake.setLatestHeight 5 (Fake.withChain 110 Fake.new).

(** The chain 0..2 seen up to block 1; block 2 arrives with another
    parent and stays the tip. *)
Definition afterBlock1 : AnvilMonitor.State * Fake.World :=
  AnvilMonitor.poll Fake.fakeClient
    (AnvilMonitor.initial, Fake.setLatestHeight 1 (Fake.withChain 2 Fake.new)).

Definition forked : AnvilMonitor.State * Fake.World :=
  (afterBlock1.1,
   Fake.setLatestHeight 2 (Fake.setBlock Scenario.block2_reorg afterBlock1.2)).
End AnvilScenario.

(** ** A tick on a chain that has not moved *)

(** In every state of the node that [stable] allows, the clock and the
    client stay within [stable], the latest block is [chain L], and the
    block at each height [h] of [lo..L] is [chain h]. *)
Definition answersFrom {W} (opts : Options W) (stable : W -> Prop)
    (chain : Z -> Block) (lo L : Z) : Prop :=
  (forall w, stable w -> stable (now opts w).2)
  /\ (forall w, stable w ->
        exists w',
          getBlock (client opts) BlockTagLatest w = (Ret (chain L), w')
          /\ stable w')
  /\ (forall w h, stable w -> lo <= h <= L ->
        exists w',
          getBlock (client opts) (BlockNumber h true) w = (Ret (chain h), w')
          /\ stable w').

(** The cache holds the hash of [chain h] at every height [h] of [lo..L],
    and whatever it holds just below such a height is the parent of
    [chain h]. *)
Definition cachedChain (cache : gmap Z CachedBlock) (chain : Z -> Block)
    (lo L : Z) : Prop :=
  forall h, lo <= h <= L ->
    (exists c, cache !! h = Some c /\ cached_hash c = hash (chain h))
    /\ (forall p, cache !! (h - 1) = Some p ->
          parentHash (chain h) = cached_hash p).

(** [n] more blocks counted in [hourlyStats.blocksProcessed], nothing else
    changed. *)
Definition countProcessed (n : nat) (v : MonadMainnet.Vars)
  : MonadMainnet.Vars :=
  Nat.iter n (MonadMainnet.bump MonadMainnet.incr_blocksProcessed) v.

(** ** What the handlers around one [processBlock] call log *)

(** What the client answers when it is asked for the heights [hs] one after
    the other, from the state [w] of the node on. *)
Fixpoint answers {W} (c : Client W) (hs : list Z) (w : W)
  : list (Z * Outcome Block) :=
  match hs with
  | [] => []
  | h :: rest =>
      let '(r, w') := getBlock c (BlockNumber h true) w in
      (h, r) :: answers c rest w'
  end.

(** The rejected ones among them, each with the message of its error. *)
Fixpoint rejections (l : list (Z * Outcome Block)) : list (Z * string) :=
  match l with
  | [] => []
  | (h, Throw e) :: rest => (h, e) :: rejections rest
  | (_, Ret _) :: rest => rejections rest
  end.

(** The record the handler of the forward sync writes for the height and
    the error of a rejected fetch, and the one the handler of the deep
    recheck writes. *)
Definition forwardFailed (x : Z * string) : Event :=
  {| event_type := "RPC_ERROR";
     data :=
       RpcErrorData (Some ("Failed to process block " +:+ pretty x.1)) x.2 |}.

Definition recheckFailed (x : Z * string) : Event :=
  {| event_type := "RPC_ERROR";
     data := RpcErrorData (Some ("Recheck failed for " +:+ pretty x.1)) x.2 |}.

(** The RPC_ERROR records of a stretch of the log, in order. *)
Definition rpcErrors (l : list Event) : list Event :=
  filter (fun e => event_type e = "RPC_ERROR") l.

(** The heights at which the forward sync calls [processBlock]: it skips
    the negative ones. *)
Definition fetched (hs : list Z) : list Z := filter (fun h => ¬ h < 0) hs.

(** ** The loops of [tick] as JavaScript counts them

    A height in the monitors is a JavaScript number holding an integer, and
    the [for] loops of [tick] advance it with [h++].  Here the counter is
    such a number and a loop may go on for ever, which a run with a given
    amount of fuel shows by still running when the fuel is used up.  The
    other phases are those of the monitors above; their arithmetic is
    exact as long as the heights and depths they see are at most [2^53] in
    magnitude. *)

Module JsNumber.

(** The double nearest to the integer [z], a tie going to the even
    significand: what [Number(z)] gives for a BigInt, and what [+] and [-]
    round their exact result to (for results below [2^1024] in
    magnitude). *)
Definition toDouble (z : Z) : Z :=
  let a := Z.abs z in
  let e := Z.log2 a in
  if e <? 53 then z
  else
    let ulp := 2 ^ (e - 52) in
    let q := a / ulp in
    let r := a mod ulp in
    let q' :=
      if 2 * r <? ulp then q
      else if ulp <? 2 * r then q + 1
      else if Z.even q then q else q + 1 in
    Z.sgn z * (q' * ulp).

(** [h++], that is [h = h + 1] *)
Definition increment (h : Z) : Z := toDouble (h + 1).


End JsNumber.

(** A computation that may still be running when its fuel is used up:
    [None] then. *)
Definition Run (W V A : Type) : Type :=
  Sys W V -> option (Outcome A * Sys W V).

(** A phase without a counting loop. *)
Definition finished {W V A} (m : M W V A) : Run W V A := fun s => Some (m s).

Definition andThen {W V A B} (m : Run W V A) (k : A -> Run W V B)
  : Run W V B :=
  fun s =>
    match m s with
    | Some (Ret a, s') => k a s'
    | Some (Throw e, s') => Some (Throw e, s')
    | None => None
    end.

(** [try { m } catch (err) { handler err.message }] around a computation
    that may not end. *)
Definition guarded {W V A} (m : Run W V A) (handler : string -> M W V A)
  : Run W V A :=
  fun s =>
    match m s with
    | Some (Ret a, s') => Some (Ret a, s')
    | Some (Throw e, s') => Some (handler e s')
    | None => None
    end.

(** [for (let h = from; h <= bound; h++) { body }]: [bound] is read at
    each test, [body h] returns [false] for [break] and [true] otherwise
    ([continue] included), and one unit of fuel is spent per test. *)
Fixpoint forLoop {W V} (body : Z -> M W V bool) (bound : V -> Z)
    (fuel : nat) (h : Z) : Run W V unit :=
  fun s =>
    match fuel with
    | O => None
    | S fuel' =>
        if decide (h <= bound (vars s)) then
          match body h s with
          | (Ret true, s') =>
              forLoop body bound fuel' (JsNumber.increment h) s'
          | (Ret false, s') => Some (Ret tt, s')
          | (Throw e, s') => Some (Throw e, s')
          end
        else Some (Ret tt, s)
    end.


(** [tick] of src/monitor_reorg.js with its two [for] loops counted as
    above. *)
Module MonitorReorgJs.

Section WithOptions.
Context {W : Type}.
Variable opts : Options W.

Local Open Scope monitor_scope.

(** The body of the forward-sync [for]. *)
Definition forwardStep (h : Z) : M W MonitorReorg.Vars bool :=
  if decide (h < 0) then ret true
  else
    try_catch
      (MonitorReorg.processBlock opts h ;;;
       modify (MonitorReorg.set_lastProcessedHeight h) ;;;
       ret true)
      (fun err =>
         logJson "RPC_ERROR"
           (RpcErrorData (Some ("Failed to process block " +:+ pretty h))
              err) ;;;
         ret false).

(** Process new blocks (Forward Sync) *)
Definition forwardSync (fuel : nat) (latestHeight : Z)
  : Run W MonitorReorg.Vars unit :=
  fun s =>
    let lastProcessed := MonitorReorg.lastProcessedHeight (vars s) in
    if bool_decide (latestHeight > lastProcessed) then
      forLoop forwardStep (fun _ => latestHeight) fuel
        (JsNumber.increment lastProcessed) s
    else Some (Ret tt, s).

(** The body of the recheck [for]. *)
Definition recheckStep (h : Z) : M W MonitorReorg.Vars bool :=
  try_catch
    (MonitorReorg.processBlock opts h ;;; ret tt)
    (fun err =>
       logJson "RPC_ERROR"
         (RpcErrorData (Some ("Recheck failed for " +:+ pretty h)) err)) ;;;
  ret true.

(** Recheck recent blocks (Deep Reorg Detection) *)
Definition deepRecheck (fuel : nat) (latestHeight : Z)
  : Run W MonitorReorg.Vars unit :=
  let startHeight :=
    Z.max 0
      (JsNumber.toDouble
         (JsNumber.toDouble (latestHeight - recheckDepth opts) + 1)) in
  forLoop recheckStep MonitorReorg.lastProcessedHeight fuel startHeight.

Definition tickSuffix (fuel : nat) (latestHeight : Z)
  : Run W MonitorReorg.Vars unit :=
  andThen (finished (MonitorReorg.rewindCheck latestHeight)) (fun _ =>
  andThen (forwardSync fuel latestHeight) (fun _ =>
  andThen (deepRecheck fuel latestHeight) (fun _ =>
  finished (MonitorReorg.pruneCache opts latestHeight)))).

Definition tickBody (fuel : nat) : Run W MonitorReorg.Vars unit :=
  andThen (finished (MonitorReorg.tickPrefix opts)) (tickSuffix fuel).

(** [async function tick()] *)
Definition tick (fuel : nat) : Run W MonitorReorg.Vars unit :=
  guarded (tickBody fuel)
    (fun message =>
       when (negb (includes "Block not found" message))
         (logJson "RPC_ERROR" (RpcErrorData None message))).
End WithOptions.
End MonitorReorgJs.

(** [tick] of the Monad mainnet monitor with its two [for] loops counted as
    above. *)
Module MonadMainnetJs.

Section WithOptions.
Context {W : Type}.
Variable opts : Options W.

Local Open Scope monitor_scope.

(** The body of the forward-sync [for]: the result of [processBlock] is
    dropped and there is no [break]. *)
Definition forwardStep (h : Z) : M W MonadMainnet.Vars bool :=
  if decide (h < 0) then ret true
  else MonadMainnet.processBlock opts h ;;; ret true.

(** Process new blocks (Forward Sync) *)
Definition forwardSync (fuel : nat) (latestHeight : Z)
  : Run W MonadMainnet.Vars unit :=
  fun s =>
    let lastProcessed := MonadMainnet.lastProcessedHeight (vars s) in
    if bool_decide (latestHeight > lastProcessed) then
      andThen
        (forLoop forwardStep (fun _ => latestHeight) fuel
           (JsNumber.increment lastProcessed))
        (fun _ =>
           finished (modify (MonadMainnet.set_lastProcessedHeight latestHeight)))
        s
    else Some (Ret tt, s).

(** The body of the recheck [for]. *)
Definition recheckStep (h : Z) : M W MonadMainnet.Vars bool :=
  MonadMainnet.processBlock opts h ;;; ret true.

(** Recheck recent blocks (Deep Reorg Detection) *)
Definition deepRecheck (fuel : nat) (latestHeight : Z)
  : Run W MonadMainnet.Vars unit :=
  let startHeight :=
    Z.max 0
      (JsNumber.toDouble
         (JsNumber.toDouble (latestHeight - recheckDepth opts) + 1)) in
  forLoop recheckStep (fun _ => latestHeight) fuel startHeight.

Definition tickSuffix (fuel : nat) (latestHeight : Z)
  : Run W MonadMainnet.Vars unit :=
  andThen (finished (MonadMainnet.coldStart latestHeight)) (fun _ =>
  andThen (finished (MonadMainnet.rewindCheck latestHeight)) (fun _ =>
  andThen (forwardSync fuel latestHeight) (fun _ =>
  andThen (deepRecheck fuel latestHeight) (fun _ =>
  finished (MonadMainnet.pruneCache opts latestHeight))))).

Definition tickBody (fuel : nat) : Run W MonadMainnet.Vars unit :=
  andThen (finished (MonadMainnet.tickPrefix opts)) (tickSuffix fuel).

(** [async function tick()] *)
Definition tick (fuel : nat) : Run W MonadMainnet.Vars unit :=
  guarded (tickBody fuel)
    (fun message =>
       when (negb (includes "Block not found" message))
         (logJson "RPC_ERROR" (RpcErrorData None message))).
End WithOptions.
End MonadMainnetJs.

(** A node that holds block 0 and whose tip is block [2^53]. *)
Module ScenarioUnsafeTip.




End ScenarioUnsafeTip.

(** ** Reasoning about monitor code *)

Section Reasoning.
Context {W V : Type}.

Lemma appends_silent {A} (Q : Event -> Prop) (m : M W V A) :
  (forall s, events (m s).2 = events s) -> appends Q m.
Proof.
  intros H s. exists []. rewrite H, app_nil_r. split; [reflexivity | constructor].
Qed.

Lemma appends_ret {A} Q (a : A) : appends Q (ret a : M W V A).
Proof. apply appends_silent. reflexivity. Qed.

Lemma appends_gets {A} Q (f : V -> A) : appends Q (gets f : M W V A).
Proof. apply appends_silent. reflexivity. Qed.

Lemma appends_modify Q (f : V -> V) : appends Q (modify f : M W V unit).
Proof. apply appends_silent. reflexivity. Qed.

Lemma appends_sendAlert Q type d : appends Q (sendAlert type d : M W V unit).
Proof. apply appends_silent. reflexivity. Qed.

Lemma appends_call_now Q (opts : Options W) : appends Q (call_now opts : M W V Z).
Proof.
  apply appends_silent. intros s. unfold call_now.
  destruct (now opts (world s)). reflexivity.
Qed.

Lemma appends_call_getBlock Q (opts : Options W) args :
  appends Q (call_getBlock opts args : M W V Block).
Proof.
  apply appends_silent. intros s. unfold call_getBlock.
  destruct (getBlock (client opts) args (world s)). reflexivity.
Qed.

Lemma appends_call_metadata Q (opts : Options W) :
  appends Q (call_metadata opts : M W V (Z * Block)).
Proof.
  apply appends_silent. intros s. unfold call_metadata.
  destruct (getChainId (client opts) (world s)) as [r1 w1].
  destruct (getBlock (client opts) (BlockNumber 0 false) w1) as [r2 w2].
  destruct r1, r2; try destruct (laterRejectsFirst (client opts) w2);
    reflexivity.
Qed.

Lemma appends_logJson (Q : Event -> Prop) type d :
  Q {| event_type := type; data := d |} -> appends Q (logJson type d : M W V unit).
Proof.
  intros HQ s. exists [{| event_type := type; data := d |}].
  split; [reflexivity | repeat constructor; exact HQ].
Qed.

Lemma appends_bind {A B} Q (m : M W V A) (k : A -> M W V B) :
  appends Q m -> (forall a, appends Q (k a)) -> appends Q (bind m k).
Proof.
  intros Hm Hk s. unfold bind.
  destruct (Hm s) as (l1 & Hl1 & Hall1).
  destruct (m s) as [[a | e] s1]; simpl in *.
  - destruct (Hk a s1) as (l2 & Hl2 & Hall2).
    exists (l1 ++ l2). rewrite Hl2, Hl1, app_assoc.
    split; [reflexivity | apply Forall_app; split; assumption].
  - exists l1. split; assumption.
Qed.

Lemma appends_try_catch {A} Q (m : M W V A) (h : string -> M W V A) :
  appends Q m -> (forall e, appends Q (h e)) -> appends Q (try_catch m h).
Proof.
  intros Hm Hh s. unfold try_catch.
  destruct (Hm s) as (l1 & Hl1 & Hall1).
  destruct (m s) as [[a | e] s1]; simpl in *.
  - exists l1. split; assumption.
  - destruct (Hh e s1) as (l2 & Hl2 & Hall2).
    exists (l1 ++ l2). rewrite Hl2, Hl1, app_assoc.
    split; [reflexivity | apply Forall_app; split; assumption].
Qed.

Lemma appends_when Q (c : bool) (m : M W V unit) :
  appends Q m -> appends Q (when c m).
Proof. intros Hm. destruct c; [exact Hm | apply appends_ret]. Qed.

Lemma never_throws_ret {A} (a : A) : never_throws (@ret W V A a).
Proof. intros s. exists a. reflexivity. Qed.

Lemma never_throws_gets {A} (f : V -> A) : never_throws (gets f : M W V A).
Proof. intros s. eexists. reflexivity. Qed.

Lemma never_throws_modify (f : V -> V) : never_throws (modify f : M W V unit).
Proof. intros s. eexists. reflexivity. Qed.

Lemma never_throws_logJson type d : never_throws (@logJson W V type d).
Proof. intros s. eexists. reflexivity. Qed.

Lemma never_throws_sendAlert type d : never_throws (@sendAlert W V type d).
Proof. intros s. eexists. reflexivity. Qed.

Lemma never_throws_call_now (opts : Options W) :
  never_throws (@call_now W V opts).
Proof.
  intros s. unfold call_now. destruct (now opts (world s)).
  eexists. reflexivity.
Qed.

Lemma never_throws_bind {A B} (m : M W V A) (k : A -> M W V B) :
  never_throws m -> (forall a, never_throws (k a)) -> never_throws (bind m k).
Proof.
  intros Hm Hk s. unfold bind. destruct (Hm s) as (a & Ha).
  destruct (m s) as [r s1]. simpl in Ha. subst r. apply Hk.
Qed.

Lemma never_throws_try_catch {A} (m : M W V A) (h : string -> M W V A) :
  (forall e, never_throws (h e)) -> never_throws (try_catch m h).
Proof.
  intros Hh s. unfold try_catch.
  destruct (m s) as [[a | e] s1]; [exists a; reflexivity | apply Hh].
Qed.

Lemma never_throws_when (c : bool) (m : M W V unit) :
  never_throws m -> never_throws (when c m).
Proof. intros Hm. destruct c; [exact Hm | apply never_throws_ret]. Qed.

Lemma preserves_ret {A B} (f : V -> B) (a : A) :
  preserves f (ret a : M W V A).
Proof. intros s. reflexivity. Qed.

Lemma preserves_gets {A B} (f : V -> B) (g : V -> A) :
  preserves f (gets g : M W V A).
Proof. intros s. reflexivity. Qed.

Lemma preserves_logJson {B} (f : V -> B) type d :
  preserves f (logJson type d : M W V unit).
Proof. intros s. reflexivity. Qed.

Lemma preserves_sendAlert {B} (f : V -> B) type d :
  preserves f (sendAlert type d : M W V unit).
Proof. intros s. reflexivity. Qed.

Lemma preserves_modify {B} (f : V -> B) (g : V -> V) :
  (forall v, f (g v) = f v) -> preserves f (modify g : M W V unit).
Proof. intros H s. apply H. Qed.

Lemma preserves_call_now {B} (f : V -> B) (opts : Options W) :
  preserves f (call_now opts : M W V Z).
Proof. intros s. unfold call_now. destruct (now opts (world s)). reflexivity. Qed.

Lemma preserves_call_getBlock {B} (f : V -> B) (opts : Options W) args :
  preserves f (call_getBlock opts args : M W V Block).
Proof.
  intros s. unfold call_getBlock.
  destruct (getBlock (client opts) args (world s)). reflexivity.
Qed.

Lemma preserves_call_metadata {B} (f : V -> B) (opts : Options W) :
  preserves f (call_metadata opts : M W V (Z * Block)).
Proof.
  intros s. unfold call_metadata.
  destruct (getChainId (client opts) (world s)) as [r1 w1].
  destruct (getBlock (client opts) (BlockNumber 0 false) w1) as [r2 w2].
  destruct r1, r2; try destruct (laterRejectsFirst (client opts) w2);
    reflexivity.
Qed.

Lemma preserves_bind {A A' B} (f : V -> B) (m : M W V A) (k : A -> M W V A') :
  preserves f m -> (forall a, preserves f (k a)) -> preserves f (bind m k).
Proof.
  intros Hm Hk s. unfold bind. specialize (Hm s).
  destruct (m s) as [[a | e] s1]; simpl in *; [| exact Hm].
  rewrite Hk. exact Hm.
Qed.


Lemma preserves_when {B} (f : V -> B) (c : bool) (m : M W V unit) :
  preserves f m -> preserves f (when c m).
Proof. intros Hm. destruct c; [exact Hm | apply preserves_ret]. Qed.

(** A computation that never throws returns [tt] when its type is [unit]. *)
Lemma never_throws_unit (m : M W V unit) s :
  never_throws m -> (m s).1 = Ret tt.
Proof. intros Hm. destruct (Hm s) as ([] & H). exact H. Qed.

End Reasoning.


(** ** [processBlock] of src/monitor_reorg.js, run on a fetched block *)

Lemma filter_not_in_set (other l : list string) :
  filter (fun tx => tx ∉ (list_to_set other : gset string)) l
  = filter (fun tx => tx ∉ other) l.
Proof.
  apply list_filter_iff. intros x. rewrite elem_of_list_to_set. reflexivity.
Qed.

Section MonitorReorgProcessBlock.
Import MonitorReorg.
Context {W : Type}.
Variable opts : Options W.

Lemma set_blockCache_same v : set_blockCache (blockCache v) v = v.
Proof. destruct v; reflexivity. Qed.

Lemma reorg_processBlock_ok (s : Sys W Vars) h b w' :
  getBlock (client opts) (BlockNumber h true) (world s) = (Ret b, w') ->
  processBlock opts h s
  = (Ret true,
     {| vars := reorgVarsAfter (vars s) b;
        events :=
          events s ++ replacedEvents (blockCache (vars s)) b
            ++ mismatchEvents "PARENT_HASH_MISMATCH_DETECTED"
                 (blockCache (vars s)) b
            ++ receivedEvents (blockCache (vars s)) b;
        alerts :=
          alerts s ++ replacedEvents (blockCache (vars s)) b
            ++ mismatchEvents "PARENT_HASH_MISMATCH_DETECTED"
                 (blockCache (vars s)) b;
        rpc_log := rpc_log s ++ [CallGetBlock (BlockNumber h true)];
        world := w' |}).
Proof.
  intros Hget. destruct s as [v ev al rl w]. simpl in *.
  unfold processBlock, bind, call_getBlock. simpl. rewrite Hget. simpl.
  unfold reorgVarsAfter, replacedEvents, mismatchEvents, receivedEvents,
    cacheAfter, newOrChanged, txHashesOf.
  destruct (blockCache v !! number b) as [c |] eqn:Hc;
    destruct (blockCache v !! (number b - 1)) as [p |] eqn:Hp;
    repeat (simpl;
            first [ case_decide | case_bool_decide
                  | rewrite Hc | rewrite Hp ]);
    simpl; try contradiction; try lia.
  all: rewrite ?filter_not_in_set, ?set_blockCache_same, ?app_nil_r,
         <- ?app_assoc; reflexivity.
Qed.

Lemma reorg_processBlock_fail (s : Sys W Vars) h e w' :
  getBlock (client opts) (BlockNumber h true) (world s) = (Throw e, w') ->
  processBlock opts h s
  = (Throw e,
     {| vars := vars s; events := events s; alerts := alerts s;
        rpc_log := rpc_log s ++ [CallGetBlock (BlockNumber h true)];
        world := w' |}).
Proof.
  intros Hget. unfold processBlock, bind, call_getBlock.
  rewrite Hget. reflexivity.
Qed.
End MonitorReorgProcessBlock.

(** ** [processBlock] of the Monad mainnet monitor *)

Section MonadMainnetProcessBlock.
Import MonadMainnet.
Context {W : Type}.
Variable opts : Options W.

Lemma monad_set_blockCache_same v : set_blockCache (blockCache v) v = v.
Proof. destruct v; reflexivity. Qed.

Lemma monad_processBlock_ok (s : Sys W Vars) h b w' :
  getBlock (client opts) (BlockNumber h true) (world s) = (Ret b, w') ->
  processBlock opts h s
  = (Ret true,
     {| vars := monadVarsAfter (vars s) b;
        events :=
          events s ++ replacedEvents (blockCache (vars s)) b
            ++ mismatchEvents "REORG_DETECTED" (blockCache (vars s)) b
            ++ receivedEvents (blockCache (vars s)) b;
        alerts :=
          alerts s ++ replacedEvents (blockCache (vars s)) b
            ++ mismatchEvents "REORG_DETECTED" (blockCache (vars s)) b;
        rpc_log := rpc_log s ++ [CallGetBlock (BlockNumber h true)];
        world := w' |}).
Proof.
  intros Hget. destruct s as [v ev al rl w]. simpl in *.
  unfold processBlock, try_catch, bind, call_getBlock. simpl.
  rewrite Hget. simpl.
  unfold monadVarsAfter, replacedEvents, mismatchEvents, receivedEvents,
    cacheAfter, newOrChanged, isReplaced, isMismatch, txHashesOf.
  destruct (blockCache v !! number b) as [c |] eqn:Hc;
    destruct (blockCache v !! (number b - 1)) as [p |] eqn:Hp;
    repeat (simpl;
            first [ case_decide | case_bool_decide
                  | rewrite Hc | rewrite Hp ]);
    simpl; try contradiction; try lia.
  all: rewrite ?filter_not_in_set, ?monad_set_blockCache_same, ?app_nil_r,
         <- ?app_assoc; reflexivity.
Qed.

(** A rejected fetch is swallowed: [processBlock] returns [false]. *)
Lemma monad_processBlock_fail (s : Sys W Vars) h e w' :
  getBlock (client opts) (BlockNumber h true) (world s) = (Throw e, w') ->
  processBlock opts h s
  = (Ret false,
     {| vars := vars s; events := events s; alerts := alerts s;
        rpc_log := rpc_log s ++ [CallGetBlock (BlockNumber h true)];
        world := w' |}).
Proof.
  intros Hget. unfold processBlock, try_catch, bind, call_getBlock.
  rewrite Hget. reflexivity.
Qed.
End MonadMainnetProcessBlock.

(** ** The block processor: C1, C2, C8 *)

(** C1, as the code has it.  When the cache holds a fingerprint [fp_old] at
    height [h] and the block fetched at [h] has another hash,
    [processBlock] of src/monitor_reorg.js first logs one BLOCK_REPLACED
    event with [height = h], the old and new hash, the old and new state
    root and severity CRITICAL, and it logs no second one.  [dropped] is the
    hashes of [fp_old] that do not occur among the hashes of the new block,
    in the order of [fp_old] and with their repetitions; [added] is the
    hashes of the new block that do not occur in [fp_old], in the order of
    the new block and with their repetitions.  The same record goes to
    [sendAlert]. *)
Theorem C1_block_replaced_event :
  forall (W : Type) (opts : Options W) (s : Sys W MonitorReorg.Vars)
         (h : Z) (b : Block) (w' : W) (fp_old : CachedBlock),
    getBlock (client opts) (BlockNumber h true) (world s) = (Ret b, w') ->
    number b = h ->
    MonitorReorg.blockCache (vars s) !! h = Some fp_old ->
    cached_hash fp_old ≠ hash b ->
    let replaced :=
      {| event_type := "BLOCK_REPLACED";
         data :=
           BlockReplacedData h (cached_hash fp_old) (hash b)
             (cached_stateRoot fp_old) (stateRoot b)
             (filter (fun tx => tx ∉ txHashesOf b) (cached_transactions fp_old))
             (filter (fun tx => tx ∉ cached_transactions fp_old) (txHashesOf b))
             "CRITICAL" |} in
    exists later_events later_alerts,
      events (MonitorReorg.processBlock opts h s).2
      = events s ++ replaced :: later_events
      /\ alerts (MonitorReorg.processBlock opts h s).2
         = alerts s ++ replaced :: later_alerts
      /\ Forall (fun e => event_type e ≠ "BLOCK_REPLACED") later_events.
Proof.
  intros W opts s h b w' fp_old Hget Hh Hc Hne replaced.
  rewrite (reorg_processBlock_ok opts s h b w' Hget). simpl.
  subst h. unfold replacedEvents. rewrite Hc.
  destruct (decide (cached_hash fp_old ≠ hash b)) as [_ | Hn];
    [| contradiction].
  eexists. eexists. split; [reflexivity |]. split; [reflexivity |].
  apply Forall_app. split.
  - unfold mismatchEvents.
    destruct (MonitorReorg.blockCache (vars s) !! (number b - 1));
      [case_decide |]; repeat constructor; simpl; discriminate.
  - unfold receivedEvents.
    destruct (newOrChanged _ b); repeat constructor; simpl; discriminate.
Qed.

(** The second tick of 'detects BLOCK_REPLACED with tx diff when same height
    hash changes': [0xtx2a] is dropped and [0xtx2c] is added. *)
Lemma C1_block_replaced_witness :
  let s := Fake.edit (Fake.setBlock Scenario.block2_new)
             (Scenario.reorgAfterFirstTick 2) in
  exists later_events later_alerts,
    events (MonitorReorg.processBlock Scenario.opts 2 s).2
    = events s
      ++ {| event_type := "BLOCK_REPLACED";
            data :=
              BlockReplacedData 2 "0xblock2" "0xblock2_new"
                (Fake.defaultStateRoot 2) "0xstate2_new"
                ["0xtx2a"] ["0xtx2c"] "CRITICAL" |} :: later_events
    /\ alerts (MonitorReorg.processBlock Scenario.opts 2 s).2
       = alerts s
         ++ {| event_type := "BLOCK_REPLACED";
               data :=
                 BlockReplacedData 2 "0xblock2" "0xblock2_new"
                   (Fake.defaultStateRoot 2) "0xstate2_new"
                   ["0xtx2a"] ["0xtx2c"] "CRITICAL" |} :: later_alerts
    /\ Forall (fun e => event_type e ≠ "BLOCK_REPLACED") later_events.
Proof.
  intros s.
  apply (C1_block_replaced_event Fake.World Scenario.opts s 2
           Scenario.block2_new (world s) (cachedOf (Fake.linearBlock 2))).
  - vm_compute. reflexivity.
  - reflexivity.
  - vm_compute. reflexivity.
  - vm_compute. discriminate.
Defined.

(** C1 in the wording of the specification fails: when the cached block holds a
    transaction twice and its replacement holds it once, the multiset
    difference keeps one occurrence, and the event drops none. *)
Lemma C1_multiset_counterexample :
  let s := Scenario.twiceThenOnce in
  MonitorReorg.blockCache (vars s) !! 1 = Some (cachedOf Scenario.block1_twice)
  /\ getBlock (client Scenario.opts) (BlockNumber 1 true) (world s)
     = (Ret Scenario.block1_once, world s)
  /\ ~ (exists dropped added later,
          events (MonitorReorg.processBlock Scenario.opts 1 s).2
          = events s
            ++ {| event_type := "BLOCK_REPLACED";
                  data :=
                    BlockReplacedData 1 "0xblock1" "0xblock1_new"
                      (Fake.defaultStateRoot 1) (Fake.defaultStateRoot 1)
                      dropped added "CRITICAL" |} :: later
          /\ isMultisetDifference dropped ["0xtxa"; "0xtxa"] ["0xtxa"]
          /\ isMultisetDifference added ["0xtxa"] ["0xtxa"; "0xtxa"]).
Proof.
  intros s. split; [vm_compute; reflexivity |].
  split; [vm_compute; reflexivity |].
  intros (dropped & added & later & Hev & [_ Hcount] & _).
  assert (Hrun :
    events (MonitorReorg.processBlock Scenario.opts 1 s).2
    = events s
      ++ [{| event_type := "BLOCK_REPLACED";
             data :=
               BlockReplacedData 1 "0xblock1" "0xblock1_new"
                 (Fake.defaultStateRoot 1) (Fake.defaultStateRoot 1)
                 [] [] "CRITICAL" |};
          {| event_type := "BLOCK_RECEIVED";
             data :=
               BlockReceivedData 1 "0xblock1_new" "0xgenesis"
                 (Fake.defaultStateRoot 1) (Some "0") "0" 1 ["0xtxa"] |}])
    by (vm_compute; reflexivity).
  rewrite Hrun in Hev. apply app_inv_head in Hev.
  injection Hev as Hd _ _. subst dropped.
  specialize (Hcount "0xtxa"). vm_compute in Hcount. discriminate Hcount.
Qed.

Lemma replacedEvents_type cache b :
  Forall (fun e => event_type e = "BLOCK_REPLACED") (replacedEvents cache b).
Proof.
  unfold replacedEvents. destruct (cache !! number b); [case_decide |];
    repeat constructor.
Qed.

Lemma receivedEvents_type cache b :
  Forall (fun e => event_type e = "BLOCK_RECEIVED") (receivedEvents cache b).
Proof.
  unfold receivedEvents. destruct (newOrChanged cache b); repeat constructor.
Qed.

Lemma mismatchEvents_fires name cache b parent :
  cache !! (number b - 1) = Some parent ->
  cached_hash parent ≠ parentHash b ->
  mismatchEvents name cache b
  = [{| event_type := name;
        data :=
          ParentMismatchData (number b) (cached_hash parent) (parentHash b)
            "CRITICAL" |}].
Proof.
  intros Hp Hne. unfold mismatchEvents. rewrite Hp.
  case_decide; [reflexivity | congruence].
Qed.

(** The parent-hash rule as each monitor has it, on every input (the
    general form of what C2 meets at the test run below).  When the cache
    holds an entry at [h - 1] whose
    hash differs from the parent hash of the block fetched at [h],
    [processBlock] logs exactly one event for it, carrying [at_height = h],
    [expected_parent] (the cached hash at [h - 1]), [actual_parent] (the
    fetched parent hash) and severity CRITICAL.  Its type is
    PARENT_HASH_MISMATCH_DETECTED in src/monitor_reorg.js and REORG_DETECTED
    in the Monad mainnet monitor; neither monitor logs both names.  The
    events logged before it by the call are the BLOCK_REPLACED event of
    rule 1, if that rule fired, and the only events logged after it are
    BLOCK_RECEIVED. *)
Theorem C2_parent_hash_mismatch_event :
  (forall (W : Type) (opts : Options W) (s : Sys W MonitorReorg.Vars)
          (h : Z) (b : Block) (w' : W) (parent : CachedBlock),
     getBlock (client opts) (BlockNumber h true) (world s) = (Ret b, w') ->
     number b = h ->
     MonitorReorg.blockCache (vars s) !! (h - 1) = Some parent ->
     cached_hash parent ≠ parentHash b ->
     exists before after,
       events (MonitorReorg.processBlock opts h s).2
       = events s ++ before
         ++ {| event_type := "PARENT_HASH_MISMATCH_DETECTED";
               data :=
                 ParentMismatchData h (cached_hash parent) (parentHash b)
                   "CRITICAL" |} :: after
       /\ before = replacedEvents (MonitorReorg.blockCache (vars s)) b
       /\ Forall (fun e => event_type e = "BLOCK_REPLACED") before
       /\ Forall (fun e => event_type e = "BLOCK_RECEIVED") after)
  /\
  (forall (W : Type) (opts : Options W) (s : Sys W MonadMainnet.Vars)
          (h : Z) (b : Block) (w' : W) (parent : CachedBlock),
     getBlock (client opts) (BlockNumber h true) (world s) = (Ret b, w') ->
     number b = h ->
     MonadMainnet.blockCache (vars s) !! (h - 1) = Some parent ->
     cached_hash parent ≠ parentHash b ->
     exists before after,
       events (MonadMainnet.processBlock opts h s).2
       = events s ++ before
         ++ {| event_type := "REORG_DETECTED";
               data :=
                 ParentMismatchData h (cached_hash parent) (parentHash b)
                   "CRITICAL" |} :: after
       /\ before = replacedEvents (MonadMainnet.blockCache (vars s)) b
       /\ Forall (fun e => event_type e = "BLOCK_REPLACED") before
       /\ Forall (fun e => event_type e = "BLOCK_RECEIVED") after).
Proof.
  split; intros W opts s h b w' parent Hget Hh Hp Hne; subst h.
  - rewrite (reorg_processBlock_ok opts s _ b w' Hget). simpl.
    rewrite (mismatchEvents_fires _ _ _ parent Hp Hne).
    eexists. eexists. split; [reflexivity |]. split; [reflexivity |].
    split; [apply replacedEvents_type | apply receivedEvents_type].
  - rewrite (monad_processBlock_ok opts s _ b w' Hget). simpl.
    rewrite (mismatchEvents_fires _ _ _ parent Hp Hne).
    eexists. eexists. split; [reflexivity |]. split; [reflexivity |].
    split; [apply replacedEvents_type | apply receivedEvents_type].
Qed.

(** The second tick of 'detects REORG_DETECTED when parent hash becomes
    discontinuous', on src/monitor_reorg.js: block 2 is replaced by a block
    whose parent is not the cached block 1. *)
Lemma C2_parent_hash_mismatch_witness :
  let s := Fake.edit (Fake.setBlock Scenario.block2_reorg)
             (Scenario.reorgAfterFirstTick 2) in
  exists before after,
    events (MonitorReorg.processBlock Scenario.opts 2 s).2
    = events s ++ before
      ++ {| event_type := "PARENT_HASH_MISMATCH_DETECTED";
            data :=
              ParentMismatchData 2 "0xblock1" "0xsome_other_parent"
                "CRITICAL" |} :: after
    /\ before = replacedEvents (MonitorReorg.blockCache (vars s))
                  Scenario.block2_reorg
    /\ Forall (fun e => event_type e = "BLOCK_REPLACED") before
    /\ Forall (fun e => event_type e = "BLOCK_RECEIVED") after.
Proof.
  intros s.
  apply (proj1 C2_parent_hash_mismatch_event Fake.World Scenario.opts s 2
           Scenario.block2_reorg (world s) (cachedOf (Fake.linearBlock 1))).
  - vm_compute. reflexivity.
  - reflexivity.
  - vm_compute. reflexivity.
  - vm_compute. discriminate.
Defined.

(** In the same run neither monitor logs an event of type
    PARENT_HASH_MISMATCH, the name of the specification. *)
Lemma C2_event_name_counterexample :
  let s1 := Fake.edit (Fake.setBlock Scenario.block2_reorg)
              (Scenario.reorgAfterFirstTick 2) in
  let s2 := Fake.edit (Fake.setBlock Scenario.block2_reorg)
              (Scenario.monadAfterFirstTick 2) in
  (MonitorReorg.blockCache (vars s1) !! 1 = Some (cachedOf (Fake.linearBlock 1))
   /\ MonadMainnet.blockCache (vars s2) !! 1 = Some (cachedOf (Fake.linearBlock 1))
   /\ cached_hash (cachedOf (Fake.linearBlock 1))
      ≠ parentHash Scenario.block2_reorg)
  /\ Forall (fun e => event_type e ≠ "PARENT_HASH_MISMATCH")
        (events (MonitorReorg.processBlock Scenario.opts 2 s1).2)
  /\ Forall (fun e => event_type e ≠ "PARENT_HASH_MISMATCH")
        (events (MonadMainnet.processBlock Scenario.opts 2 s2).2).
Proof.
  intros s1 s2. split.
  - split; [vm_compute; reflexivity |].
    split; [vm_compute; reflexivity | vm_compute; discriminate].
  - split; vm_compute; repeat constructor; discriminate.
Qed.

(** C2, at the run of the repository's own test 'detects REORG_DETECTED when
    parent hash becomes discontinuous': a first tick on the chain 0..2, then
    block 2 replaced by a block whose parent is not block 1, then a second
    tick.  src/monitor_reorg.js, the module the test loads, logs the
    discontinuity once, with [at_height = 2], [expected_parent = 0xblock1],
    [actual_parent = 0xsome_other_parent] and severity CRITICAL, after the
    BLOCK_REPLACED of the same call, but under the type
    PARENT_HASH_MISMATCH_DETECTED: no event of the run has the type
    REORG_DETECTED the test looks for, nor the type PARENT_HASH_MISMATCH of
    the specification.  The Monad mainnet monitor logs the same record in
    the same run under the type REORG_DETECTED. *)
Theorem C2_test_run_event_name :
  let change := fun w => Fake.setNow 1 (Fake.setBlock Scenario.block2_reorg w) in
  let r1 :=
    MonitorReorg.tick Scenario.opts
      (Fake.edit change (Scenario.reorgAfterFirstTick 2)) in
  let r2 :=
    MonadMainnet.tick Scenario.opts
      (Fake.edit change (Scenario.monadAfterFirstTick 2)) in
  let discontinuity := fun name =>
    {| event_type := name;
       data :=
         ParentMismatchData 2 "0xblock1" "0xsome_other_parent" "CRITICAL" |} in
  map event_type (events r1.2)
  = ["BLOCK_RECEIVED"; "BLOCK_RECEIVED"; "BLOCK_RECEIVED";
     "BLOCK_REPLACED"; "PARENT_HASH_MISMATCH_DETECTED"; "BLOCK_RECEIVED"]
  /\ events r1.2 !! 4%nat = Some (discontinuity "PARENT_HASH_MISMATCH_DETECTED")
  /\ map event_type (events r2.2)
     = ["MONITOR_SKIP_HISTORY"; "BLOCK_RECEIVED"; "BLOCK_RECEIVED";
        "BLOCK_RECEIVED"; "BLOCK_REPLACED"; "REORG_DETECTED";
        "BLOCK_RECEIVED"]
  /\ events r2.2 !! 5%nat = Some (discontinuity "REORG_DETECTED").
Proof.
  intros change r1 r2 discontinuity.
  repeat split; vm_compute; reflexivity.
Qed.

(** C8.  [processBlock] of src/monitor_reorg.js on an unchanged block: when
    the hash of the block fetched at [h] is the hash cached at [h], and the
    entry cached at [h - 1], if there is one, has the parent hash of the
    block as its hash, the call returns [true], logs no event at all (so no
    BLOCK_REPLACED, no parent-hash mismatch, no BLOCK_RECEIVED), sends no
    alert, and leaves the block cache as it was. *)
Theorem C8_processBlock_unchanged_block :
  forall (W : Type) (opts : Options W) (s : Sys W MonitorReorg.Vars)
         (h : Z) (b : Block) (w' : W) (cached : CachedBlock),
    getBlock (client opts) (BlockNumber h true) (world s) = (Ret b, w') ->
    number b = h ->
    MonitorReorg.blockCache (vars s) !! h = Some cached ->
    cached_hash cached = hash b ->
    (forall parent,
       MonitorReorg.blockCache (vars s) !! (h - 1) = Some parent ->
       cached_hash parent = parentHash b) ->
    (MonitorReorg.processBlock opts h s).1 = Ret true
    /\ events (MonitorReorg.processBlock opts h s).2 = events s
    /\ alerts (MonitorReorg.processBlock opts h s).2 = alerts s
    /\ MonitorReorg.blockCache (vars (MonitorReorg.processBlock opts h s).2)
       = MonitorReorg.blockCache (vars s).
Proof.
  intros W opts s h b w' cached Hget Hh Hc Heq Hparent. subst h.
  rewrite (reorg_processBlock_ok opts s _ b w' Hget). simpl.
  assert (Hrep : replacedEvents (MonitorReorg.blockCache (vars s)) b = []).
  { unfold replacedEvents. rewrite Hc. case_decide; [contradiction | reflexivity]. }
  assert (Hmis : forall name,
            mismatchEvents name (MonitorReorg.blockCache (vars s)) b = []).
  { intros name. unfold mismatchEvents.
    destruct (MonitorReorg.blockCache (vars s) !! (number b - 1)) as [p |] eqn:Hp;
      [| reflexivity].
    specialize (Hparent p eq_refl).
    case_decide; [congruence | reflexivity]. }
  assert (Hnew : newOrChanged (MonitorReorg.blockCache (vars s)) b = false).
  { unfold newOrChanged. rewrite Hc. case_bool_decide; [contradiction | reflexivity]. }
  unfold receivedEvents, reorgVarsAfter, cacheAfter.
  rewrite Hrep, Hmis, Hnew. simpl. rewrite !app_nil_r.
  repeat split. case_bool_decide; reflexivity.
Qed.

(** The recheck of block 2 right after the first tick on the chain 0..2. *)
Lemma C8_processBlock_unchanged_witness :
  let s := Scenario.reorgAfterFirstTick 2 in
  (MonitorReorg.processBlock Scenario.opts 2 s).1 = Ret true
  /\ events (MonitorReorg.processBlock Scenario.opts 2 s).2 = events s
  /\ alerts (MonitorReorg.processBlock Scenario.opts 2 s).2 = alerts s
  /\ MonitorReorg.blockCache
       (vars (MonitorReorg.processBlock Scenario.opts 2 s).2)
     = MonitorReorg.blockCache (vars s).
Proof.
  intros s.
  apply (C8_processBlock_unchanged_block Fake.World Scenario.opts s 2
           (Fake.linearBlock 2) (world s) (cachedOf (Fake.linearBlock 2))).
  - vm_compute. reflexivity.
  - reflexivity.
  - vm_compute. reflexivity.
  - reflexivity.
  - intros parent Hp. vm_compute in Hp. injection Hp as <-. reflexivity.
Defined.

(** ** The tick controller never throws: C10 *)

Ltac step_never_throws :=
  repeat first
    [ apply never_throws_bind; [| intros ]
    | apply never_throws_when
    | apply never_throws_try_catch; intros
    | apply never_throws_ret | apply never_throws_gets
    | apply never_throws_modify | apply never_throws_logJson
    | apply never_throws_sendAlert | apply never_throws_call_now ].

Section MonitorReorgTotal.
Import MonitorReorg.
Context {W : Type}.
Variable opts : Options W.

Lemma reorg_forwardSyncLoop_never_throws hs :
  never_throws (forwardSyncLoop opts hs).
Proof.
  induction hs as [| h rest IH]; simpl; [apply never_throws_ret |].
  case_decide; [exact IH |].
  apply never_throws_bind; [step_never_throws |].
  intros [|]; [exact IH | apply never_throws_ret].
Qed.

Lemma reorg_recheckLoop_never_throws hs :
  never_throws (recheckLoop opts hs).
Proof.
  induction hs as [| h rest IH]; simpl; [apply never_throws_ret |].
  apply never_throws_bind; [step_never_throws | intros _; exact IH].
Qed.

Lemma reorg_rewindCheck_never_throws L : never_throws (@rewindCheck W L).
Proof. unfold rewindCheck. step_never_throws. Qed.

Lemma reorg_forwardSync_never_throws L : never_throws (forwardSync opts L).
Proof.
  unfold forwardSync. step_never_throws.
  apply reorg_forwardSyncLoop_never_throws.
Qed.

Lemma reorg_deepRecheck_never_throws L : never_throws (deepRecheck opts L).
Proof.
  unfold deepRecheck. step_never_throws. apply reorg_recheckLoop_never_throws.
Qed.

Lemma reorg_pruneCache_never_throws L : never_throws (pruneCache opts L).
Proof. unfold pruneCache. step_never_throws. Qed.

Lemma reorg_tickSuffix_never_throws L : never_throws (tickSuffix opts L).
Proof.
  unfold tickSuffix.
  apply never_throws_bind; [apply reorg_rewindCheck_never_throws | intros _].
  apply never_throws_bind; [apply reorg_forwardSync_never_throws | intros _].
  apply never_throws_bind; [apply reorg_deepRecheck_never_throws | intros _].
  apply reorg_pruneCache_never_throws.
Qed.


(** Once the tip is fetched, the rest of the tick runs to its end. *)
Lemma reorg_tick_split s L s1 :
  tickPrefix opts s = (Ret L, s1) -> tick opts s = tickSuffix opts L s1.
Proof.
  intros Hpre. unfold tick, try_catch, tickBody.
  unfold tickPrefix, bind in Hpre. unfold bind at 1.
  destruct (metadataCheck opts s) as [[[] | e] s0]; [| discriminate].
  unfold bind at 1. rewrite Hpre.
  fold (tickSuffix opts L).
  destruct (reorg_tickSuffix_never_throws L s1) as ([] & Hret).
  destruct (tickSuffix opts L s1) as [r s2]. simpl in Hret. subst r.
  reflexivity.
Qed.
End MonitorReorgTotal.

Section MonadMainnetTotal.
Import MonadMainnet.
Context {W : Type}.
Variable opts : Options W.

Lemma monad_processBlock_never_throws h : never_throws (processBlock opts h).
Proof. unfold processBlock. step_never_throws. Qed.

Lemma monad_forwardSyncLoop_never_throws hs :
  never_throws (forwardSyncLoop opts hs).
Proof.
  induction hs as [| h rest IH]; simpl; [apply never_throws_ret |].
  case_decide; [exact IH |].
  apply never_throws_bind;
    [apply monad_processBlock_never_throws | intros _; exact IH].
Qed.

Lemma monad_recheckLoop_never_throws hs :
  never_throws (recheckLoop opts hs).
Proof.
  induction hs as [| h rest IH]; simpl; [apply never_throws_ret |].
  apply never_throws_bind;
    [apply monad_processBlock_never_throws | intros _; exact IH].
Qed.

Lemma monad_coldStart_never_throws L : never_throws (@coldStart W L).
Proof. unfold coldStart. step_never_throws. Qed.

Lemma monad_rewindCheck_never_throws L : never_throws (@rewindCheck W L).
Proof. unfold rewindCheck. step_never_throws. Qed.

Lemma monad_forwardSync_never_throws L : never_throws (forwardSync opts L).
Proof.
  unfold forwardSync. step_never_throws.
  apply monad_forwardSyncLoop_never_throws.
Qed.

Lemma monad_deepRecheck_never_throws L : never_throws (deepRecheck opts L).
Proof. unfold deepRecheck. apply monad_recheckLoop_never_throws. Qed.

Lemma monad_pruneCache_never_throws L : never_throws (pruneCache opts L).
Proof. unfold pruneCache. step_never_throws. Qed.

Lemma monad_afterColdStart_never_throws L :
  never_throws
    (bind (@rewindCheck W L) (fun _ =>
       bind (forwardSync opts L) (fun _ =>
         bind (deepRecheck opts L) (fun _ => pruneCache opts L)))).
Proof.
  apply never_throws_bind; [apply monad_rewindCheck_never_throws | intros _].
  apply never_throws_bind; [apply monad_forwardSync_never_throws | intros _].
  apply never_throws_bind; [apply monad_deepRecheck_never_throws | intros _].
  apply monad_pruneCache_never_throws.
Qed.

Lemma monad_tickSuffix_never_throws L : never_throws (tickSuffix opts L).
Proof.
  unfold tickSuffix.
  apply never_throws_bind; [apply monad_coldStart_never_throws | intros _].
  apply monad_afterColdStart_never_throws.
Qed.


Lemma monad_tick_split s L s1 :
  tickPrefix opts s = (Ret L, s1) -> tick opts s = tickSuffix opts L s1.
Proof.
  intros Hpre. unfold tick, try_catch, tickBody.
  unfold tickPrefix, bind in Hpre. unfold bind at 1.
  destruct (metadataCheck opts s) as [[[] | e] s0]; [| discriminate].
  unfold bind at 1. rewrite Hpre.
  fold (tickSuffix opts L).
  destruct (monad_tickSuffix_never_throws L s1) as ([] & Hret).
  destruct (tickSuffix opts L s1) as [r s2]. simpl in Hret. subst r.
  reflexivity.
Qed.
End MonadMainnetTotal.

(** ** The rewind check: C3 *)

Ltac step_preserves :=
  repeat first
    [ apply preserves_bind; [| intros ]
    | apply preserves_when
    | apply preserves_ret | apply preserves_gets
    | apply preserves_logJson | apply preserves_sendAlert
    | apply preserves_call_now | apply preserves_call_getBlock
    | apply preserves_call_metadata
    | apply preserves_modify; intros []; reflexivity
    | match goal with
      | |- preserves _ (match ?x with _ => _ end) => destruct x
      | |- preserves _ (let '(_, _) := ?x in _) => destruct x
      | |- preserves _ (if ?c then _ else _) => destruct c
      end ].

Section MonitorReorgPrefix.
Import MonitorReorg.
Context {W : Type}.
Variable opts : Options W.

Lemma reorg_tickPrefix_frame :
  preserves reorgHeightsAndCache (tickPrefix opts).
Proof.
  unfold tickPrefix, metadataCheck, fetchLatestHeight. step_preserves.
Qed.
End MonitorReorgPrefix.

Section MonadMainnetPrefix.
Import MonadMainnet.
Context {W : Type}.
Variable opts : Options W.

Lemma monad_tickPrefix_frame :
  preserves monadHeightsAndCache (tickPrefix opts).
Proof.
  unfold tickPrefix, metadataCheck, fetchLatestHeight. step_preserves.
Qed.
End MonadMainnetPrefix.

Lemma reorg_rewindCheck_fires {W} (s : Sys W MonitorReorg.Vars) L :
  L < MonitorReorg.maxObservedHeight (vars s) ->
  MonitorReorg.rewindCheck L s
  = (Ret tt,
     {| vars :=
          MonitorReorg.set_lastProcessedHeight L
            (MonitorReorg.set_maxObservedHeight L (vars s));
        events :=
          events s
          ++ [{| event_type := "CHAIN_REWIND";
                 data :=
                   ChainRewindData (MonitorReorg.maxObservedHeight (vars s))
                     L "CRITICAL" |}];
        alerts :=
          alerts s
          ++ [{| event_type := "CHAIN_REWIND";
                 data :=
                   ChainRewindData (MonitorReorg.maxObservedHeight (vars s))
                     L "CRITICAL" |}];
        rpc_log := rpc_log s; world := world s |}).
Proof.
  intros Hlt. unfold MonitorReorg.rewindCheck, bind, gets, when.
  rewrite bool_decide_true by exact Hlt. reflexivity.
Qed.

Lemma monad_rewindCheck_fires {W} (s : Sys W MonadMainnet.Vars) L :
  L < MonadMainnet.maxObservedHeight (vars s) ->
  MonadMainnet.rewindCheck L s
  = (Ret tt,
     {| vars :=
          MonadMainnet.set_lastProcessedHeight L
            (MonadMainnet.set_maxObservedHeight L
               (MonadMainnet.bump MonadMainnet.incr_chainRewinds (vars s)));
        events :=
          events s
          ++ [{| event_type := "CHAIN_REWIND";
                 data :=
                   ChainRewindData (MonadMainnet.maxObservedHeight (vars s))
                     L "CRITICAL" |}];
        alerts :=
          alerts s
          ++ [{| event_type := "CHAIN_REWIND";
                 data :=
                   ChainRewindData (MonadMainnet.maxObservedHeight (vars s))
                     L "CRITICAL" |}];
        rpc_log := rpc_log s; world := world s |}).
Proof.
  intros Hlt. unfold MonadMainnet.rewindCheck, bind, gets, when.
  rewrite bool_decide_true by exact Hlt. reflexivity.
Qed.

Lemma monad_coldStart_frame {W} L :
  preserves
    (fun v => (MonadMainnet.blockCache v, MonadMainnet.maxObservedHeight v))
    (@MonadMainnet.coldStart W L).
Proof. unfold MonadMainnet.coldStart. step_preserves. Qed.

(** C3.  In every tick whose tip fetch returns a latest height [L] strictly
    below [maxObservedHeight], the rewind check logs CHAIN_REWIND with
    [from_height] the old [maxObservedHeight], [to_height = L] and severity
    CRITICAL (and hands it to [sendAlert]), then sets [maxObservedHeight]
    and [lastProcessedHeight] to [L], and leaves the block cache exactly as
    it was; the tick goes on from that state with forward sync, deep recheck
    and prune.  This holds in src/monitor_reorg.js and in the Monad mainnet
    monitor, where the rewind check runs after the cold start and also
    counts the rewind in [hourlyStats]. *)
Theorem C3_chain_rewind :
  (forall (W : Type) (opts : Options W) (s s1 : Sys W MonitorReorg.Vars)
          (L : Z),
     MonitorReorg.tickPrefix opts s = (Ret L, s1) ->
     L < MonitorReorg.maxObservedHeight (vars s) ->
     let rewind :=
       {| event_type := "CHAIN_REWIND";
          data :=
            ChainRewindData (MonitorReorg.maxObservedHeight (vars s)) L
              "CRITICAL" |} in
     exists s2,
       MonitorReorg.rewindCheck L s1 = (Ret tt, s2)
       /\ events s2 = events s1 ++ [rewind]
       /\ alerts s2 = alerts s1 ++ [rewind]
       /\ MonitorReorg.maxObservedHeight (vars s2) = L
       /\ MonitorReorg.lastProcessedHeight (vars s2) = L
       /\ MonitorReorg.blockCache (vars s2) = MonitorReorg.blockCache (vars s1)
       /\ MonitorReorg.blockCache (vars s1) = MonitorReorg.blockCache (vars s)
       /\ MonitorReorg.tick opts s
          = bind (MonitorReorg.forwardSync opts L) (fun _ =>
              bind (MonitorReorg.deepRecheck opts L) (fun _ =>
                MonitorReorg.pruneCache opts L)) s2)
  /\
  (forall (W : Type) (opts : Options W) (s s0 : Sys W MonadMainnet.Vars)
          (L : Z),
     MonadMainnet.tickPrefix opts s = (Ret L, s0) ->
     L < MonadMainnet.maxObservedHeight (vars s) ->
     let rewind :=
       {| event_type := "CHAIN_REWIND";
          data :=
            ChainRewindData (MonadMainnet.maxObservedHeight (vars s)) L
              "CRITICAL" |} in
     exists s1 s2,
       MonadMainnet.coldStart L s0 = (Ret tt, s1)
       /\ MonadMainnet.rewindCheck L s1 = (Ret tt, s2)
       /\ events s2 = events s1 ++ [rewind]
       /\ alerts s2 = alerts s1 ++ [rewind]
       /\ MonadMainnet.maxObservedHeight (vars s2) = L
       /\ MonadMainnet.lastProcessedHeight (vars s2) = L
       /\ MonadMainnet.blockCache (vars s2) = MonadMainnet.blockCache (vars s1)
       /\ MonadMainnet.blockCache (vars s1) = MonadMainnet.blockCache (vars s)
       /\ chainRewinds (MonadMainnet.hourlyStats (vars s2))
          = chainRewinds (MonadMainnet.hourlyStats (vars s1)) + 1
       /\ MonadMainnet.tick opts s
          = bind (MonadMainnet.forwardSync opts L) (fun _ =>
              bind (MonadMainnet.deepRecheck opts L) (fun _ =>
                MonadMainnet.pruneCache opts L)) s2).
Proof.
  split.
  - intros W opts s s1 L Hpre Hlt rewind.
    pose proof (reorg_tickPrefix_frame opts s) as Hframe.
    rewrite Hpre in Hframe. simpl in Hframe.
    unfold reorgHeightsAndCache in Hframe.
    injection Hframe as Hcache Hmax Hlast.
    rewrite (reorg_tick_split opts s L s1 Hpre).
    unfold MonitorReorg.tickSuffix. unfold bind at 1.
    unfold MonitorReorg.rewindCheck at 1 2, bind, gets, when.
    rewrite Hmax. rewrite bool_decide_true by exact Hlt.
    destruct s1 as [v ev al rl w]. simpl in *.
    eexists. split; [reflexivity |]. simpl.
    repeat split; try reflexivity. exact Hcache.
  - intros W opts s s0 L Hpre Hlt rewind.
    pose proof (monad_tickPrefix_frame opts s) as Hframe.
    rewrite Hpre in Hframe. simpl in Hframe.
    unfold monadHeightsAndCache in Hframe.
    injection Hframe as Hcache Hmax Hlast.
    rewrite (monad_tick_split opts s L s0 Hpre).
    unfold MonadMainnet.tickSuffix. unfold bind at 1.
    pose proof (never_throws_unit _ s0 (monad_coldStart_never_throws L)) as Hret.
    pose proof (monad_coldStart_frame L s0) as Hcold.
    destruct (MonadMainnet.coldStart L s0) as [r s1]. simpl in Hret, Hcold.
    subst r. injection Hcold as Hcache1 Hmax1.
    assert (Hlt1 : L < MonadMainnet.maxObservedHeight (vars s1)) by lia.
    exists s1. unfold bind at 1.
    rewrite (monad_rewindCheck_fires s1 L Hlt1).
    eexists. split; [reflexivity |]. split; [reflexivity |].
    simpl. rewrite Hmax1, Hmax.
    repeat split; try reflexivity. congruence.
Qed.

(** 'detects CHAIN_REWIND when latest height decreases': after a first tick
    on the chain 0..5 the client reports 3 as the latest height. *)
Lemma C3_chain_rewind_witness :
  let s := Fake.edit (fun w => Fake.setNow 1 (Fake.setLatestHeight 3 w))
             (Scenario.reorgAfterFirstTick 5) in
  let s1 := (MonitorReorg.tickPrefix Scenario.opts s).2 in
  let rewind :=
    {| event_type := "CHAIN_REWIND";
       data := ChainRewindData 5 3 "CRITICAL" |} in
  exists s2,
    MonitorReorg.rewindCheck 3 s1 = (Ret tt, s2)
    /\ events s2 = events s1 ++ [rewind]
    /\ alerts s2 = alerts s1 ++ [rewind]
    /\ MonitorReorg.maxObservedHeight (vars s2) = 3
    /\ MonitorReorg.lastProcessedHeight (vars s2) = 3
    /\ MonitorReorg.blockCache (vars s2) = MonitorReorg.blockCache (vars s1)
    /\ MonitorReorg.blockCache (vars s1) = MonitorReorg.blockCache (vars s)
    /\ MonitorReorg.tick Scenario.opts s
       = bind (MonitorReorg.forwardSync Scenario.opts 3) (fun _ =>
           bind (MonitorReorg.deepRecheck Scenario.opts 3) (fun _ =>
             MonitorReorg.pruneCache Scenario.opts 3)) s2.
Proof.
  intros s s1 rewind.
  apply (proj1 C3_chain_rewind Fake.World Scenario.opts s s1 3).
  - vm_compute. reflexivity.
  - vm_compute. reflexivity.
Defined.

(** ** The hourly report: C9 *)

(** C9.  [generateHourlyReport] of the Monad mainnet monitor logs one
    HOURLY_REPORT whose [threat_assessment] is the first match of: CRITICAL
    if [chainRewinds > 0]; else HIGH if [reorgsDetected > 5] or
    [blocksReplaced > 10]; else MEDIUM if [reorgsDetected > 0] or
    [blocksReplaced > 0]; else LOW.  When the assessment is not LOW the
    same report goes to [sendAlert], otherwise nothing does.  Afterwards the
    four counters are zero and [startTime] is the value the clock gives when
    it is read for the reset. *)
Theorem C9_hourly_report :
  forall (W : Type) (opts : Options W) (s : Sys W MonadMainnet.Vars),
    let stats := MonadMainnet.hourlyStats (vars s) in
    let t1 := (now opts (world s)).1 in
    let t2 := (now opts (now opts (world s)).2).1 in
    exists assessment details s',
      let report :=
        {| event_type := "HOURLY_REPORT";
           data :=
             HourlyReportData "HOURLY_ANALYSIS" (t1 - startTime stats) stats
               assessment details |} in
      MonadMainnet.generateHourlyReport opts s = (Ret tt, s')
      /\ events s' = events s ++ [report]
      /\ ((chainRewinds stats > 0 /\ assessment = "CRITICAL")
          \/ (chainRewinds stats <= 0
              /\ (reorgsDetected stats > 5 \/ blocksReplaced stats > 10)
              /\ assessment = "HIGH")
          \/ (chainRewinds stats <= 0
              /\ reorgsDetected stats <= 5 /\ blocksReplaced stats <= 10
              /\ (reorgsDetected stats > 0 \/ blocksReplaced stats > 0)
              /\ assessment = "MEDIUM")
          \/ (chainRewinds stats <= 0
              /\ reorgsDetected stats <= 0 /\ blocksReplaced stats <= 0
              /\ assessment = "LOW"))
      /\ ((assessment ≠ "LOW"
           /\ alerts s'
              = alerts s
                ++ [{| event_type := "HOURLY_THREAT_REPORT";
                       data := data report |}])
          \/ (assessment = "LOW" /\ alerts s' = alerts s))
      /\ MonadMainnet.hourlyStats (vars s')
         = {| startTime := t2; blocksProcessed := 0; reorgsDetected := 0;
              blocksReplaced := 0; chainRewinds := 0 |}.
Proof.
  intros W opts s stats t1 t2. subst stats t1 t2.
  unfold MonadMainnet.generateHourlyReport, MonadMainnet.resetHourlyStats,
    bind, call_now, gets. simpl.
  destruct (now opts (world s)) as [t1 w1]. simpl.
  destruct (now opts w1) as [t2 w2] eqn:Hnow2.
  destruct (decide (chainRewinds (MonadMainnet.hourlyStats (vars s)) > 0))
    as [Hc | Hc];
    [| destruct (decide
          (reorgsDetected (MonadMainnet.hourlyStats (vars s)) > 5
           ∨ blocksReplaced (MonadMainnet.hourlyStats (vars s)) > 10))
        as [Hh | Hh];
       [| destruct (decide
            (reorgsDetected (MonadMainnet.hourlyStats (vars s)) > 0
             ∨ blocksReplaced (MonadMainnet.hourlyStats (vars s)) > 0))
          as [Hm | Hm]]];
    simpl; rewrite Hnow2; simpl;
    (eexists; eexists; eexists; split; [reflexivity |]);
    simpl; (split; [reflexivity |]).
  - split; [left; split; [exact Hc | reflexivity] |].
    split; [left; split; [discriminate | reflexivity] | reflexivity].
  - split; [right; left; repeat split; [lia | exact Hh] |].
    split; [left; split; [discriminate | reflexivity] | reflexivity].
  - split; [right; right; left; repeat split; try lia; exact Hm |].
    split; [left; split; [discriminate | reflexivity] | reflexivity].
  - split; [right; right; right; repeat split; lia |].
    split; [right; split; reflexivity | reflexivity].
Qed.

(** ** The prune phase: C7 *)

(** A map whose keys all lie among [n] consecutive integers has at most [n]
    entries. *)
Lemma size_keys_in_range {A} (m : gmap Z A) (lo n : Z) :
  0 <= n ->
  map_Forall (fun h _ => lo <= h < lo + n) m ->
  Z.of_nat (size m) <= n.
Proof.
  intros Hn Hkeys.
  assert (Hlen : (length (map_to_list m).*1 <= length (seqZ lo n))%nat).
  { apply submseteq_length, NoDup_submseteq.
    - apply NoDup_fst_map_to_list.
    - intros h Hin. apply list_elem_of_fmap in Hin as ([h' x] & -> & Hin).
      apply elem_of_map_to_list in Hin. apply elem_of_seqZ.
      exact (Hkeys h' x Hin). }
  rewrite length_fmap, length_map_to_list, length_seqZ in Hlen.
  lia.
Qed.

Section MonitorReorgPrune.
Import MonitorReorg.
Context {W : Type}.
Variable opts : Options W.

(** The tick ends with the prune: the final cache is a cache filtered by
    the floor. *)
Lemma reorg_tickSuffix_pruned L (s1 : Sys W Vars) :
  exists cache,
    blockCache (vars (tickSuffix opts L s1).2)
    = filter (fun kv => ¬ (kv.1 < Z.max 0 (L - cacheDepth opts + 1))) cache.
Proof.
  unfold tickSuffix, bind.
  pose proof (never_throws_unit _ s1 (reorg_rewindCheck_never_throws L)) as H1.
  destruct (rewindCheck L s1) as [r s2]. simpl in H1. subst r.
  pose proof (never_throws_unit _ s2 (reorg_forwardSync_never_throws opts L))
    as H2.
  destruct (forwardSync opts L s2) as [r s3]. simpl in H2. subst r.
  pose proof (never_throws_unit _ s3 (reorg_deepRecheck_never_throws opts L))
    as H3.
  destruct (deepRecheck opts L s3) as [r s4]. simpl in H3. subst r.
  exists (blockCache (vars s4)). reflexivity.
Qed.
End MonitorReorgPrune.

(** C7, as the code has it.  After the prune that ends a tick of
    src/monitor_reorg.js whose tip fetch returned [L], every height left in
    the cache is at least [max 0 (L - cacheDepth + 1)]; and the cache holds
    at most [cacheDepth] entries whenever no height left in it exceeds [L].
    The prune deletes below the floor only: heights above [L], which a
    rewind leaves in the cache, stay and are not counted against the
    bound. *)
Theorem C7_cache_after_prune :
  forall (W : Type) (opts : Options W) (s s1 : Sys W MonitorReorg.Vars)
         (L : Z),
    MonitorReorg.tickPrefix opts s = (Ret L, s1) ->
    let cache' := MonitorReorg.blockCache (vars (MonitorReorg.tick opts s).2) in
    map_Forall (fun h _ => Z.max 0 (L - cacheDepth opts + 1) <= h) cache'
    /\ (0 <= cacheDepth opts ->
        map_Forall (fun h _ => h <= L) cache' ->
        Z.of_nat (size cache') <= cacheDepth opts).
Proof.
  intros W opts s s1 L Hpre cache'.
  assert (Hfloor :
    map_Forall (fun h _ => Z.max 0 (L - cacheDepth opts + 1) <= h) cache').
  { subst cache'. rewrite (reorg_tick_split opts s L s1 Hpre).
    destruct (reorg_tickSuffix_pruned opts L s1) as (cache & ->).
    intros h fp Hlook. apply map_lookup_filter_Some in Hlook as [_ Hkeep].
    simpl in Hkeep. lia. }
  split; [exact Hfloor |].
  intros Hdepth Htop.
  apply (size_keys_in_range cache' (Z.max 0 (L - cacheDepth opts + 1)));
    [exact Hdepth |].
  intros h fp Hlook.
  specialize (Hfloor h fp Hlook). specialize (Htop h fp Hlook).
  simpl in *. lia.
Qed.

(** 'trims cache to CACHE_DEPTH': one tick on the chain 0..10 with
    [cacheDepth: 3] leaves three entries, none below height 8. *)
Lemma C7_cache_after_prune_witness :
  let s := Fake.start MonitorReorg.initial (Fake.withChain 10 Fake.new) in
  let cache' :=
    MonitorReorg.blockCache
      (vars (MonitorReorg.tick ScenarioCacheDepth3.opts s).2) in
  map_Forall (fun h _ => 8 <= h) cache' /\ Z.of_nat (size cache') <= 3.
Proof.
  intros s cache'.
  destruct (C7_cache_after_prune Fake.World ScenarioCacheDepth3.opts s
              (MonitorReorg.tickPrefix ScenarioCacheDepth3.opts s).2 10)
    as [Hfloor Hsize].
  - vm_compute. reflexivity.
  - split; [exact Hfloor |]. apply Hsize.
    + vm_compute. discriminate.
    + apply map_Forall_to_list. vm_compute.
      repeat constructor; discriminate.
Defined.

(** C7 in the wording of the specification fails on the size: with
    [cacheDepth: 3], after a tick on the chain 0..10 and a tick in which the
    client reports 3 as the latest height, the cache holds the heights 1, 2,
    3, 8, 9 and 10. *)
Lemma C7_size_counterexample :
  let s := ScenarioCacheDepth3.rewound in
  let cache' :=
    MonitorReorg.blockCache
      (vars (MonitorReorg.tick ScenarioCacheDepth3.opts s).2) in
  (MonitorReorg.tickPrefix ScenarioCacheDepth3.opts s).1 = Ret 3
  /\ size cache' = 6%nat
  /\ ~ (Z.of_nat (size cache') <= cacheDepth ScenarioCacheDepth3.opts).
Proof.
  intros s cache'.
  assert (Hsize : size cache' = 6%nat) by (vm_compute; reflexivity).
  split; [vm_compute; reflexivity |]. split; [exact Hsize |].
  rewrite Hsize. vm_compute. intros H. apply H. reflexivity.
Qed.

(** ** The events a tick can log *)

Lemma appends_when_true {W V} (Q : Event -> Prop) (c : bool)
    (m : M W V unit) :
  (c = true -> appends Q m) -> appends Q (when c m).
Proof. intros Hm. destruct c; [apply Hm; reflexivity | apply appends_ret]. Qed.

Section TickAppends.
Context {W : Type}.
Variable opts : Options W.
Variable Q : Event -> Prop.
Hypothesis Q_not_rpc : forall e, ¬ isRpcError e -> Q e.
Hypothesis Q_guard :
  forall err,
    includes "Block not found" err = false ->
    Q {| event_type := "RPC_ERROR"; data := RpcErrorData None err |}.

Ltac step_appends :=
  repeat first
    [ apply appends_bind; [| intros ]
    | apply appends_when
    | apply appends_ret | apply appends_gets | apply appends_modify
    | apply appends_sendAlert | apply appends_call_now
    | apply appends_call_getBlock | apply appends_call_metadata
    | apply appends_logJson; apply Q_not_rpc; unfold isRpcError; simpl;
      discriminate
    | match goal with
      | |- appends _ (match ?x with _ => _ end) => destruct x
      | |- appends _ (let '(_, _) := ?x in _) => destruct x
      | |- appends _ (if ?c then _ else _) => destruct c
      end ].

Lemma reorg_processBlock_appends h :
  appends Q (MonitorReorg.processBlock opts h).
Proof. unfold MonitorReorg.processBlock. step_appends. Qed.

Lemma monad_processBlock_appends h :
  appends Q (MonadMainnet.processBlock opts h).
Proof.
  unfold MonadMainnet.processBlock.
  apply appends_try_catch; [| intros; apply appends_ret].
  step_appends.
Qed.

Lemma reorg_metadataCheck_appends : appends Q (MonitorReorg.metadataCheck opts).
Proof. unfold MonitorReorg.metadataCheck. step_appends. Qed.

Lemma monad_metadataCheck_appends : appends Q (MonadMainnet.metadataCheck opts).
Proof. unfold MonadMainnet.metadataCheck. step_appends. Qed.

Lemma monad_forwardSync_appends L :
  appends Q (MonadMainnet.forwardSync opts L).
Proof.
  unfold MonadMainnet.forwardSync. step_appends.
  match goal with |- appends _ (_ _ ?hs) => induction hs as [| h rest IH] end;
    simpl; [apply appends_ret |].
  case_decide; [exact IH |].
  apply appends_bind; [apply monad_processBlock_appends | intros _; exact IH].
Qed.

Lemma monad_deepRecheck_appends L :
  appends Q (MonadMainnet.deepRecheck opts L).
Proof.
  unfold MonadMainnet.deepRecheck.
  match goal with |- appends _ (_ _ ?hs) => induction hs as [| h rest IH] end;
    simpl; [apply appends_ret |].
  apply appends_bind; [apply monad_processBlock_appends | intros _; exact IH].
Qed.

Lemma monad_tick_appends : appends Q (MonadMainnet.tick opts).
Proof.
  unfold MonadMainnet.tick. apply appends_try_catch.
  - unfold MonadMainnet.tickBody.
    apply appends_bind; [apply monad_metadataCheck_appends | intros _].
    apply appends_bind;
      [unfold MonadMainnet.fetchLatestHeight; step_appends | intros L].
    apply appends_bind;
      [unfold MonadMainnet.coldStart; step_appends | intros _].
    apply appends_bind;
      [unfold MonadMainnet.rewindCheck; step_appends | intros _].
    apply appends_bind; [apply monad_forwardSync_appends | intros _].
    apply appends_bind; [apply monad_deepRecheck_appends | intros _].
    unfold MonadMainnet.pruneCache. step_appends.
  - intros message. apply appends_when_true. intros Hc.
    apply appends_logJson, Q_guard.
    destruct (includes "Block not found" message);
      [discriminate | reflexivity].
Qed.

Hypothesis Q_per_block :
  forall msg err,
    Q {| event_type := "RPC_ERROR"; data := RpcErrorData (Some msg) err |}.

Lemma reorg_forwardSync_appends L :
  appends Q (MonitorReorg.forwardSync opts L).
Proof.
  unfold MonitorReorg.forwardSync. step_appends.
  match goal with |- appends _ (_ _ ?hs) => induction hs as [| h rest IH] end;
    simpl; [apply appends_ret |].
  case_decide; [exact IH |].
  apply appends_bind.
  - apply appends_try_catch.
    + apply appends_bind; [apply reorg_processBlock_appends | intros _].
      step_appends.
    + intros err. apply appends_bind; [| intros _; apply appends_ret].
      apply appends_logJson, Q_per_block.
  - intros [|]; [exact IH | apply appends_ret].
Qed.

Lemma reorg_deepRecheck_appends L :
  appends Q (MonitorReorg.deepRecheck opts L).
Proof.
  unfold MonitorReorg.deepRecheck. step_appends.
  match goal with |- appends _ (_ _ ?hs) => induction hs as [| h rest IH] end;
    simpl; [apply appends_ret |].
  apply appends_bind; [| intros _; exact IH].
  apply appends_try_catch.
  - apply appends_bind; [apply reorg_processBlock_appends | intros _].
    apply appends_ret.
  - intros err. apply appends_logJson, Q_per_block.
Qed.

Lemma reorg_tick_appends : appends Q (MonitorReorg.tick opts).
Proof.
  unfold MonitorReorg.tick. apply appends_try_catch.
  - unfold MonitorReorg.tickBody.
    apply appends_bind; [apply reorg_metadataCheck_appends | intros _].
    apply appends_bind;
      [unfold MonitorReorg.fetchLatestHeight; step_appends | intros L].
    apply appends_bind;
      [unfold MonitorReorg.rewindCheck; step_appends | intros _].
    apply appends_bind; [apply reorg_forwardSync_appends | intros _].
    apply appends_bind; [apply reorg_deepRecheck_appends | intros _].
    unfold MonitorReorg.pruneCache. step_appends.
  - intros message. apply appends_when_true. intros Hc.
    apply appends_logJson, Q_guard.
    destruct (includes "Block not found" message);
      [discriminate | reflexivity].
Qed.
End TickAppends.

(** ** Forward sync: C4, C5 *)

(** The defect behind C4 in general: whenever the forward sync of the Monad
    mainnet monitor runs, it ends with [lastProcessedHeight = L] and has
    logged no RPC_ERROR, whichever of its fetches were rejected. *)
Lemma monad_forwardSync_advances_regardless :
  forall (W : Type) (opts : Options W) (s : Sys W MonadMainnet.Vars) (L : Z),
    L > MonadMainnet.lastProcessedHeight (vars s) ->
    (MonadMainnet.forwardSync opts L s).1 = Ret tt
    /\ MonadMainnet.lastProcessedHeight
         (vars (MonadMainnet.forwardSync opts L s).2) = L
    /\ exists l,
         events (MonadMainnet.forwardSync opts L s).2 = events s ++ l
         /\ Forall (fun e => ¬ isRpcError e) l.
Proof.
  intros W opts s L Hgt.
  split; [apply never_throws_unit, monad_forwardSync_never_throws |].
  split.
  - unfold MonadMainnet.forwardSync, bind, gets, when. simpl.
    rewrite bool_decide_true by exact Hgt.
    pose proof (never_throws_unit _ s
                  (monad_forwardSyncLoop_never_throws opts
                     (heights (MonadMainnet.lastProcessedHeight (vars s) + 1) L)))
      as Hret.
    destruct (MonadMainnet.forwardSyncLoop opts _ s) as [r s1].
    simpl in Hret. subst r. reflexivity.
  - apply (monad_forwardSync_appends opts (fun e => ¬ isRpcError e)).
    intros e He. exact He.
Qed.

(** The run with the rejected fetch of height 1, from the tip fetch of its
    second tick on. *)
Lemma monad_forwardSync_advances_witness :
  let s := (MonadMainnet.tickPrefix ScenarioRejectedFetch.opts
              ScenarioRejectedFetch.monadGrown).2 in
  (MonadMainnet.forwardSync ScenarioRejectedFetch.opts 2 s).1 = Ret tt
  /\ MonadMainnet.lastProcessedHeight
       (vars (MonadMainnet.forwardSync ScenarioRejectedFetch.opts 2 s).2) = 2
  /\ exists l,
       events (MonadMainnet.forwardSync ScenarioRejectedFetch.opts 2 s).2
       = events s ++ l
       /\ Forall (fun e => ¬ isRpcError e) l.
Proof.
  intros s.
  apply (monad_forwardSync_advances_regardless Fake.World
           ScenarioRejectedFetch.opts s 2).
  vm_compute. reflexivity.
Defined.

(** C4, on the Monad mainnet monitor.  The fetch of height 1 is rejected
    while the chain grows from 0..0 to 0..2.  The tick that follows returns
    with [lastProcessedHeight = 2]: it has gone past the failed height, it
    has logged no RPC_ERROR, and height 1 is absent from the cache. *)
Theorem C4_monad_skips_failed_height :
  let s := ScenarioRejectedFetch.monadGrown in
  let r := MonadMainnet.tick ScenarioRejectedFetch.opts s in
  MonadMainnet.lastProcessedHeight (vars s) = 0
  /\ (MonadMainnet.tickPrefix ScenarioRejectedFetch.opts s).1 = Ret 2
  /\ (MonadMainnet.processBlock ScenarioRejectedFetch.opts 1 s).1 = Ret false
  /\ r.1 = Ret tt
  /\ MonadMainnet.lastProcessedHeight (vars r.2) = 2
  /\ Forall (fun e => event_type e ≠ "RPC_ERROR") (events r.2)
  /\ MonadMainnet.blockCache (vars r.2) !! 1 = None
  /\ rpc_log r.2
     = rpc_log s
       ++ [CallGetChainId; CallGetBlock (BlockNumber 0 false);
           CallGetBlock BlockTagLatest;
           CallGetBlock (BlockNumber 1 true);
           CallGetBlock (BlockNumber 2 true);
           CallGetBlock (BlockNumber 0 true);
           CallGetBlock (BlockNumber 1 true);
           CallGetBlock (BlockNumber 2 true)].
Proof.
  intros s r.
  repeat split; try (vm_compute; reflexivity).
  vm_compute. repeat constructor; discriminate.
Qed.

(** The same run on src/monitor_reorg.js: the tick logs RPC_ERROR naming
    height 1, stops the forward sync there and keeps
    [lastProcessedHeight = 0]. *)
Lemma reorg_stops_at_failed_height :
  let s := ScenarioRejectedFetch.reorgGrown in
  let r := MonitorReorg.tick ScenarioRejectedFetch.opts s in
  MonitorReorg.lastProcessedHeight (vars s) = 0
  /\ r.1 = Ret tt
  /\ MonitorReorg.lastProcessedHeight (vars r.2) = 0
  /\ events r.2
     = events s
       ++ [{| event_type := "RPC_ERROR";
              data :=
                RpcErrorData (Some "Failed to process block 1") "boom" |}]
  /\ rpc_log r.2
     = rpc_log s
       ++ [CallGetChainId; CallGetBlock (BlockNumber 0 false);
           CallGetBlock BlockTagLatest;
           CallGetBlock (BlockNumber 1 true);
           CallGetBlock (BlockNumber 0 true)].
Proof. intros s r. repeat split; vm_compute; reflexivity. Qed.

Lemma processBlock_events_not_rpc_error name cache b :
  name ≠ "RPC_ERROR" ->
  Forall (fun e => ¬ isRpcError e)
    (replacedEvents cache b ++ mismatchEvents name cache b
       ++ receivedEvents cache b).
Proof.
  intros Hname.
  unfold isRpcError, replacedEvents, mismatchEvents, receivedEvents.
  destruct (cache !! number b); destruct (cache !! (number b - 1));
    destruct (newOrChanged cache b);
    repeat case_decide; simpl; repeat constructor; simpl;
    solve [discriminate | exact Hname].
Qed.

Lemma seqZ_S (a : Z) (n : nat) :
  seqZ a (Z.of_nat (S n)) = a :: seqZ (a + 1) (Z.of_nat n).
Proof.
  rewrite seqZ_cons by lia. f_equal. f_equal; lia.
Qed.

Section MonitorReorgForwardSync.
Import MonitorReorg.
Context {W : Type}.
Variable opts : Options W.

(** The forward-sync loop over the [n] heights from [a] on, entered with
    [lastProcessedHeight = a - 1]: it fetches [a], [a + 1], ... in this
    order; [k] fetches succeed and advance [lastProcessedHeight] to
    [a - 1 + k]; either all [n] succeeded, or the fetch of [a + k] was
    rejected, which is the last call made and is logged as RPC_ERROR
    naming [a + k]. *)
Lemma reorg_forwardSyncLoop_spec (n : nat) :
  forall (a : Z) (s : Sys W Vars),
    0 <= a ->
    lastProcessedHeight (vars s) = a - 1 ->
    exists (k : nat) (s' : Sys W Vars) (l : list Event),
      forwardSyncLoop opts (seqZ a (Z.of_nat n)) s = (Ret tt, s')
      /\ lastProcessedHeight (vars s') = a - 1 + Z.of_nat k
      /\ Forall (fun e => ¬ isRpcError e) l
      /\ ((k = n
           /\ rpc_log s' = rpc_log s ++ map fetchOf (seqZ a (Z.of_nat k))
           /\ events s' = events s ++ l)
          \/ ((k < n)%nat
              /\ rpc_log s'
                 = rpc_log s ++ map fetchOf (seqZ a (Z.of_nat (S k)))
              /\ exists err,
                   events s'
                   = events s ++ l
                     ++ [{| event_type := "RPC_ERROR";
                            data :=
                              RpcErrorData
                                (Some ("Failed to process block "
                                       +:+ pretty (a + Z.of_nat k)))
                                err |}])).
Proof.
  induction n as [| n IH]; intros a s Ha Hlast.
  - exists 0%nat, s, []. simpl.
    split; [reflexivity |]. split; [lia |]. split; [constructor |].
    left. rewrite !app_nil_r. repeat split.
  - rewrite seqZ_S. simpl.
    destruct (decide (a < 0)) as [Hneg | _]; [lia |].
    unfold bind at 1, try_catch. unfold bind at 1.
    destruct (getBlock (client opts) (BlockNumber a true) (world s))
      as [[b | e] w'] eqn:Hget.
    + rewrite (reorg_processBlock_ok opts s a b w' Hget).
      unfold bind at 1, modify at 1. simpl.
      match goal with
      | |- context [forwardSyncLoop opts _ ?s1] =>
          destruct (IH (a + 1) s1) as (k & s' & l & Hrun & Hl & Hnot & Hcases);
            [lia | simpl; lia |]
      end.
      exists (S k), s'.
      exists ((replacedEvents (blockCache (vars s)) b
               ++ mismatchEvents "PARENT_HASH_MISMATCH_DETECTED"
                    (blockCache (vars s)) b
               ++ receivedEvents (blockCache (vars s)) b) ++ l).
      split; [exact Hrun |]. split; [lia |].
      split.
      { apply Forall_app. split; [| exact Hnot].
        apply processBlock_events_not_rpc_error. discriminate. }
      destruct Hcases as [(-> & Hlog & Hev) | (Hk & Hlog & err & Hev)].
      * left. split; [reflexivity |]. simpl in Hlog, Hev.
        rewrite Hlog, Hev, seqZ_S. simpl.
        rewrite <- !app_assoc. split; reflexivity.
      * right. split; [lia |]. simpl in Hlog, Hev.
        rewrite Hlog, (seqZ_S a (S k)). simpl.
        rewrite <- !app_assoc. split; [reflexivity |].
        exists err. rewrite Hev.
        replace (a + 1 + Z.of_nat k) with (a + Z.of_nat (S k)) by lia.
        rewrite <- !app_assoc. reflexivity.
    + rewrite (reorg_processBlock_fail opts s a e w' Hget). simpl.
      eexists 0%nat, _, []. split; [reflexivity |]. simpl.
      split; [lia |]. split; [constructor |].
      right. split; [lia |]. split; [reflexivity |].
      exists e. replace (a + Z.of_nat 0) with a by lia. reflexivity.
Qed.
End MonitorReorgForwardSync.

(** What C4 asks for holds of the forward sync of src/monitor_reorg.js.
    Entered with [lastProcessedHeight = last], it fetches the heights
    [last + 1], [last + 2], ... in increasing order; [lastProcessedHeight]
    has advanced by the number [k] of fetches that succeeded; and either it
    has reached [L], or the fetch of [last + k + 1] was rejected: that fetch
    is the last one made, RPC_ERROR with the message naming that height is
    the last event logged, and [lastProcessedHeight] stays at the height
    just below it. *)
Theorem reorg_forwardSync_stops_at_failure :
  forall (W : Type) (opts : Options W) (s : Sys W MonitorReorg.Vars) (L : Z),
    let last := MonitorReorg.lastProcessedHeight (vars s) in
    -1 <= last ->
    exists (k : nat) (s' : Sys W MonitorReorg.Vars) (l : list Event),
      MonitorReorg.forwardSync opts L s = (Ret tt, s')
      /\ MonitorReorg.lastProcessedHeight (vars s') = last + Z.of_nat k
      /\ Forall (fun e => ¬ isRpcError e) l
      /\ ((last + Z.of_nat k = Z.max last L
           /\ rpc_log s'
              = rpc_log s ++ map fetchOf (seqZ (last + 1) (Z.of_nat k))
           /\ events s' = events s ++ l)
          \/ (last + Z.of_nat k < L
              /\ rpc_log s'
                 = rpc_log s ++ map fetchOf (seqZ (last + 1) (Z.of_nat (S k)))
              /\ exists err,
                   events s'
                   = events s ++ l
                     ++ [{| event_type := "RPC_ERROR";
                            data :=
                              RpcErrorData
                                (Some ("Failed to process block "
                                       +:+ pretty (last + Z.of_nat k + 1)))
                                err |}])).
Proof.
  intros W opts s L last Hlast.
  unfold MonitorReorg.forwardSync, bind, gets, when. simpl. fold last.
  case_bool_decide as Hgt.
  - unfold heights.
    replace (L - (last + 1) + 1) with (Z.of_nat (Z.to_nat (L - last))) by lia.
    destruct (reorg_forwardSyncLoop_spec opts (Z.to_nat (L - last))
                (last + 1) s) as (k & s' & l & Hrun & Hl & Hnot & Hcases);
      [lia | subst last; lia |].
    exists k, s', l. split; [exact Hrun |]. split; [lia |].
    split; [exact Hnot |].
    destruct Hcases as [(-> & Hlog & Hev) | (Hk & Hlog & err & Hev)].
    + left. split; [lia |]. split; assumption.
    + right. split; [lia |]. split; [exact Hlog |].
      exists err. rewrite Hev.
      replace (last + 1 + Z.of_nat k) with (last + Z.of_nat k + 1) by lia.
      reflexivity.
  - exists 0%nat, s, []. split; [reflexivity |]. split; [lia |].
    split; [constructor |]. left. simpl. rewrite !app_nil_r.
    split; [lia |]. split; reflexivity.
Qed.

(** The run with the rejected fetch of height 1: one fetch, no success. *)
Lemma reorg_forwardSync_stops_witness :
  let s := (MonitorReorg.tickPrefix ScenarioRejectedFetch.opts
              ScenarioRejectedFetch.reorgGrown).2 in
  exists (k : nat) (s' : Sys Fake.World MonitorReorg.Vars) (l : list Event),
    MonitorReorg.forwardSync ScenarioRejectedFetch.opts 2 s = (Ret tt, s')
    /\ MonitorReorg.lastProcessedHeight (vars s') = 0 + Z.of_nat k
    /\ Forall (fun e => ¬ isRpcError e) l
    /\ ((0 + Z.of_nat k = Z.max 0 2
         /\ rpc_log s' = rpc_log s ++ map fetchOf (seqZ (0 + 1) (Z.of_nat k))
         /\ events s' = events s ++ l)
        \/ (0 + Z.of_nat k < 2
            /\ rpc_log s'
               = rpc_log s ++ map fetchOf (seqZ (0 + 1) (Z.of_nat (S k)))
            /\ exists err,
                 events s'
                 = events s ++ l
                   ++ [{| event_type := "RPC_ERROR";
                          data :=
                            RpcErrorData
                              (Some ("Failed to process block "
                                     +:+ pretty (0 + Z.of_nat k + 1)))
                              err |}])).
Proof.
  intros s.
  apply (reorg_forwardSync_stops_at_failure Fake.World
           ScenarioRejectedFetch.opts s 2).
  vm_compute. discriminate.
Defined.

Lemma heights_single (L : Z) : heights (L - 1 + 1) L = [L].
Proof.
  unfold heights. replace (L - (L - 1 + 1) + 1) with 1 by lia.
  replace (L - 1 + 1) with L by lia.
  rewrite seqZ_cons by lia. reflexivity.
Qed.

(** C5, as the code has it.  The cold start is a step of the Monad mainnet
    monitor.  In a tick of that monitor entered with
    [lastProcessedHeight = -1] whose tip fetch returns [L > 0], it logs
    MONITOR_SKIP_HISTORY with [skipped_to_height = L] and sets
    [lastProcessedHeight = L - 1], touching neither the cache nor the
    client; and when no rewind is detected ([maxObservedHeight <= L]) the
    forward sync that follows fetches height [L] alone, after which the tick
    goes on with its deep recheck and its prune. *)
Theorem C5_cold_start :
  forall (W : Type) (opts : Options W) (s s0 : Sys W MonadMainnet.Vars)
         (L : Z),
    MonadMainnet.tickPrefix opts s = (Ret L, s0) ->
    MonadMainnet.lastProcessedHeight (vars s) = -1 ->
    L > 0 ->
    let skip :=
      {| event_type := "MONITOR_SKIP_HISTORY";
         data :=
           SkipHistoryData "Skipping historical blocks to start from latest"
             L |} in
    exists s1,
      MonadMainnet.coldStart L s0 = (Ret tt, s1)
      /\ events s1 = events s0 ++ [skip]
      /\ MonadMainnet.lastProcessedHeight (vars s1) = L - 1
      /\ MonadMainnet.blockCache (vars s1) = MonadMainnet.blockCache (vars s0)
      /\ rpc_log s1 = rpc_log s0
      /\ (MonadMainnet.maxObservedHeight (vars s) <= L ->
          MonadMainnet.tick opts s
          = bind (MonadMainnet.processBlock opts L) (fun _ =>
              bind (modify (MonadMainnet.set_lastProcessedHeight L)) (fun _ =>
                bind (MonadMainnet.deepRecheck opts L) (fun _ =>
                  MonadMainnet.pruneCache opts L))) s1).
Proof.
  intros W opts s s0 L Hpre Hlast HL skip.
  pose proof (monad_tickPrefix_frame opts s) as Hframe.
  rewrite Hpre in Hframe. simpl in Hframe.
  unfold monadHeightsAndCache in Hframe.
  injection Hframe as Hcache0 Hmax0 Hlast0.
  assert (Hcold :
    MonadMainnet.coldStart L s0
    = (Ret tt,
       {| vars := MonadMainnet.set_lastProcessedHeight (L - 1) (vars s0);
          events := events s0 ++ [skip]; alerts := alerts s0;
          rpc_log := rpc_log s0; world := world s0 |})).
  { unfold MonadMainnet.coldStart, bind, gets, when. simpl.
    rewrite Hlast0, Hlast.
    rewrite !bool_decide_true by (reflexivity || exact HL). reflexivity. }
  eexists. split; [exact Hcold |]. simpl.
  repeat split; try reflexivity.
  intros Hmax.
  rewrite (monad_tick_split opts s L s0 Hpre).
  unfold MonadMainnet.tickSuffix. unfold bind at 1. rewrite Hcold.
  unfold bind at 1.
  unfold MonadMainnet.rewindCheck, bind at 1, gets, when. simpl.
  rewrite bool_decide_false by lia. simpl.
  unfold MonadMainnet.forwardSync. unfold bind at 1 2, gets, when. simpl.
  rewrite bool_decide_true by lia.
  rewrite heights_single. simpl.
  destruct (decide (L < 0)); [lia |].
  unfold bind.
  destruct (MonadMainnet.processBlock opts L _) as [[ok | e] s2]; reflexivity.
Qed.

(** The first tick of the Monad mainnet monitor on the chain 0..20. *)
Lemma C5_cold_start_witness :
  let s := Fake.start (MonadMainnet.initial 0) (Fake.withChain 20 Fake.new) in
  let s0 := (MonadMainnet.tickPrefix Scenario.opts s).2 in
  let skip :=
    {| event_type := "MONITOR_SKIP_HISTORY";
       data :=
         SkipHistoryData "Skipping historical blocks to start from latest"
           20 |} in
  exists s1,
    MonadMainnet.coldStart 20 s0 = (Ret tt, s1)
    /\ events s1 = events s0 ++ [skip]
    /\ MonadMainnet.lastProcessedHeight (vars s1) = 20 - 1
    /\ MonadMainnet.blockCache (vars s1) = MonadMainnet.blockCache (vars s0)
    /\ rpc_log s1 = rpc_log s0
    /\ (MonadMainnet.maxObservedHeight (vars s) <= 20 ->
        MonadMainnet.tick Scenario.opts s
        = bind (MonadMainnet.processBlock Scenario.opts 20) (fun _ =>
            bind (modify (MonadMainnet.set_lastProcessedHeight 20)) (fun _ =>
              bind (MonadMainnet.deepRecheck Scenario.opts 20) (fun _ =>
                MonadMainnet.pruneCache Scenario.opts 20))) s1).
Proof.
  intros s s0 skip.
  apply (C5_cold_start Fake.World Scenario.opts s s0 20).
  - vm_compute. reflexivity.
  - reflexivity.
  - vm_compute. reflexivity.
Defined.

(** C5 in the wording of the specification fails on src/monitor_reorg.js, which
    has no cold start: its first tick on the chain 0..2, entered with
    [lastProcessedHeight = -1], logs no MONITOR_SKIP_HISTORY and its forward
    sync fetches the heights 0, 1 and 2 before the recheck fetches them
    again. *)
Lemma C5_no_cold_start_counterexample :
  let s := Fake.start MonitorReorg.initial (Fake.withChain 2 Fake.new) in
  let r := MonitorReorg.tick Scenario.opts s in
  MonitorReorg.lastProcessedHeight (vars s) = -1
  /\ (MonitorReorg.tickPrefix Scenario.opts s).1 = Ret 2
  /\ Forall (fun e => event_type e ≠ "MONITOR_SKIP_HISTORY") (events r.2)
  /\ map event_type (events r.2)
     = ["BLOCK_RECEIVED"; "BLOCK_RECEIVED"; "BLOCK_RECEIVED"]
  /\ rpc_log r.2
     = [CallGetChainId; CallGetBlock (BlockNumber 0 false);
        CallGetBlock BlockTagLatest;
        fetchOf 0; fetchOf 1; fetchOf 2;
        fetchOf 0; fetchOf 1; fetchOf 2].
Proof.
  intros s r. repeat split; try (vm_compute; reflexivity).
  vm_compute. repeat constructor; discriminate.
Qed.

(** ** Which errors reach the log: C6 *)

Lemma ticks_appends {W V} (Q : Event -> Prop) (tick : M W V unit) s s' :
  appends Q tick -> ticks tick s s' ->
  exists l, events s' = events s ++ l /\ Forall Q l.
Proof.
  intros Htick Hrun. induction Hrun as [s | s s1 f Hrun (l & Hl & Hall)].
  - exists []. rewrite app_nil_r. split; [reflexivity | constructor].
  - destruct (Htick (withWorld f s1)) as (l2 & Hl2 & Hall2).
    exists (l ++ l2). simpl in Hl2. rewrite Hl2, Hl, app_assoc.
    split; [reflexivity | apply Forall_app; split; assumption].
Qed.

Lemma rpcErrors_app l k : rpcErrors (l ++ k) = rpcErrors l ++ rpcErrors k.
Proof. apply filter_app. Qed.

Lemma rpcErrors_none l : Forall (fun e => ¬ isRpcError e) l -> rpcErrors l = [].
Proof.
  intros Hall. unfold rpcErrors. induction Hall as [| e l He _ IH];
    [reflexivity |].
  rewrite filter_cons_False by exact He. exact IH.
Qed.

Lemma rpcErrors_processBlock name cache b :
  name ≠ "RPC_ERROR" ->
  rpcErrors (replacedEvents cache b ++ mismatchEvents name cache b
               ++ receivedEvents cache b) = [].
Proof.
  intros Hname. apply rpcErrors_none, processBlock_events_not_rpc_error, Hname.
Qed.

Section MonitorReorgHandlers.
Context {W : Type}.
Variable opts : Options W.

(** The deep recheck logs one record per rejected fetch, and goes on. *)
Lemma reorg_recheckLoop_errors (hs : list Z) :
  forall s : Sys W MonitorReorg.Vars,
    exists l,
      events (MonitorReorg.recheckLoop opts hs s).2 = events s ++ l
      /\ rpcErrors l
         = map recheckFailed (rejections (answers (client opts) hs (world s))).
Proof.
  induction hs as [| h rest IH]; intros s.
  - exists []. simpl. rewrite app_nil_r. split; reflexivity.
  - simpl. unfold bind at 1, try_catch. unfold bind at 1.
    destruct (getBlock (client opts) (BlockNumber h true) (world s))
      as [[b | e] w'] eqn:Hget.
    + rewrite (reorg_processBlock_ok opts s h b w' Hget). simpl.
      match goal with
      | |- context [MonitorReorg.recheckLoop opts rest ?s1] =>
          destruct (IH s1) as (l & Hev & Herr)
      end.
      simpl in Hev, Herr. eexists. split.
      * rewrite Hev, <- !app_assoc. reflexivity.
      * rewrite !app_assoc, rpcErrors_app, <- !app_assoc.
        rewrite rpcErrors_processBlock by discriminate. exact Herr.
    + rewrite (reorg_processBlock_fail opts s h e w' Hget). simpl.
      match goal with
      | |- context [MonitorReorg.recheckLoop opts rest ?s1] =>
          destruct (IH s1) as (l & Hev & Herr)
      end.
      simpl in Hev, Herr. eexists. split.
      * rewrite Hev, <- app_assoc. reflexivity.
      * rewrite rpcErrors_app, Herr. reflexivity.
Qed.

(** The forward sync logs one record for the first rejected fetch, and
    stops there. *)
Lemma reorg_forwardSyncLoop_errors (hs : list Z) :
  forall s : Sys W MonitorReorg.Vars,
    exists l,
      events (MonitorReorg.forwardSyncLoop opts hs s).2 = events s ++ l
      /\ rpcErrors l
         = map forwardFailed
             (take 1 (rejections (answers (client opts) (fetched hs)
                                    (world s)))).
Proof.
  induction hs as [| h rest IH]; intros s.
  - exists []. simpl. rewrite app_nil_r. split; reflexivity.
  - simpl. unfold fetched. destruct (decide (h < 0)) as [Hneg | Hpos].
    + rewrite filter_cons_False by (intros Hn; apply Hn; exact Hneg).
      apply IH.
    + rewrite filter_cons_True by exact Hpos. simpl.
      unfold bind at 1, try_catch. unfold bind at 1.
      destruct (getBlock (client opts) (BlockNumber h true) (world s))
        as [[b | e] w'] eqn:Hget.
      * rewrite (reorg_processBlock_ok opts s h b w' Hget).
        unfold bind at 1, modify at 1. simpl.
        match goal with
        | |- context [MonitorReorg.forwardSyncLoop opts rest ?s1] =>
            destruct (IH s1) as (l & Hev & Herr)
        end.
        simpl in Hev, Herr. eexists. split.
        -- rewrite Hev, <- !app_assoc. reflexivity.
        -- rewrite !app_assoc, rpcErrors_app, <- !app_assoc.
           rewrite rpcErrors_processBlock by discriminate. exact Herr.
      * rewrite (reorg_processBlock_fail opts s h e w' Hget). simpl.
        eexists. split; reflexivity.
Qed.

(** The RPC_ERROR records of a tick that has learnt the latest height. *)
Lemma reorg_tickSuffix_errors (s1 : Sys W MonitorReorg.Vars) (L : Z) :
  let s2 := (@MonitorReorg.rewindCheck W L s1).2 in
  let s3 := (MonitorReorg.forwardSync opts L s2).2 in
  let forward :=
    heights (MonitorReorg.lastProcessedHeight (vars s2) + 1) L in
  let window :=
    heights (Z.max 0 (L - recheckDepth opts + 1))
      (MonitorReorg.lastProcessedHeight (vars s3)) in
  exists l,
    events (MonitorReorg.tickSuffix opts L s1).2 = events s1 ++ l
    /\ rpcErrors l
       = map forwardFailed
           (take 1 (rejections (answers (client opts) (fetched forward)
                                  (world s2))))
         ++ map recheckFailed
              (rejections (answers (client opts) window (world s3))).
Proof.
  intros s2 s3 forward window.
  assert (H2 : exists l2,
            events s2 = events s1 ++ l2 /\ rpcErrors l2 = []).
  { subst s2.
    destruct (decide (L < MonitorReorg.maxObservedHeight (vars s1)))
      as [Hlt | Hge].
    - rewrite (reorg_rewindCheck_fires s1 L Hlt). simpl.
      eexists. split; reflexivity.
    - unfold MonitorReorg.rewindCheck, bind, gets, when. simpl.
      rewrite bool_decide_false by exact Hge.
      exists []. simpl. rewrite app_nil_r. split; reflexivity. }
  destruct H2 as (l2 & Hev2 & Herr2).
  assert (H3 : exists l3,
            events s3 = events s2 ++ l3
            /\ rpcErrors l3
               = map forwardFailed
                   (take 1 (rejections (answers (client opts)
                                          (fetched forward) (world s2))))).
  { subst s3 forward.
    unfold MonitorReorg.forwardSync, bind, gets, when. simpl.
    case_bool_decide as Hgt.
    - apply reorg_forwardSyncLoop_errors.
    - exists []. simpl. rewrite app_nil_r. split; [reflexivity |].
      unfold heights. rewrite seqZ_nil by lia. reflexivity. }
  destruct H3 as (l3 & Hev3 & Herr3).
  destruct (reorg_recheckLoop_errors window s3) as (l4 & Hev4 & Herr4).
  exists (l2 ++ l3 ++ l4). split.
  - unfold MonitorReorg.tickSuffix.
    unfold bind at 1.
    destruct (reorg_rewindCheck_never_throws (W := W) L s1) as ([] & Hr2).
    fold s2. destruct (@MonitorReorg.rewindCheck W L s1) as [r2 s2'] eqn:E2.
    simpl in Hr2, s2. subst r2 s2.
    unfold bind at 1.
    destruct (reorg_forwardSync_never_throws opts L s2') as ([] & Hr3).
    destruct (MonitorReorg.forwardSync opts L s2') as [r3 s3'] eqn:E3.
    simpl in Hr3, s3. subst r3 s3.
    unfold bind at 1.
    unfold MonitorReorg.deepRecheck, bind at 1, gets at 1.
    fold window.
    destruct (reorg_recheckLoop_never_throws opts window s3') as ([] & Hr4).
    destruct (MonitorReorg.recheckLoop opts window s3') as [r4 s4] eqn:E4.
    simpl in Hr4, Hev4. subst r4.
    unfold MonitorReorg.pruneCache, modify. simpl.
    rewrite Hev4, Hev3, Hev2, <- !app_assoc. reflexivity.
  - rewrite !rpcErrors_app, Herr2, Herr3, Herr4. reflexivity.
Qed.
End MonitorReorgHandlers.

(** C6, as the code has it.  In every sequence of ticks and whatever the
    client throws, the guard around the whole tick never logs an RPC_ERROR
    whose [error] contains [Block not found].  In src/monitor_reorg.js every
    RPC_ERROR whose [error] contains it is one written by the handler around
    a single [processBlock] call, in the forward sync or in the deep
    recheck, and those handlers log every failure, whatever its text: the
    RPC_ERROR records of a tick that has learnt the latest height [L] are
    exactly one record [Failed to process block h] for the first fetch the
    client rejects in the forward sync, which stops there, followed by one
    record [Recheck failed for h] for each fetch the client rejects in the
    deep recheck, each with the height of the fetch and the message of the
    client's error as its [error].  In the Monad mainnet monitor, where
    [processBlock] swallows its own failures, no RPC_ERROR whose [error]
    contains [Block not found] is logged at all. *)
Theorem C6_block_not_found :
  (forall (W : Type) (opts : Options W) (s s' : Sys W MonitorReorg.Vars),
     ticks (MonitorReorg.tick opts) s s' ->
     exists l,
       events s' = events s ++ l
       /\ Forall (fun e => isNotFoundError e -> isPerBlockError e) l)
  /\
  (forall (W : Type) (opts : Options W) (s s1 : Sys W MonitorReorg.Vars)
          (L : Z),
     MonitorReorg.tickPrefix opts s = (Ret L, s1) ->
     let s2 := (@MonitorReorg.rewindCheck W L s1).2 in
     let s3 := (MonitorReorg.forwardSync opts L s2).2 in
     let forward :=
       heights (MonitorReorg.lastProcessedHeight (vars s2) + 1) L in
     let window :=
       heights (Z.max 0 (L - recheckDepth opts + 1))
         (MonitorReorg.lastProcessedHeight (vars s3)) in
     exists l,
       events (MonitorReorg.tick opts s).2 = events s1 ++ l
       /\ rpcErrors l
          = map forwardFailed
              (take 1 (rejections (answers (client opts) (fetched forward)
                                     (world s2))))
            ++ map recheckFailed
                 (rejections (answers (client opts) window (world s3))))
  /\
  (forall (W : Type) (opts : Options W) (s s' : Sys W MonadMainnet.Vars),
     ticks (MonadMainnet.tick opts) s s' ->
     exists l,
       events s' = events s ++ l /\ Forall (fun e => ¬ isNotFoundError e) l).
Proof.
  split; [| split].
  - intros W opts s s' Hrun.
    apply (ticks_appends _ (MonitorReorg.tick opts)); [| exact Hrun].
    apply reorg_tick_appends.
    + intros e Hnot [Hty _]. contradiction.
    + intros err Hinc (_ & msg & err' & Hdata & Hfound). simpl in Hdata.
      injection Hdata as _ <-. congruence.
    + intros msg err _. exists msg, err. reflexivity.
  - intros W opts s s1 L Hpre.
    rewrite (reorg_tick_split opts s L s1 Hpre).
    apply reorg_tickSuffix_errors.
  - intros W opts s s' Hrun.
    apply (ticks_appends _ (MonadMainnet.tick opts)); [| exact Hrun].
    apply monad_tick_appends.
    + intros e Hnot [Hty _]. contradiction.
    + intros err Hinc (_ & msg & err' & Hdata & Hfound). simpl in Hdata.
      injection Hdata as _ <-. congruence.
Qed.

(** src/monitor_reorg.js on the chain with a hole at height 1: two ticks,
    the clock advancing in between, and the first of them on its own. *)
Lemma C6_block_not_found_witness :
  let s := ScenarioMissingBlock.reorgStart in
  let t1 := (MonitorReorg.tick Scenario.opts (withWorld id s)).2 in
  let t2 := (MonitorReorg.tick Scenario.opts (withWorld (Fake.setNow 1) t1)).2 in
  let s1 := (MonitorReorg.tickPrefix Scenario.opts s).2 in
  let s2 := (@MonitorReorg.rewindCheck Fake.World 2 s1).2 in
  let s3 := (MonitorReorg.forwardSync Scenario.opts 2 s2).2 in
  let forward :=
    heights (MonitorReorg.lastProcessedHeight (vars s2) + 1) 2 in
  let window :=
    heights (Z.max 0 (2 - recheckDepth Scenario.opts + 1))
      (MonitorReorg.lastProcessedHeight (vars s3)) in
  (exists l,
     events t2 = events s ++ l
     /\ Forall (fun e => isNotFoundError e -> isPerBlockError e) l)
  /\ (exists l,
        events (MonitorReorg.tick Scenario.opts s).2 = events s1 ++ l
        /\ rpcErrors l
           = map forwardFailed
               (take 1 (rejections (answers (client Scenario.opts)
                                      (fetched forward) (world s2))))
             ++ map recheckFailed
                  (rejections (answers (client Scenario.opts) window
                                 (world s3)))).
Proof.
  intros s t1 t2 s1 s2 s3 forward window. split.
  - apply (proj1 C6_block_not_found Fake.World Scenario.opts s t2).
    apply ticks_more. apply ticks_more. apply ticks_none.
  - apply (proj1 (proj2 C6_block_not_found) Fake.World Scenario.opts s s1 2).
    vm_compute. reflexivity.
Defined.

(** C6 in the wording of the specification fails: on the chain with a hole at
    height 1 the forward sync of src/monitor_reorg.js is told
    [Block not found] for height 1 and logs it as RPC_ERROR. *)
Lemma C6_forward_sync_counterexample :
  let s := ScenarioMissingBlock.reorgStart in
  let r := MonitorReorg.tick Scenario.opts s in
  let logged :=
    {| event_type := "RPC_ERROR";
       data :=
         RpcErrorData (Some "Failed to process block 1") "Block not found" |} in
  getBlock (client Scenario.opts) (BlockNumber 1 true) (world s)
  = (Throw "Block not found", world s)
  /\ logged ∈ events r.2
  /\ isNotFoundError logged.
Proof.
  intros s r logged. split; [vm_compute; reflexivity |]. split.
  - assert (Hev : events r.2
                  = [{| event_type := "BLOCK_RECEIVED";
                        data :=
                          BlockReceivedData 0 "0xgenesis" "0xgenesis"
                            (Fake.defaultStateRoot 0) (Some "0") "0" 0 [] |};
                     logged]) by (vm_compute; reflexivity).
    rewrite Hev. apply list_elem_of_In. right. left. reflexivity.
  - split; [reflexivity |].
    exists (Some "Failed to process block 1"), "Block not found".
    split; [reflexivity | vm_compute; reflexivity].
Qed.

(** ** test/monitor_reorg.test.js, run on the embedding of src/monitor_reorg.js *)

(** 'detects CHAIN_REWIND when latest height decreases' *)
Example test_chain_rewind :
  let s1 := Scenario.reorgAfterFirstTick 5 in
  let s2 :=
    (MonitorReorg.tick Scenario.opts
       (Fake.edit (fun w => Fake.setNow 1 (Fake.setLatestHeight 3 w)) s1)).2 in
  map event_type (events s1) = replicate 6 "BLOCK_RECEIVED"
  /\ events s2
     = events s1
       ++ [{| event_type := "CHAIN_REWIND";
              data := ChainRewindData 5 3 "CRITICAL" |}].
Proof. split; vm_compute; reflexivity. Qed.

(** 'detects non-tip reorg via recheck window' *)
Example test_recheck_window :
  let opts := Fake.options Fake.fakeClient 5 2048 in
  let s1 :=
    (MonitorReorg.tick opts
       (Fake.start MonitorReorg.initial (Fake.withChain 10 Fake.new))).2 in
  let block8 :=
    Fake.makeBlock 8 "0xblock8_new" "0xblock7" (Fake.defaultStateRoot 8)
      ["0xtx8z"] in
  let s2 :=
    (MonitorReorg.tick opts
       (Fake.edit (fun w => Fake.setNow 1 (Fake.setBlock block8 w)) s1)).2 in
  map event_type (drop (length (events s1)) (events s2))
  = ["BLOCK_REPLACED"; "BLOCK_RECEIVED"; "PARENT_HASH_MISMATCH_DETECTED"].
Proof. vm_compute. reflexivity. Qed.

(** 'trims cache to CACHE_DEPTH' *)
Example test_trims_cache :
  (map_to_list (MonitorReorg.blockCache
                  (vars ScenarioCacheDepth3.afterFirstTick))).*1
  ≡ₚ [8; 9; 10].
Proof.
  assert (H : (map_to_list (MonitorReorg.blockCache
                              (vars ScenarioCacheDepth3.afterFirstTick))).*1
              = [9; 10; 8]) by (vm_compute; reflexivity).
  rewrite H. apply Permutation_sym, Permutation_cons_append.
Qed.

(** 'detects chain reset signals via chainId/genesis changes' *)
Example test_chain_reset :
  let s1 := Scenario.reorgAfterFirstTick 1 in
  let genesis_b :=
    Fake.makeBlock 0 "0xgenesis_b" "0xgenesis_b" (Fake.defaultStateRoot 0) [] in
  let s2 :=
    (MonitorReorg.tick Scenario.opts
       (Fake.edit
          (fun w => Fake.setNow 1 (Fake.setBlock genesis_b (Fake.setChainId 2 w)))
          s1)).2 in
  take 2 (drop (length (events s1)) (events s2))
  = [{| event_type := "CHAIN_ID_CHANGED";
        data := ChainIdChangedData 1 2 "CRITICAL" |};
     {| event_type := "GENESIS_CHANGED";
        data := GenesisChangedData "0xgenesis" "0xgenesis_b" "CRITICAL" |}].
Proof. vm_compute. reflexivity. Qed.

(** 'suppresses RPC_ERROR for "Block not found", logs otherwise' *)
Example test_suppresses_block_not_found :
  let s1 :=
    (MonitorReorg.tick Scenario.opts
       (Fake.start MonitorReorg.initial Fake.new)).2 in
  let s2 :=
    (MonitorReorg.tick (Fake.options Fake.boomClient 16 2048) s1).2 in
  events s1 = []
  /\ events s2
     = [{| event_type := "RPC_ERROR"; data := RpcErrorData None "boom" |}].
Proof. split; vm_compute; reflexivity. Qed.

(** * Further properties of the embedded code *)

(** ** What one [processBlock] call does to the variables *)

Lemma reorgVarsAfter_cache v b :
  MonitorReorg.blockCache (reorgVarsAfter v b)
  = cacheAfter (MonitorReorg.blockCache v) b.
Proof. unfold reorgVarsAfter. case_bool_decide; reflexivity. Qed.

Lemma monadVarsAfter_cache v b :
  MonadMainnet.blockCache (monadVarsAfter v b)
  = cacheAfter (MonadMainnet.blockCache v) b.
Proof.
  unfold monadVarsAfter.
  destruct (isReplaced _ b), (isMismatch _ b); case_bool_decide; reflexivity.
Qed.

Lemma reorgVarsAfter_heights v b :
  MonitorReorg.maxObservedHeight (reorgVarsAfter v b)
  = Z.max (MonitorReorg.maxObservedHeight v) (number b)
  /\ MonitorReorg.lastProcessedHeight (reorgVarsAfter v b)
     = MonitorReorg.lastProcessedHeight v.
Proof.
  unfold reorgVarsAfter. case_bool_decide; simpl; split; try reflexivity; lia.
Qed.

Lemma monadVarsAfter_heights v b :
  MonadMainnet.maxObservedHeight (monadVarsAfter v b)
  = Z.max (MonadMainnet.maxObservedHeight v) (number b)
  /\ MonadMainnet.lastProcessedHeight (monadVarsAfter v b)
     = MonadMainnet.lastProcessedHeight v.
Proof.
  unfold monadVarsAfter.
  destruct (isReplaced _ b), (isMismatch _ b); case_bool_decide; simpl;
    split; try reflexivity; lia.
Qed.

Lemma cacheAfter_lookup cache b :
  (exists c, cacheAfter cache b !! number b = Some c /\ cached_hash c = hash b)
  /\ (forall k, k ≠ number b -> cacheAfter cache b !! k = cache !! k)
  /\ (newOrChanged cache b = true ->
      cacheAfter cache b !! number b = Some (cachedOf b))
  /\ (newOrChanged cache b = false -> cacheAfter cache b = cache).
Proof.
  unfold cacheAfter, newOrChanged.
  destruct (cache !! number b) as [c |] eqn:Hc.
  - case_bool_decide as Hne; repeat split; try discriminate.
    + exists (cachedOf b). rewrite lookup_insert_eq. split; reflexivity.
    + intros k Hk. apply lookup_insert_ne. congruence.
    + intros _. apply lookup_insert_eq.
    + exists c. split; [exact Hc |].
      destruct (decide (cached_hash c = hash b)); [assumption | contradiction].
  - repeat split; try discriminate.
    + exists (cachedOf b). rewrite lookup_insert_eq. split; reflexivity.
    + intros k Hk. apply lookup_insert_ne. congruence.
    + intros _. apply lookup_insert_eq.
Qed.

(** X1.  After a successful [processBlock], whatever the cache held before,
    it holds at the height of the fetched block (the block's own [number],
    which is what the code keys on, not the height asked for) an entry with
    the hash of that block, and every other height is as it was.  When the
    height was absent or held another hash, the entry is the full
    fingerprint of the fetched block.  This holds in both monitors. *)
Theorem X1_processBlock_caches_fetched_block :
  (forall (W : Type) (opts : Options W) (s : Sys W MonitorReorg.Vars)
          (h : Z) (b : Block) (w' : W),
     getBlock (client opts) (BlockNumber h true) (world s) = (Ret b, w') ->
     let cache := MonitorReorg.blockCache (vars s) in
     let cache' :=
       MonitorReorg.blockCache (vars (MonitorReorg.processBlock opts h s).2) in
     (exists c, cache' !! number b = Some c /\ cached_hash c = hash b)
     /\ (forall k, k ≠ number b -> cache' !! k = cache !! k)
     /\ ((forall c, cache !! number b = Some c -> cached_hash c ≠ hash b) ->
         cache' !! number b = Some (cachedOf b)))
  /\
  (forall (W : Type) (opts : Options W) (s : Sys W MonadMainnet.Vars)
          (h : Z) (b : Block) (w' : W),
     getBlock (client opts) (BlockNumber h true) (world s) = (Ret b, w') ->
     let cache := MonadMainnet.blockCache (vars s) in
     let cache' :=
       MonadMainnet.blockCache (vars (MonadMainnet.processBlock opts h s).2) in
     (exists c, cache' !! number b = Some c /\ cached_hash c = hash b)
     /\ (forall k, k ≠ number b -> cache' !! k = cache !! k)
     /\ ((forall c, cache !! number b = Some c -> cached_hash c ≠ hash b) ->
         cache' !! number b = Some (cachedOf b))).
Proof.
  assert (Hnew : forall (cache : gmap Z CachedBlock) b,
            (forall c, cache !! number b = Some c -> cached_hash c ≠ hash b) ->
            newOrChanged cache b = true).
  { intros cache b H. unfold newOrChanged.
    destruct (cache !! number b) as [c |]; [| reflexivity].
    apply bool_decide_eq_true. apply H. reflexivity. }
  split; intros W opts s h b w' Hget cache cache'; subst cache cache'.
  - rewrite (reorg_processBlock_ok opts s h b w' Hget). simpl.
    rewrite reorgVarsAfter_cache.
    destruct (cacheAfter_lookup (MonitorReorg.blockCache (vars s)) b)
      as (H1 & H2 & H3 & _).
    split; [exact H1 |]. split; [exact H2 |].
    intros H. apply H3, Hnew, H.
  - rewrite (monad_processBlock_ok opts s h b w' Hget). simpl.
    rewrite monadVarsAfter_cache.
    destruct (cacheAfter_lookup (MonadMainnet.blockCache (vars s)) b)
      as (H1 & H2 & H3 & _).
    split; [exact H1 |]. split; [exact H2 |].
    intros H. apply H3, Hnew, H.
Qed.

(** The replacement of block 2 in 'detects BLOCK_REPLACED with tx diff when
    same height hash changes'. *)
Lemma X1_processBlock_caches_witness :
  let s := Fake.edit (Fake.setBlock Scenario.block2_new)
             (Scenario.reorgAfterFirstTick 2) in
  let cache := MonitorReorg.blockCache (vars s) in
  let cache' :=
    MonitorReorg.blockCache
      (vars (MonitorReorg.processBlock Scenario.opts 2 s).2) in
  (exists c, cache' !! 2 = Some c /\ cached_hash c = "0xblock2_new")
  /\ (forall k, k ≠ 2 -> cache' !! k = cache !! k)
  /\ ((forall c, cache !! 2 = Some c -> cached_hash c ≠ "0xblock2_new") ->
      cache' !! 2 = Some (cachedOf Scenario.block2_new)).
Proof.
  intros s cache cache'.
  apply (proj1 X1_processBlock_caches_fetched_block Fake.World Scenario.opts
           s 2 Scenario.block2_new (world s)).
  vm_compute. reflexivity.
Defined.

Lemma cacheAfter_changed_iff cache b :
  cacheAfter cache b ≠ cache <-> newOrChanged cache b = true.
Proof.
  destruct (cacheAfter_lookup cache b) as (_ & _ & Hnew & Hold).
  destruct (newOrChanged cache b) eqn:Hn.
  - split; [reflexivity |]. intros _ Heq.
    specialize (Hnew eq_refl). rewrite Heq in Hnew.
    unfold newOrChanged in Hn. rewrite Hnew in Hn.
    apply bool_decide_eq_true in Hn. apply Hn. reflexivity.
  - split; [| discriminate]. intros Hne. exfalso. apply Hne, Hold. reflexivity.
Qed.

Lemma processBlock_events_received_iff name cache b :
  name ≠ "BLOCK_RECEIVED" ->
  Exists (fun e => event_type e = "BLOCK_RECEIVED")
    (replacedEvents cache b ++ mismatchEvents name cache b
       ++ receivedEvents cache b)
  <-> newOrChanged cache b = true.
Proof.
  intros Hname. rewrite !Exists_app.
  assert (Hrep : ~ Exists (fun e => event_type e = "BLOCK_RECEIVED")
                   (replacedEvents cache b)).
  { unfold replacedEvents.
    destruct (cache !! number b) as [c |];
      [destruct (decide (cached_hash c ≠ hash b)) |];
      intros Hex; inversion Hex as [? ? H1 | ? ? H1]; subst;
      solve [discriminate H1 | inversion H1]. }
  assert (Hmis : ~ Exists (fun e => event_type e = "BLOCK_RECEIVED")
                   (mismatchEvents name cache b)).
  { unfold mismatchEvents.
    destruct (cache !! (number b - 1)) as [p |];
      [destruct (decide (parentHash b ≠ cached_hash p)) |];
      intros Hex; inversion Hex as [? ? H1 | ? ? H1]; subst;
      solve [simpl in H1; contradiction | inversion H1]. }
  unfold receivedEvents. destruct (newOrChanged cache b).
  - split; [reflexivity |]. intros _. right. right. left. reflexivity.
  - split; [| discriminate].
    intros [H | [H | H]]; [contradiction | contradiction | inversion H].
Qed.

(** X2.  A successful [processBlock] logs BLOCK_RECEIVED exactly when it
    writes the cache: the event is among the events of the call if and only
    if the cache after the call differs from the cache before it.  This
    holds in both monitors. *)
Theorem X2_block_received_iff_cache_written :
  (forall (W : Type) (opts : Options W) (s : Sys W MonitorReorg.Vars)
          (h : Z) (b : Block) (w' : W),
     getBlock (client opts) (BlockNumber h true) (world s) = (Ret b, w') ->
     exists l,
       events (MonitorReorg.processBlock opts h s).2 = events s ++ l
       /\ (Exists (fun e => event_type e = "BLOCK_RECEIVED") l
           <-> MonitorReorg.blockCache
                 (vars (MonitorReorg.processBlock opts h s).2)
               ≠ MonitorReorg.blockCache (vars s)))
  /\
  (forall (W : Type) (opts : Options W) (s : Sys W MonadMainnet.Vars)
          (h : Z) (b : Block) (w' : W),
     getBlock (client opts) (BlockNumber h true) (world s) = (Ret b, w') ->
     exists l,
       events (MonadMainnet.processBlock opts h s).2 = events s ++ l
       /\ (Exists (fun e => event_type e = "BLOCK_RECEIVED") l
           <-> MonadMainnet.blockCache
                 (vars (MonadMainnet.processBlock opts h s).2)
               ≠ MonadMainnet.blockCache (vars s))).
Proof.
  split; intros W opts s h b w' Hget.
  - rewrite (reorg_processBlock_ok opts s h b w' Hget). simpl.
    eexists. split; [reflexivity |].
    rewrite reorgVarsAfter_cache, cacheAfter_changed_iff.
    apply processBlock_events_received_iff. discriminate.
  - rewrite (monad_processBlock_ok opts s h b w' Hget). simpl.
    eexists. split; [reflexivity |].
    rewrite monadVarsAfter_cache, cacheAfter_changed_iff.
    apply processBlock_events_received_iff. discriminate.
Qed.

(** A recheck of the unchanged block 2: nothing logged, nothing written. *)
Lemma X2_block_received_witness :
  let s := Scenario.reorgAfterFirstTick 2 in
  exists l,
    events (MonitorReorg.processBlock Scenario.opts 2 s).2 = events s ++ l
    /\ (Exists (fun e => event_type e = "BLOCK_RECEIVED") l
        <-> MonitorReorg.blockCache
              (vars (MonitorReorg.processBlock Scenario.opts 2 s).2)
            ≠ MonitorReorg.blockCache (vars s)).
Proof.
  intros s.
  apply (proj1 X2_block_received_iff_cache_written Fake.World Scenario.opts
           s 2 (Fake.linearBlock 2) (world s)).
  vm_compute. reflexivity.
Defined.

(** X3.  A successful [processBlock] raises [maxObservedHeight] to the
    height of the fetched block when that is higher and never lowers it,
    and it never touches [lastProcessedHeight].  This holds in both
    monitors. *)
Theorem X3_processBlock_watermark :
  (forall (W : Type) (opts : Options W) (s : Sys W MonitorReorg.Vars)
          (h : Z) (b : Block) (w' : W),
     getBlock (client opts) (BlockNumber h true) (world s) = (Ret b, w') ->
     MonitorReorg.maxObservedHeight
       (vars (MonitorReorg.processBlock opts h s).2)
     = Z.max (MonitorReorg.maxObservedHeight (vars s)) (number b)
     /\ MonitorReorg.lastProcessedHeight
          (vars (MonitorReorg.processBlock opts h s).2)
        = MonitorReorg.lastProcessedHeight (vars s))
  /\
  (forall (W : Type) (opts : Options W) (s : Sys W MonadMainnet.Vars)
          (h : Z) (b : Block) (w' : W),
     getBlock (client opts) (BlockNumber h true) (world s) = (Ret b, w') ->
     MonadMainnet.maxObservedHeight
       (vars (MonadMainnet.processBlock opts h s).2)
     = Z.max (MonadMainnet.maxObservedHeight (vars s)) (number b)
     /\ MonadMainnet.lastProcessedHeight
          (vars (MonadMainnet.processBlock opts h s).2)
        = MonadMainnet.lastProcessedHeight (vars s)).
Proof.
  split; intros W opts s h b w' Hget.
  - rewrite (reorg_processBlock_ok opts s h b w' Hget). simpl.
    apply reorgVarsAfter_heights.
  - rewrite (monad_processBlock_ok opts s h b w' Hget). simpl.
    apply monadVarsAfter_heights.
Qed.

(** Block 2 fetched again after the first tick on the chain 0..2. *)
Lemma X3_processBlock_watermark_witness :
  let s := Scenario.reorgAfterFirstTick 2 in
  MonitorReorg.maxObservedHeight
    (vars (MonitorReorg.processBlock Scenario.opts 2 s).2)
  = Z.max (MonitorReorg.maxObservedHeight (vars s)) 2
  /\ MonitorReorg.lastProcessedHeight
       (vars (MonitorReorg.processBlock Scenario.opts 2 s).2)
     = MonitorReorg.lastProcessedHeight (vars s).
Proof.
  intros s.
  apply (proj1 X3_processBlock_watermark Fake.World Scenario.opts s 2
           (Fake.linearBlock 2) (world s)).
  vm_compute. reflexivity.
Defined.

(** X4.  A rejected fetch changes nothing the monitor keeps.  In
    src/monitor_reorg.js [processBlock] throws the error of the client on to
    its caller; in the Monad mainnet monitor it returns [false] and counts
    nothing in [hourlyStats].  In both, the variables, the log and the alerts
    are exactly as before the call. *)
Theorem X4_processBlock_rejected_fetch :
  (forall (W : Type) (opts : Options W) (s : Sys W MonitorReorg.Vars)
          (h : Z) (e : string) (w' : W),
     getBlock (client opts) (BlockNumber h true) (world s) = (Throw e, w') ->
     (MonitorReorg.processBlock opts h s).1 = Throw e
     /\ vars (MonitorReorg.processBlock opts h s).2 = vars s
     /\ events (MonitorReorg.processBlock opts h s).2 = events s
     /\ alerts (MonitorReorg.processBlock opts h s).2 = alerts s)
  /\
  (forall (W : Type) (opts : Options W) (s : Sys W MonadMainnet.Vars)
          (h : Z) (e : string) (w' : W),
     getBlock (client opts) (BlockNumber h true) (world s) = (Throw e, w') ->
     (MonadMainnet.processBlock opts h s).1 = Ret false
     /\ vars (MonadMainnet.processBlock opts h s).2 = vars s
     /\ events (MonadMainnet.processBlock opts h s).2 = events s
     /\ alerts (MonadMainnet.processBlock opts h s).2 = alerts s).
Proof.
  split; intros W opts s h e w' Hget.
  - rewrite (reorg_processBlock_fail opts s h e w' Hget). repeat split.
  - rewrite (monad_processBlock_fail opts s h e w' Hget). repeat split.
Qed.

(** The fetch of the missing block 1 on the chain with a hole. *)
Lemma X4_processBlock_rejected_witness :
  let s := ScenarioMissingBlock.reorgStart in
  (MonitorReorg.processBlock Scenario.opts 1 s).1 = Throw "Block not found"
  /\ vars (MonitorReorg.processBlock Scenario.opts 1 s).2 = vars s
  /\ events (MonitorReorg.processBlock Scenario.opts 1 s).2 = events s
  /\ alerts (MonitorReorg.processBlock Scenario.opts 1 s).2 = alerts s.
Proof.
  intros s.
  apply (proj1 X4_processBlock_rejected_fetch Fake.World Scenario.opts s 1
           "Block not found" (world s)).
  vm_compute. reflexivity.
Defined.

(** ** The chain-identity probe *)

(** X5.  While less than [chainMetadataPollMs] has passed since the last
    probe, the metadata check of a tick only reads the clock: it makes no
    call on the client, logs nothing, sends nothing and leaves every
    variable as it was.  This holds in both monitors. *)
Theorem X5_metadataCheck_not_due :
  (forall (W : Type) (opts : Options W) (s : Sys W MonitorReorg.Vars),
     (now opts (world s)).1 - MonitorReorg.lastMetadataCheckMs (vars s)
     < chainMetadataPollMs opts ->
     MonitorReorg.metadataCheck opts s
     = (Ret tt,
        {| vars := vars s; events := events s; alerts := alerts s;
           rpc_log := rpc_log s; world := (now opts (world s)).2 |}))
  /\
  (forall (W : Type) (opts : Options W) (s : Sys W MonadMainnet.Vars),
     (now opts (world s)).1 - MonadMainnet.lastMetadataCheckMs (vars s)
     < chainMetadataPollMs opts ->
     MonadMainnet.metadataCheck opts s
     = (Ret tt,
        {| vars := vars s; events := events s; alerts := alerts s;
           rpc_log := rpc_log s; world := (now opts (world s)).2 |})).
Proof.
  split; intros W opts s Hlt.
  - unfold MonitorReorg.metadataCheck, bind, call_now, gets, when.
    destruct (now opts (world s)) as [t w0]. simpl in *.
    rewrite bool_decide_false by lia. reflexivity.
  - unfold MonadMainnet.metadataCheck, bind, call_now, gets, when.
    destruct (now opts (world s)) as [t w0]. simpl in *.
    rewrite bool_decide_false by lia. reflexivity.
Qed.

(** The clock stands 500 ms after the last probe, the interval is 10000. *)
Lemma X5_metadataCheck_not_due_witness :
  let s := ScenarioMetadata.reorgProbed in
  MonitorReorg.metadataCheck ScenarioMetadata.opts s
  = (Ret tt,
     {| vars := vars s; events := events s; alerts := alerts s;
        rpc_log := rpc_log s;
        world := (now ScenarioMetadata.opts (world s)).2 |}).
Proof.
  intros s.
  apply (proj1 X5_metadataCheck_not_due Fake.World ScenarioMetadata.opts s).
  vm_compute. reflexivity.
Defined.

(** X6.  A probe that is due and answered records the chain id and the hash
    of block 0 and the time of the probe, and leaves the heights and the
    cache alone.  It logs CHAIN_ID_CHANGED, with the old and the new id and
    severity CRITICAL, exactly when an id was recorded before and differs,
    then GENESIS_CHANGED likewise for the hash of block 0; the first
    observation is recorded without an event.  src/monitor_reorg.js hands
    the same records to [sendAlert]; the Monad mainnet monitor sends no
    alert for them. *)
Theorem X6_metadataCheck_answered :
  (forall (W : Type) (opts : Options W) (s : Sys W MonitorReorg.Vars)
          (t : Z) (w0 : W) (id : Z) (w1 : W) (g : Block) (w2 : W),
     now opts (world s) = (t, w0) ->
     t - MonitorReorg.lastMetadataCheckMs (vars s) >= chainMetadataPollMs opts ->
     getChainId (client opts) w0 = (Ret id, w1) ->
     getBlock (client opts) (BlockNumber 0 false) w1 = (Ret g, w2) ->
     let idChanged :=
       match MonitorReorg.lastChainId (vars s) with
       | Some old =>
           if decide (id ≠ old) then
             [{| event_type := "CHAIN_ID_CHANGED";
                 data := ChainIdChangedData old id "CRITICAL" |}]
           else []
       | None => []
       end in
     let genesisChanged :=
       match MonitorReorg.lastGenesisHash (vars s) with
       | Some old =>
           if decide (hash g ≠ old) then
             [{| event_type := "GENESIS_CHANGED";
                 data := GenesisChangedData old (hash g) "CRITICAL" |}]
           else []
       | None => []
       end in
     exists s',
       MonitorReorg.metadataCheck opts s = (Ret tt, s')
       /\ events s' = events s ++ idChanged ++ genesisChanged
       /\ alerts s' = alerts s ++ idChanged ++ genesisChanged
       /\ MonitorReorg.lastChainId (vars s') = Some id
       /\ MonitorReorg.lastGenesisHash (vars s') = Some (hash g)
       /\ MonitorReorg.lastMetadataCheckMs (vars s') = t
       /\ reorgHeightsAndCache (vars s') = reorgHeightsAndCache (vars s)
       /\ rpc_log s'
          = rpc_log s ++ [CallGetChainId; CallGetBlock (BlockNumber 0 false)])
  /\
  (forall (W : Type) (opts : Options W) (s : Sys W MonadMainnet.Vars)
          (t : Z) (w0 : W) (id : Z) (w1 : W) (g : Block) (w2 : W),
     now opts (world s) = (t, w0) ->
     t - MonadMainnet.lastMetadataCheckMs (vars s) >= chainMetadataPollMs opts ->
     getChainId (client opts) w0 = (Ret id, w1) ->
     getBlock (client opts) (BlockNumber 0 false) w1 = (Ret g, w2) ->
     let idChanged :=
       match MonadMainnet.lastChainId (vars s) with
       | Some old =>
           if decide (id ≠ old) then
             [{| event_type := "CHAIN_ID_CHANGED";
                 data := ChainIdChangedData old id "CRITICAL" |}]
           else []
       | None => []
       end in
     let genesisChanged :=
       match MonadMainnet.lastGenesisHash (vars s) with
       | Some old =>
           if decide (hash g ≠ old) then
             [{| event_type := "GENESIS_CHANGED";
                 data := GenesisChangedData old (hash g) "CRITICAL" |}]
           else []
       | None => []
       end in
     exists s',
       MonadMainnet.metadataCheck opts s = (Ret tt, s')
       /\ events s' = events s ++ idChanged ++ genesisChanged
       /\ alerts s' = alerts s
       /\ MonadMainnet.lastChainId (vars s') = Some id
       /\ MonadMainnet.lastGenesisHash (vars s') = Some (hash g)
       /\ MonadMainnet.lastMetadataCheckMs (vars s') = t
       /\ monadHeightsAndCache (vars s') = monadHeightsAndCache (vars s)
       /\ rpc_log s'
          = rpc_log s ++ [CallGetChainId; CallGetBlock (BlockNumber 0 false)]).
Proof.
  split; intros W opts s t w0 id w1 g w2 Hnow Hdue Hid Hgen idChanged
    genesisChanged; subst idChanged genesisChanged.
  - unfold MonitorReorg.metadataCheck, bind, call_now, gets, when,
      call_metadata.
    rewrite Hnow. simpl. rewrite bool_decide_true by exact Hdue. simpl.
    rewrite Hid, Hgen. simpl.
    destruct s as [v ev al rl w]. destruct v as [c mx lp lc lg lm]. simpl.
    destruct lc as [oldId |]; destruct lg as [oldG |];
      repeat (simpl; case_decide); simpl; try contradiction;
      (eexists; split; [reflexivity |]); simpl;
      rewrite ?app_nil_r, <- ?app_assoc; repeat split.
  - unfold MonadMainnet.metadataCheck, bind, call_now, gets, when,
      call_metadata.
    rewrite Hnow. simpl. rewrite bool_decide_true by exact Hdue. simpl.
    rewrite Hid, Hgen. simpl.
    destruct s as [v ev al rl w]. destruct v as [c mx lp lc lg lm hs]. simpl.
    destruct lc as [oldId |]; destruct lg as [oldG |];
      repeat (simpl; case_decide); simpl; try contradiction;
      (eexists; split; [reflexivity |]); simpl;
      rewrite ?app_nil_r, <- ?app_assoc; repeat split.
Qed.

(** 'detects chain reset signals via chainId/genesis changes', the probe of
    the second tick. *)
Lemma X6_metadataCheck_answered_witness :
  let s := ScenarioMetadata.reorgReset in
  let changed :=
    [{| event_type := "CHAIN_ID_CHANGED";
        data := ChainIdChangedData 1 2 "CRITICAL" |};
     {| event_type := "GENESIS_CHANGED";
        data := GenesisChangedData "0xgenesis" "0xgenesis_b" "CRITICAL" |}] in
  exists s',
    MonitorReorg.metadataCheck Scenario.opts s = (Ret tt, s')
    /\ events s' = events s ++ changed
    /\ alerts s' = alerts s ++ changed
    /\ MonitorReorg.lastChainId (vars s') = Some 2
    /\ MonitorReorg.lastGenesisHash (vars s') = Some "0xgenesis_b"
    /\ MonitorReorg.lastMetadataCheckMs (vars s') = 1
    /\ reorgHeightsAndCache (vars s') = reorgHeightsAndCache (vars s)
    /\ rpc_log s'
       = rpc_log s ++ [CallGetChainId; CallGetBlock (BlockNumber 0 false)].
Proof.
  intros s changed.
  exact (proj1 X6_metadataCheck_answered Fake.World Scenario.opts s 1
           (world s) 2 (world s) ScenarioMetadata.genesis_b (world s)
           eq_refl ltac:(vm_compute; discriminate) eq_refl
           ltac:(vm_compute; reflexivity)).
Defined.

(** X7.  A probe that is due and rejected throws the rejection that
    [Promise.all] lets through: that of the one call that was rejected,
    and, when both calls were rejected, the one the client delivers first.
    By then [lastMetadataCheckMs] has already moved to the time of the
    attempt, so the next probe is due only a full interval later.  Nothing
    else is recorded: the chain id and the genesis hash kept are the old
    ones, also when the chain id was answered and only the fetch of block 0
    was rejected, and nothing is logged. *)
Theorem X7_metadataCheck_rejected :
  forall (W : Type) (opts : Options W) (s : Sys W MonitorReorg.Vars)
         (t : Z) (w0 : W) (r1 : Outcome Z) (w1 : W) (r2 : Outcome Block)
         (w2 : W) (e : string),
    now opts (world s) = (t, w0) ->
    t - MonitorReorg.lastMetadataCheckMs (vars s) >= chainMetadataPollMs opts ->
    getChainId (client opts) w0 = (r1, w1) ->
    getBlock (client opts) (BlockNumber 0 false) w1 = (r2, w2) ->
    match r1, r2 with
    | Throw e1, Ret _ => e1 = e
    | Ret _, Throw e2 => e2 = e
    | Throw e1, Throw e2 =>
        (if laterRejectsFirst (client opts) w2 then e2 else e1) = e
    | Ret _, Ret _ => False
    end ->
    exists s',
      MonitorReorg.metadataCheck opts s = (Throw e, s')
      /\ MonitorReorg.lastMetadataCheckMs (vars s') = t
      /\ MonitorReorg.lastChainId (vars s') = MonitorReorg.lastChainId (vars s)
      /\ MonitorReorg.lastGenesisHash (vars s')
         = MonitorReorg.lastGenesisHash (vars s)
      /\ reorgHeightsAndCache (vars s') = reorgHeightsAndCache (vars s)
      /\ events s' = events s
      /\ alerts s' = alerts s.
Proof.
  intros W opts s t w0 r1 w1 r2 w2 e Hnow Hdue Hid Hgen Hfail.
  unfold MonitorReorg.metadataCheck, bind, call_now, gets, when,
    call_metadata.
  rewrite Hnow. simpl. rewrite bool_decide_true by exact Hdue. simpl.
  rewrite Hid, Hgen.
  destruct s as [v ev al rl w]. destruct v as [c mx lp lc lg lm].
  destruct r1 as [id | e1], r2 as [g | e2]; simpl in *; try contradiction;
    try destruct (laterRejectsFirst (client opts) w2);
    subst; eexists; (split; [reflexivity |]); simpl; repeat split.
Qed.

(** Both calls are rejected, and the rejection of the fetch of block 0
    comes first. *)
Lemma X7_metadataCheck_rejected_witness :
  let s := ScenarioBothRejected.reorgStart in
  exists s',
    MonitorReorg.metadataCheck ScenarioBothRejected.opts s = (Throw "boom", s')
    /\ MonitorReorg.lastMetadataCheckMs (vars s') = 7
    /\ MonitorReorg.lastChainId (vars s') = MonitorReorg.lastChainId (vars s)
    /\ MonitorReorg.lastGenesisHash (vars s')
       = MonitorReorg.lastGenesisHash (vars s)
    /\ reorgHeightsAndCache (vars s') = reorgHeightsAndCache (vars s)
    /\ events s' = events s
    /\ alerts s' = alerts s.
Proof.
  intros s.
  exact (X7_metadataCheck_rejected Fake.World ScenarioBothRejected.opts s 7
           (world s) (Throw "chain id down") (world s) (Throw "boom")
           (world s) "boom"
           eq_refl ltac:(vm_compute; discriminate) eq_refl eq_refl eq_refl).
Defined.

(** ** The guard around the whole tick *)

(** X8.  When a tick fails before the latest height is known, because the
    identity probe or the fetch of the latest block is rejected with [e],
    it returns with the heights and the cache as they were at its start
    and processes no block.  It logs one RPC_ERROR carrying [e] as its
    [error] and no [message], unless [e] contains [Block not found], in
    which case it logs nothing for the failure.  This holds in both
    monitors. *)
Theorem X8_tick_fails_before_tip :
  (forall (W : Type) (opts : Options W) (s s1 : Sys W MonitorReorg.Vars)
          (e : string),
     MonitorReorg.tickPrefix opts s = (Throw e, s1) ->
     MonitorReorg.tick opts s
     = (Ret tt,
        {| vars := vars s1;
           events :=
             events s1
             ++ (if includes "Block not found" e then []
                 else [{| event_type := "RPC_ERROR";
                          data := RpcErrorData None e |}]);
           alerts := alerts s1; rpc_log := rpc_log s1; world := world s1 |})
     /\ reorgHeightsAndCache (vars s1) = reorgHeightsAndCache (vars s))
  /\
  (forall (W : Type) (opts : Options W) (s s1 : Sys W MonadMainnet.Vars)
          (e : string),
     MonadMainnet.tickPrefix opts s = (Throw e, s1) ->
     MonadMainnet.tick opts s
     = (Ret tt,
        {| vars := vars s1;
           events :=
             events s1
             ++ (if includes "Block not found" e then []
                 else [{| event_type := "RPC_ERROR";
                          data := RpcErrorData None e |}]);
           alerts := alerts s1; rpc_log := rpc_log s1; world := world s1 |})
     /\ monadHeightsAndCache (vars s1) = monadHeightsAndCache (vars s)).
Proof.
  split; intros W opts s s1 e Hpre.
  - split.
    + unfold MonitorReorg.tick, try_catch, MonitorReorg.tickBody.
      unfold MonitorReorg.tickPrefix, bind in Hpre. unfold bind at 1.
      destruct (MonitorReorg.metadataCheck opts s) as [[[] | e0] s0].
      * unfold bind at 1. rewrite Hpre. unfold when, logJson, ret.
        destruct (includes "Block not found" e), s1; simpl;
          rewrite ?app_nil_r; reflexivity.
      * injection Hpre as -> ->. unfold when, logJson, ret.
        destruct (includes "Block not found" e), s1; simpl;
          rewrite ?app_nil_r; reflexivity.
    + pose proof (reorg_tickPrefix_frame opts s) as Hframe.
      rewrite Hpre in Hframe. exact Hframe.
  - split.
    + unfold MonadMainnet.tick, try_catch, MonadMainnet.tickBody.
      unfold MonadMainnet.tickPrefix, bind in Hpre. unfold bind at 1.
      destruct (MonadMainnet.metadataCheck opts s) as [[[] | e0] s0].
      * unfold bind at 1. rewrite Hpre. unfold when, logJson, ret.
        destruct (includes "Block not found" e), s1; simpl;
          rewrite ?app_nil_r; reflexivity.
      * injection Hpre as -> ->. unfold when, logJson, ret.
        destruct (includes "Block not found" e), s1; simpl;
          rewrite ?app_nil_r; reflexivity.
    + pose proof (monad_tickPrefix_frame opts s) as Hframe.
      rewrite Hpre in Hframe. exact Hframe.
Qed.

(** The second tick of 'suppresses RPC_ERROR for "Block not found", logs
    otherwise'. *)
Lemma X8_tick_fails_before_tip_witness :
  let s := ScenarioBoom.reorgStart in
  let s1 := (MonitorReorg.tickPrefix ScenarioBoom.opts s).2 in
  MonitorReorg.tick ScenarioBoom.opts s
  = (Ret tt,
     {| vars := vars s1;
        events :=
          events s1
          ++ (if includes "Block not found" "boom" then []
              else [{| event_type := "RPC_ERROR";
                       data := RpcErrorData None "boom" |}]);
        alerts := alerts s1; rpc_log := rpc_log s1; world := world s1 |})
  /\ reorgHeightsAndCache (vars s1) = reorgHeightsAndCache (vars s).
Proof.
  intros s s1.
  apply (proj1 X8_tick_fails_before_tip Fake.World ScenarioBoom.opts s s1
           "boom").
  vm_compute. reflexivity.
Defined.

(** ** The deep recheck *)

Section RecheckLoops.
Context {W : Type}.
Variable opts : Options W.

Lemma reorg_recheckLoop_spec (hs : list Z) :
  forall s : Sys W MonitorReorg.Vars,
    exists s' l,
      MonitorReorg.recheckLoop opts hs s = (Ret tt, s')
      /\ rpc_log s' = rpc_log s ++ map fetchOf hs
      /\ MonitorReorg.lastProcessedHeight (vars s')
         = MonitorReorg.lastProcessedHeight (vars s)
      /\ events s' = events s ++ l
      /\ Forall
           (fun e =>
              isRpcError e ->
              exists h err,
                h ∈ hs
                /\ data e
                   = RpcErrorData (Some ("Recheck failed for " +:+ pretty h))
                       err) l.
Proof.
  induction hs as [| h rest IH]; intros s.
  - exists s, []. simpl. rewrite !app_nil_r. repeat split. constructor.
  - simpl. unfold bind at 1, try_catch. unfold bind at 1.
    destruct (getBlock (client opts) (BlockNumber h true) (world s))
      as [[b | e] w'] eqn:Hget.
    + rewrite (reorg_processBlock_ok opts s h b w' Hget). simpl.
      match goal with
      | |- context [MonitorReorg.recheckLoop opts rest ?s1] =>
          destruct (IH s1) as (s' & l & Hrun & Hlog & Hlast & Hev & Hall)
      end.
      simpl in Hlog, Hlast, Hev.
      exists s'. eexists. split; [exact Hrun |].
      split; [rewrite Hlog, <- app_assoc; reflexivity |].
      split; [rewrite Hlast; apply reorgVarsAfter_heights |].
      split; [rewrite Hev, <- !app_assoc; reflexivity |].
      rewrite !Forall_app. repeat split.
      * eapply Forall_impl; [apply replacedEvents_type |].
        intros ev Hty Herr. unfold isRpcError in Herr. congruence.
      * unfold mismatchEvents.
        destruct (MonitorReorg.blockCache (vars s) !! (number b - 1));
          [case_decide |]; repeat constructor.
        intros Herr. discriminate Herr.
      * eapply Forall_impl; [apply receivedEvents_type |].
        intros ev Hty Herr. unfold isRpcError in Herr. congruence.
      * eapply Forall_impl; [exact Hall |].
        intros ev Hev' Herr. destruct (Hev' Herr) as (h' & err & Hin & Hd).
        exists h', err. split; [right; exact Hin | exact Hd].
    + rewrite (reorg_processBlock_fail opts s h e w' Hget). simpl.
      match goal with
      | |- context [MonitorReorg.recheckLoop opts rest ?s1] =>
          destruct (IH s1) as (s' & l & Hrun & Hlog & Hlast & Hev & Hall)
      end.
      simpl in Hlog, Hlast, Hev.
      exists s'. eexists. split; [exact Hrun |].
      split; [rewrite Hlog, <- app_assoc; reflexivity |].
      split; [exact Hlast |].
      split; [rewrite Hev, <- !app_assoc; reflexivity |].
      constructor.
      * intros _. exists h, e. split; [left | reflexivity].
      * eapply Forall_impl; [exact Hall |].
        intros ev Hev' Herr. destruct (Hev' Herr) as (h' & err & Hin & Hd).
        exists h', err. split; [right; exact Hin | exact Hd].
Qed.

Lemma monad_recheckLoop_spec (hs : list Z) :
  forall s : Sys W MonadMainnet.Vars,
    exists s',
      MonadMainnet.recheckLoop opts hs s = (Ret tt, s')
      /\ rpc_log s' = rpc_log s ++ map fetchOf hs
      /\ MonadMainnet.lastProcessedHeight (vars s')
         = MonadMainnet.lastProcessedHeight (vars s).
Proof.
  induction hs as [| h rest IH]; intros s.
  - exists s. simpl. rewrite !app_nil_r. repeat split.
  - simpl. unfold bind at 1.
    destruct (getBlock (client opts) (BlockNumber h true) (world s))
      as [[b | e] w'] eqn:Hget.
    + rewrite (monad_processBlock_ok opts s h b w' Hget).
      match goal with
      | |- context [MonadMainnet.recheckLoop opts rest ?s1] =>
          destruct (IH s1) as (s' & Hrun & Hlog & Hlast)
      end.
      simpl in Hlog, Hlast. exists s'. split; [exact Hrun |].
      split; [rewrite Hlog, <- app_assoc; reflexivity |].
      rewrite Hlast. apply monadVarsAfter_heights.
    + rewrite (monad_processBlock_fail opts s h e w' Hget).
      match goal with
      | |- context [MonadMainnet.recheckLoop opts rest ?s1] =>
          destruct (IH s1) as (s' & Hrun & Hlog & Hlast)
      end.
      simpl in Hlog, Hlast. exists s'. split; [exact Hrun |].
      split; [rewrite Hlog, <- app_assoc; reflexivity | exact Hlast].
Qed.
End RecheckLoops.

(** X9.  The deep recheck fetches every height of its window once, in
    increasing order, whichever of the fetches are rejected, and never moves
    [lastProcessedHeight].  In src/monitor_reorg.js the window runs from
    [max 0 (L - recheckDepth + 1)] to [lastProcessedHeight], and each
    rejected fetch is logged as an RPC_ERROR whose message is
    [Recheck failed for h] with [h] a height of the window; no other
    RPC_ERROR is logged.  In the Monad mainnet monitor the window runs up to
    [L] itself.  A window whose start lies above its end is empty: nothing
    is fetched. *)
Theorem X9_deepRecheck_fetches_whole_window :
  (forall (W : Type) (opts : Options W) (s : Sys W MonitorReorg.Vars) (L : Z),
     let window :=
       heights (Z.max 0 (L - recheckDepth opts + 1))
         (MonitorReorg.lastProcessedHeight (vars s)) in
     exists s' l,
       MonitorReorg.deepRecheck opts L s = (Ret tt, s')
       /\ rpc_log s' = rpc_log s ++ map fetchOf window
       /\ MonitorReorg.lastProcessedHeight (vars s')
          = MonitorReorg.lastProcessedHeight (vars s)
       /\ events s' = events s ++ l
       /\ Forall
            (fun e =>
               isRpcError e ->
               exists h err,
                 h ∈ window
                 /\ data e
                    = RpcErrorData (Some ("Recheck failed for " +:+ pretty h))
                        err) l)
  /\
  (forall (W : Type) (opts : Options W) (s : Sys W MonadMainnet.Vars) (L : Z),
     exists s',
       MonadMainnet.deepRecheck opts L s = (Ret tt, s')
       /\ rpc_log s'
          = rpc_log s
            ++ map fetchOf (heights (Z.max 0 (L - recheckDepth opts + 1)) L)
       /\ MonadMainnet.lastProcessedHeight (vars s')
          = MonadMainnet.lastProcessedHeight (vars s))
  /\
  (forall from to : Z, to < from -> heights from to = []).
Proof.
  split; [| split].
  - intros W opts s L window. subst window.
    unfold MonitorReorg.deepRecheck, bind, gets. simpl.
    apply reorg_recheckLoop_spec.
  - intros W opts s L. unfold MonadMainnet.deepRecheck.
    apply monad_recheckLoop_spec.
  - intros from to Hlt. unfold heights, seqZ.
    replace (Z.to_nat (to - from + 1)) with 0%nat by lia. reflexivity.
Qed.

(** An empty window: from height 5 to height 3. *)
Lemma X9_deepRecheck_empty_window_witness : heights 5 3 = [].
Proof.
  apply (proj2 (proj2 X9_deepRecheck_fetches_whole_window) 5 3). lia.
Defined.

(** ** Composing relations along monitor code *)

Section Relates.
Context {W V : Type}.
Variable R : Sys W V -> Sys W V -> Prop.
Hypothesis R_client : forall s s', sameButClient s s' -> R s s'.
Hypothesis R_trans : forall s1 s2 s3, R s1 s2 -> R s2 s3 -> R s1 s3.

Lemma relates_same {A} (m : M W V A) :
  (forall s, sameButClient s (m s).2) -> relates R m.
Proof. intros H s. apply R_client, H. Qed.

Lemma relates_ret {A} (a : A) : relates R (ret a : M W V A).
Proof. apply relates_same. intros s. repeat split. Qed.

Lemma relates_gets {A} (f : V -> A) : relates R (gets f : M W V A).
Proof. apply relates_same. intros s. repeat split. Qed.

Lemma relates_call_now (opts : Options W) :
  relates R (call_now opts : M W V Z).
Proof.
  apply relates_same. intros s. unfold call_now.
  destruct (now opts (world s)). repeat split.
Qed.

Lemma relates_call_getBlock (opts : Options W) args :
  relates R (call_getBlock opts args : M W V Block).
Proof.
  apply relates_same. intros s. unfold call_getBlock.
  destruct (getBlock (client opts) args (world s)). repeat split.
Qed.

Lemma relates_call_metadata (opts : Options W) :
  relates R (call_metadata opts : M W V (Z * Block)).
Proof.
  apply relates_same. intros s. unfold call_metadata.
  destruct (getChainId (client opts) (world s)) as [r1 w1].
  destruct (getBlock (client opts) (BlockNumber 0 false) w1) as [r2 w2].
  destruct r1, r2; try destruct (laterRejectsFirst (client opts) w2);
    repeat split.
Qed.

Lemma relates_bind {A B} (m : M W V A) (k : A -> M W V B) :
  relates R m -> (forall a, relates R (k a)) -> relates R (bind m k).
Proof.
  intros Hm Hk s. unfold bind. specialize (Hm s).
  destruct (m s) as [[a | e] s1]; simpl in *; [| exact Hm].
  eapply R_trans; [exact Hm | apply Hk].
Qed.

Lemma relates_try_catch {A} (m : M W V A) (h : string -> M W V A) :
  relates R m -> (forall e, relates R (h e)) -> relates R (try_catch m h).
Proof.
  intros Hm Hh s. unfold try_catch. specialize (Hm s).
  destruct (m s) as [[a | e] s1]; simpl in *; [exact Hm |].
  eapply R_trans; [exact Hm | apply Hh].
Qed.

Lemma relates_when (c : bool) (m : M W V unit) :
  (c = true -> relates R m) -> relates R (when c m).
Proof. intros Hm. destruct c; [apply Hm; reflexivity | apply relates_ret]. Qed.

Lemma relates_ticks (tick : M W V unit) s s' :
  relates R tick -> ticks tick s s' -> R s s'.
Proof.
  intros Htick Hrun. induction Hrun as [s | s s1 f Hrun IH].
  - apply R_client. repeat split.
  - eapply R_trans; [exact IH |].
    eapply R_trans; [| apply Htick].
    apply R_client. repeat split.
Qed.
End Relates.

(** ** The two heights across a tick *)

Section ReorgHeights.
Context {W : Type}.
Variable opts : Options W.

Lemma reorgHeightsGrow_client (s s' : Sys W MonitorReorg.Vars) :
  sameButClient s s' -> reorgHeightsGrow s s'.
Proof. intros (Hv & _ & _). unfold reorgHeightsGrow. rewrite Hv. lia. Qed.

Lemma reorgHeightsGrow_trans (s1 s2 s3 : Sys W MonitorReorg.Vars) :
  reorgHeightsGrow s1 s2 -> reorgHeightsGrow s2 s3 -> reorgHeightsGrow s1 s3.
Proof. unfold reorgHeightsGrow. lia. Qed.

Lemma reorg_processBlock_heights h :
  relates reorgHeightsGrow (MonitorReorg.processBlock opts h).
Proof.
  intros s.
  destruct (getBlock (client opts) (BlockNumber h true) (world s))
    as [[b | e] w'] eqn:Hget.
  - rewrite (reorg_processBlock_ok opts s h b w' Hget).
    unfold reorgHeightsGrow. simpl.
    destruct (reorgVarsAfter_heights (vars s) b) as [-> ->]. lia.
  - rewrite (reorg_processBlock_fail opts s h e w' Hget).
    unfold reorgHeightsGrow. simpl. lia.
Qed.

Lemma reorg_forwardSyncLoop_skip h rest (s : Sys W MonitorReorg.Vars) :
  h < 0 ->
  MonitorReorg.forwardSyncLoop opts (h :: rest) s
  = MonitorReorg.forwardSyncLoop opts rest s.
Proof. intros Hneg. simpl. destruct (decide (h < 0)); [reflexivity | lia]. Qed.

Lemma reorg_forwardSyncLoop_ok h rest (s : Sys W MonitorReorg.Vars) b w' :
  ¬ h < 0 ->
  getBlock (client opts) (BlockNumber h true) (world s) = (Ret b, w') ->
  MonitorReorg.forwardSyncLoop opts (h :: rest) s
  = MonitorReorg.forwardSyncLoop opts rest
      {| vars :=
           MonitorReorg.set_lastProcessedHeight h
             (reorgVarsAfter (vars s) b);
         events :=
           events s ++ replacedEvents (MonitorReorg.blockCache (vars s)) b
             ++ mismatchEvents "PARENT_HASH_MISMATCH_DETECTED"
                  (MonitorReorg.blockCache (vars s)) b
             ++ receivedEvents (MonitorReorg.blockCache (vars s)) b;
         alerts :=
           alerts s ++ replacedEvents (MonitorReorg.blockCache (vars s)) b
             ++ mismatchEvents "PARENT_HASH_MISMATCH_DETECTED"
                  (MonitorReorg.blockCache (vars s)) b;
         rpc_log := rpc_log s ++ [fetchOf h];
         world := w' |}.
Proof.
  intros Hpos Hget. simpl. destruct (decide (h < 0)); [contradiction |].
  unfold bind at 1, try_catch. unfold bind at 1.
  rewrite (reorg_processBlock_ok opts s h b w' Hget). reflexivity.
Qed.

Lemma reorg_forwardSyncLoop_fail h rest (s : Sys W MonitorReorg.Vars) e w' :
  ¬ h < 0 ->
  getBlock (client opts) (BlockNumber h true) (world s) = (Throw e, w') ->
  MonitorReorg.forwardSyncLoop opts (h :: rest) s
  = (Ret tt,
     {| vars := vars s;
        events :=
          events s
          ++ [{| event_type := "RPC_ERROR";
                 data :=
                   RpcErrorData
                     (Some ("Failed to process block " +:+ pretty h)) e |}];
        alerts := alerts s;
        rpc_log := rpc_log s ++ [fetchOf h];
        world := w' |}).
Proof.
  intros Hpos Hget. simpl. destruct (decide (h < 0)); [contradiction |].
  unfold bind at 1, try_catch. unfold bind at 1.
  rewrite (reorg_processBlock_fail opts s h e w' Hget). reflexivity.
Qed.

Lemma reorg_forwardSyncLoop_heights (n : nat) :
  forall (a : Z) (s : Sys W MonitorReorg.Vars),
    MonitorReorg.lastProcessedHeight (vars s) < a ->
    let s' := (MonitorReorg.forwardSyncLoop opts (seqZ a (Z.of_nat n)) s).2 in
    reorgHeightsGrow s s'
    /\ MonitorReorg.lastProcessedHeight (vars s')
       <= Z.max (MonitorReorg.lastProcessedHeight (vars s))
            (a + Z.of_nat n - 1).
Proof.
  induction n as [| n IH]; intros a s Hlast.
  - simpl. unfold reorgHeightsGrow. lia.
  - rewrite seqZ_S.
    destruct (decide (a < 0)) as [Hneg | Hpos].
    + rewrite (reorg_forwardSyncLoop_skip a _ s Hneg).
      destruct (IH (a + 1) s) as [Hgrow Hup]; [lia |].
      split; [exact Hgrow | cbv zeta in *; lia].
    + destruct (getBlock (client opts) (BlockNumber a true) (world s))
        as [[b | e] w'] eqn:Hget.
      * rewrite (reorg_forwardSyncLoop_ok a _ s b w' Hpos Hget).
        match goal with
        | |- context [MonitorReorg.forwardSyncLoop opts ?hs ?s1] =>
            destruct (IH (a + 1) s1) as [Hgrow Hup]; [simpl; lia |];
            remember (MonitorReorg.forwardSyncLoop opts hs s1) as r eqn:Hr;
            clear Hr
        end.
        unfold reorgHeightsGrow in *. simpl in Hgrow, Hup. cbv zeta.
        destruct (reorgVarsAfter_heights (vars s) b) as [Hmax _].
        rewrite Hmax in Hgrow. lia.
      * rewrite (reorg_forwardSyncLoop_fail a _ s e w' Hpos Hget). simpl.
        unfold reorgHeightsGrow. simpl. lia.
Qed.

Lemma reorg_forwardSync_heights L (s : Sys W MonitorReorg.Vars) :
  let s' := (MonitorReorg.forwardSync opts L s).2 in
  reorgHeightsGrow s s'
  /\ MonitorReorg.lastProcessedHeight (vars s')
     <= Z.max (MonitorReorg.lastProcessedHeight (vars s)) L.
Proof.
  unfold MonitorReorg.forwardSync, bind, gets, when. simpl.
  case_bool_decide as Hgt.
  - unfold heights.
    replace (L - (MonitorReorg.lastProcessedHeight (vars s) + 1) + 1)
      with (Z.of_nat (Z.to_nat (L - MonitorReorg.lastProcessedHeight (vars s))))
      by lia.
    destruct (reorg_forwardSyncLoop_heights
                (Z.to_nat (L - MonitorReorg.lastProcessedHeight (vars s)))
                (MonitorReorg.lastProcessedHeight (vars s) + 1) s)
      as [Hgrow Hup]; [lia |].
    split; [exact Hgrow | lia].
  - simpl. unfold reorgHeightsGrow. lia.
Qed.

Lemma reorg_deepRecheck_heights L (s : Sys W MonitorReorg.Vars) :
  let s' := (MonitorReorg.deepRecheck opts L s).2 in
  MonitorReorg.lastProcessedHeight (vars s')
  = MonitorReorg.lastProcessedHeight (vars s)
  /\ MonitorReorg.maxObservedHeight (vars s)
     <= MonitorReorg.maxObservedHeight (vars s').
Proof.
  assert (Hspec :
    exists s',
      MonitorReorg.deepRecheck opts L s = (Ret tt, s')
      /\ MonitorReorg.lastProcessedHeight (vars s')
         = MonitorReorg.lastProcessedHeight (vars s)).
  { destruct (reorg_recheckLoop_spec opts
                (heights (Z.max 0 (L - recheckDepth opts + 1))
                   (MonitorReorg.lastProcessedHeight (vars s))) s)
      as (s' & l & Hrun & Hlog & Hlast & _).
    exists s'. split; assumption. }
  destruct Hspec as (s' & Hrun & Hlast).
  rewrite Hrun. simpl. split; [exact Hlast |].
  assert (Hrel : relates reorgHeightsGrow (MonitorReorg.deepRecheck opts L)).
  { unfold MonitorReorg.deepRecheck.
    apply relates_bind;
      [exact reorgHeightsGrow_trans
      | apply relates_gets; exact reorgHeightsGrow_client |].
    intros last.
    induction (heights (Z.max 0 (L - recheckDepth opts + 1)) last)
      as [| h rest IH]; simpl;
      [apply relates_ret; exact reorgHeightsGrow_client |].
    apply relates_bind; [exact reorgHeightsGrow_trans | | intros _; exact IH].
    apply relates_try_catch; [exact reorgHeightsGrow_trans | |].
    - apply relates_bind;
        [exact reorgHeightsGrow_trans | apply reorg_processBlock_heights |].
      intros _. apply relates_ret. exact reorgHeightsGrow_client.
    - intros e s0. unfold reorgHeightsGrow. simpl. lia. }
  specialize (Hrel s). rewrite Hrun in Hrel. apply Hrel.
Qed.
End ReorgHeights.

Section MonadHeights.
Context {W : Type}.
Variable opts : Options W.

Lemma monadWatermarkGrows_client (s s' : Sys W MonadMainnet.Vars) :
  sameButClient s s' -> monadWatermarkGrows s s'.
Proof.
  intros (Hv & _ & _). unfold monadWatermarkGrows. rewrite Hv.
  split; [reflexivity | lia].
Qed.

Lemma monadWatermarkGrows_trans (s1 s2 s3 : Sys W MonadMainnet.Vars) :
  monadWatermarkGrows s1 s2 -> monadWatermarkGrows s2 s3 ->
  monadWatermarkGrows s1 s3.
Proof. unfold monadWatermarkGrows. intros [-> ?] [-> ?]. split; [reflexivity | lia]. Qed.

Lemma monad_processBlock_watermark h :
  relates monadWatermarkGrows (MonadMainnet.processBlock opts h).
Proof.
  intros s.
  destruct (getBlock (client opts) (BlockNumber h true) (world s))
    as [[b | e] w'] eqn:Hget.
  - rewrite (monad_processBlock_ok opts s h b w' Hget).
    unfold monadWatermarkGrows. simpl.
    destruct (monadVarsAfter_heights (vars s) b) as [-> ->].
    split; [reflexivity | lia].
  - rewrite (monad_processBlock_fail opts s h e w' Hget).
    unfold monadWatermarkGrows. simpl. split; [reflexivity | lia].
Qed.

Lemma monad_forwardSyncLoop_watermark hs :
  relates monadWatermarkGrows (MonadMainnet.forwardSyncLoop opts hs).
Proof.
  induction hs as [| h rest IH]; simpl;
    [apply relates_ret; exact monadWatermarkGrows_client |].
  case_decide; [exact IH |].
  apply relates_bind;
    [exact monadWatermarkGrows_trans | apply monad_processBlock_watermark
    | intros _; exact IH].
Qed.

Lemma monad_recheckLoop_watermark hs :
  relates monadWatermarkGrows (MonadMainnet.recheckLoop opts hs).
Proof.
  induction hs as [| h rest IH]; simpl;
    [apply relates_ret; exact monadWatermarkGrows_client |].
  apply relates_bind;
    [exact monadWatermarkGrows_trans | apply monad_processBlock_watermark
    | intros _; exact IH].
Qed.

(** The forward sync of the Monad mainnet monitor ends at [max last L]. *)
Lemma monad_forwardSync_heights L (s : Sys W MonadMainnet.Vars) :
  let s' := (MonadMainnet.forwardSync opts L s).2 in
  MonadMainnet.lastProcessedHeight (vars s')
  = Z.max (MonadMainnet.lastProcessedHeight (vars s)) L
  /\ MonadMainnet.maxObservedHeight (vars s)
     <= MonadMainnet.maxObservedHeight (vars s').
Proof.
  unfold MonadMainnet.forwardSync, bind, gets, when. simpl.
  case_bool_decide as Hgt; simpl; [| lia].
  pose proof (monad_forwardSyncLoop_watermark
                (heights (MonadMainnet.lastProcessedHeight (vars s) + 1) L) s)
    as [_ Hmax].
  pose proof (never_throws_unit _ s
                (monad_forwardSyncLoop_never_throws opts
                   (heights (MonadMainnet.lastProcessedHeight (vars s) + 1) L)))
    as Hret.
  destruct (MonadMainnet.forwardSyncLoop opts _ s) as [r s1].
  simpl in Hret, Hmax. subst r. simpl. split; [lia | exact Hmax].
Qed.
End MonadHeights.

(** X10.  The heights across a tick that learns the latest height [L], in
    src/monitor_reorg.js.  If [L] is below [maxObservedHeight], the tick
    ends with [lastProcessedHeight = L] and [maxObservedHeight] at least
    [L].  Otherwise neither height goes down, and [lastProcessedHeight]
    ends at most at [max lastProcessedHeight L]: the forward sync never
    runs past the tip. *)
Theorem X10_reorg_heights_across_tick :
  forall (W : Type) (opts : Options W) (s s1 : Sys W MonitorReorg.Vars)
         (L : Z),
    MonitorReorg.tickPrefix opts s = (Ret L, s1) ->
    let last := MonitorReorg.lastProcessedHeight (vars s) in
    let maxObs := MonitorReorg.maxObservedHeight (vars s) in
    let last' :=
      MonitorReorg.lastProcessedHeight (vars (MonitorReorg.tick opts s).2) in
    let maxObs' :=
      MonitorReorg.maxObservedHeight (vars (MonitorReorg.tick opts s).2) in
    (L < maxObs -> last' = L /\ L <= maxObs')
    /\ (maxObs <= L ->
        last <= last' /\ last' <= Z.max last L /\ maxObs <= maxObs').
Proof.
  intros W opts s s1 L Hpre last maxObs last' maxObs'.
  subst last maxObs last' maxObs'.
  pose proof (reorg_tickPrefix_frame opts s) as Hframe.
  rewrite Hpre in Hframe. simpl in Hframe.
  unfold reorgHeightsAndCache in Hframe.
  injection Hframe as _ Hmax Hlast.
  rewrite (reorg_tick_split opts s L s1 Hpre).
  unfold MonitorReorg.tickSuffix, bind.
  assert (Hrewind :
    let s2 := (MonitorReorg.rewindCheck L s1).2 in
    (MonitorReorg.rewindCheck L s1).1 = Ret tt
    /\ (L < MonitorReorg.maxObservedHeight (vars s1) ->
        MonitorReorg.lastProcessedHeight (vars s2) = L
        /\ MonitorReorg.maxObservedHeight (vars s2) = L)
    /\ (MonitorReorg.maxObservedHeight (vars s1) <= L -> vars s2 = vars s1)).
  { split; [apply never_throws_unit, reorg_rewindCheck_never_throws |].
    split; intros Hcmp.
    - rewrite (reorg_rewindCheck_fires s1 L Hcmp). split; reflexivity.
    - unfold MonitorReorg.rewindCheck, bind, gets, when. simpl.
      rewrite bool_decide_false by lia. reflexivity. }
  destruct (MonitorReorg.rewindCheck L s1) as [r2 s2].
  simpl in Hrewind. destruct Hrewind as (-> & Hfire & Hidle).
  pose proof (never_throws_unit _ s2 (reorg_forwardSync_never_throws opts L))
    as Hret3.
  pose proof (reorg_forwardSync_heights opts L s2) as [[Hl3 Hm3] Hup3].
  destruct (MonitorReorg.forwardSync opts L s2) as [r3 s3].
  simpl in Hret3, Hl3, Hm3, Hup3. subst r3.
  pose proof (never_throws_unit _ s3 (reorg_deepRecheck_never_throws opts L))
    as Hret4.
  pose proof (reorg_deepRecheck_heights opts L s3) as [Hl4 Hm4].
  destruct (MonitorReorg.deepRecheck opts L s3) as [r4 s4].
  simpl in Hret4, Hl4, Hm4. subst r4.
  unfold MonitorReorg.pruneCache, modify. simpl.
  split; intros Hcmp.
  - destruct Hfire as [Hl2 Hm2]; [lia |]. lia.
  - rewrite Hidle in * by lia. lia.
Qed.

(** 'detects CHAIN_REWIND when latest height decreases': the second tick,
    with 3 as the latest height and 5 observed before. *)
Lemma X10_reorg_heights_witness :
  let s := Fake.edit (fun w => Fake.setNow 1 (Fake.setLatestHeight 3 w))
             (Scenario.reorgAfterFirstTick 5) in
  let last := MonitorReorg.lastProcessedHeight (vars s) in
  let maxObs := MonitorReorg.maxObservedHeight (vars s) in
  let last' :=
    MonitorReorg.lastProcessedHeight
      (vars (MonitorReorg.tick Scenario.opts s).2) in
  let maxObs' :=
    MonitorReorg.maxObservedHeight
      (vars (MonitorReorg.tick Scenario.opts s).2) in
  (3 < maxObs -> last' = 3 /\ 3 <= maxObs')
  /\ (maxObs <= 3 ->
      last <= last' /\ last' <= Z.max last 3 /\ maxObs <= maxObs').
Proof.
  intros s.
  apply (X10_reorg_heights_across_tick Fake.World Scenario.opts s
           (MonitorReorg.tickPrefix Scenario.opts s).2 3).
  vm_compute. reflexivity.
Defined.

Lemma monad_coldStart_heights {W} L (s : Sys W MonadMainnet.Vars) :
  let s' := (MonadMainnet.coldStart L s).2 in
  MonadMainnet.maxObservedHeight (vars s')
  = MonadMainnet.maxObservedHeight (vars s)
  /\ ((MonadMainnet.lastProcessedHeight (vars s) = -1 /\ L > 0
       /\ MonadMainnet.lastProcessedHeight (vars s') = L - 1)
      \/ (¬ (MonadMainnet.lastProcessedHeight (vars s) = -1 /\ L > 0)
          /\ MonadMainnet.lastProcessedHeight (vars s')
             = MonadMainnet.lastProcessedHeight (vars s))).
Proof.
  unfold MonadMainnet.coldStart, bind, gets, when. simpl.
  do 2 case_bool_decide; simpl; split; try reflexivity;
    solve [left; repeat split; assumption | right; split; [lia | reflexivity]].
Qed.

(** X11.  The heights across a tick that learns the latest height [L], in
    the Monad mainnet monitor.  If [L] is below [maxObservedHeight], the
    tick ends with [lastProcessedHeight = L]; otherwise it ends with
    [lastProcessedHeight = max lastProcessedHeight L], whatever happened to
    the fetches in between, and [maxObservedHeight] has not gone down. *)
Theorem X11_monad_heights_across_tick :
  forall (W : Type) (opts : Options W) (s s0 : Sys W MonadMainnet.Vars)
         (L : Z),
    MonadMainnet.tickPrefix opts s = (Ret L, s0) ->
    let last := MonadMainnet.lastProcessedHeight (vars s) in
    let maxObs := MonadMainnet.maxObservedHeight (vars s) in
    let last' :=
      MonadMainnet.lastProcessedHeight (vars (MonadMainnet.tick opts s).2) in
    let maxObs' :=
      MonadMainnet.maxObservedHeight (vars (MonadMainnet.tick opts s).2) in
    (L < maxObs -> last' = L /\ L <= maxObs')
    /\ (maxObs <= L -> last' = Z.max last L /\ maxObs <= maxObs').
Proof.
  intros W opts s s0 L Hpre last maxObs last' maxObs'.
  subst last maxObs last' maxObs'.
  pose proof (monad_tickPrefix_frame opts s) as Hframe.
  rewrite Hpre in Hframe. simpl in Hframe.
  unfold monadHeightsAndCache in Hframe.
  injection Hframe as _ Hmax Hlast.
  rewrite (monad_tick_split opts s L s0 Hpre).
  unfold MonadMainnet.tickSuffix, bind.
  pose proof (never_throws_unit _ s0 (monad_coldStart_never_throws L)) as Hret1.
  pose proof (monad_coldStart_heights L s0) as [Hm1 Hl1].
  destruct (MonadMainnet.coldStart L s0) as [r1 s1].
  simpl in Hret1, Hm1, Hl1. subst r1.
  assert (Hrewind :
    let s2 := (MonadMainnet.rewindCheck L s1).2 in
    (MonadMainnet.rewindCheck L s1).1 = Ret tt
    /\ (L < MonadMainnet.maxObservedHeight (vars s1) ->
        MonadMainnet.lastProcessedHeight (vars s2) = L
        /\ MonadMainnet.maxObservedHeight (vars s2) = L)
    /\ (MonadMainnet.maxObservedHeight (vars s1) <= L -> vars s2 = vars s1)).
  { split; [apply never_throws_unit, monad_rewindCheck_never_throws |].
    split; intros Hcmp.
    - rewrite (monad_rewindCheck_fires s1 L Hcmp). split; reflexivity.
    - unfold MonadMainnet.rewindCheck, bind, gets, when. simpl.
      rewrite bool_decide_false by lia. reflexivity. }
  destruct (MonadMainnet.rewindCheck L s1) as [r2 s2].
  simpl in Hrewind. destruct Hrewind as (-> & Hfire & Hidle).
  pose proof (never_throws_unit _ s2 (monad_forwardSync_never_throws opts L))
    as Hret3.
  pose proof (monad_forwardSync_heights opts L s2) as [Hl3 Hm3].
  destruct (MonadMainnet.forwardSync opts L s2) as [r3 s3].
  simpl in Hret3, Hl3, Hm3. subst r3.
  pose proof (never_throws_unit _ s3 (monad_deepRecheck_never_throws opts L))
    as Hret4.
  pose proof (monad_recheckLoop_watermark opts
                (heights (Z.max 0 (L - recheckDepth opts + 1)) L) s3)
    as [Hl4 Hm4].
  fold (MonadMainnet.deepRecheck opts L) in Hl4, Hm4.
  destruct (MonadMainnet.deepRecheck opts L s3) as [r4 s4].
  simpl in Hret4, Hl4, Hm4. subst r4.
  unfold MonadMainnet.pruneCache, modify. simpl.
  split; intros Hcmp.
  - destruct Hfire as [Hl2 Hm2]; [lia |]. lia.
  - rewrite Hidle in * by lia.
    destruct Hl1 as [(? & ? & ?) | (? & ?)]; lia.
Qed.

(** The tick of the run with the rejected fetch of height 1: from 0 to 2. *)
Lemma X11_monad_heights_witness :
  let s := ScenarioRejectedFetch.monadGrown in
  let last := MonadMainnet.lastProcessedHeight (vars s) in
  let maxObs := MonadMainnet.maxObservedHeight (vars s) in
  let last' :=
    MonadMainnet.lastProcessedHeight
      (vars (MonadMainnet.tick ScenarioRejectedFetch.opts s).2) in
  let maxObs' :=
    MonadMainnet.maxObservedHeight
      (vars (MonadMainnet.tick ScenarioRejectedFetch.opts s).2) in
  (2 < maxObs -> last' = 2 /\ 2 <= maxObs')
  /\ (maxObs <= 2 -> last' = Z.max last 2 /\ maxObs <= maxObs').
Proof.
  intros s.
  apply (X11_monad_heights_across_tick Fake.World ScenarioRejectedFetch.opts
           s (MonadMainnet.tickPrefix ScenarioRejectedFetch.opts s).2 2).
  vm_compute. reflexivity.
Defined.

(** ** The hourly counters agree with the log *)

Lemma countType_app t l1 l2 :
  countType t (l1 ++ l2) = countType t l1 + countType t l2.
Proof. unfold countType. rewrite filter_app, length_app. lia. Qed.

Lemma countType_nil t : countType t [] = 0.
Proof. reflexivity. Qed.

Lemma countType_one t e :
  countType t [e] = if decide (event_type e = t) then 1 else 0.
Proof.
  unfold countType. rewrite filter_cons, filter_nil.
  destruct (decide (event_type e = t)); reflexivity.
Qed.

Section MonadCounters.
Context {W : Type}.
Variable opts : Options W.

Lemma monadCountersTrack_client (s s' : Sys W MonadMainnet.Vars) :
  sameButClient s s' -> monadCountersTrack s s'.
Proof.
  intros (Hv & He & _). exists []. rewrite He, Hv, app_nil_r.
  rewrite !countType_nil. repeat split; lia.
Qed.

Lemma monadCountersTrack_trans (s1 s2 s3 : Sys W MonadMainnet.Vars) :
  monadCountersTrack s1 s2 -> monadCountersTrack s2 s3 ->
  monadCountersTrack s1 s3.
Proof.
  intros (l1 & He1 & Ha1 & Hb1 & Hc1) (l2 & He2 & Ha2 & Hb2 & Hc2).
  exists (l1 ++ l2). rewrite He2, He1, app_assoc, !countType_app.
  repeat split; lia.
Qed.

Lemma monadCountersTrack_logJson type d :
  type ≠ "BLOCK_REPLACED" -> type ≠ "REORG_DETECTED" ->
  type ≠ "CHAIN_REWIND" ->
  relates monadCountersTrack (logJson type d : M W MonadMainnet.Vars unit).
Proof.
  intros H1 H2 H3 s. exists [{| event_type := type; data := d |}].
  simpl. rewrite !countType_one. simpl.
  repeat case_decide; try contradiction. repeat split; lia.
Qed.

Lemma monadCountersTrack_modify (f : MonadMainnet.Vars -> MonadMainnet.Vars) :
  (forall v, MonadMainnet.hourlyStats (f v) = MonadMainnet.hourlyStats v) ->
  relates monadCountersTrack (modify f : M W MonadMainnet.Vars unit).
Proof.
  intros Hf s. exists []. simpl. rewrite Hf, app_nil_r, !countType_nil.
  repeat split; lia.
Qed.

Lemma monad_processBlock_counters h :
  relates monadCountersTrack (MonadMainnet.processBlock opts h).
Proof.
  intros s.
  destruct (getBlock (client opts) (BlockNumber h true) (world s))
    as [[b | e] w'] eqn:Hget.
  - rewrite (monad_processBlock_ok opts s h b w' Hget). simpl.
    eexists. split; [reflexivity |].
    rewrite !countType_app.
    unfold monadVarsAfter, replacedEvents, mismatchEvents, receivedEvents,
      isReplaced, isMismatch.
    destruct (MonadMainnet.blockCache (vars s) !! number b) as [c |];
      destruct (MonadMainnet.blockCache (vars s) !! (number b - 1)) as [p |];
      destruct (newOrChanged _ b);
      repeat (simpl; first [case_decide | case_bool_decide]);
      simpl; try contradiction;
      rewrite ?countType_one, ?countType_nil; simpl;
      repeat case_decide; try discriminate; repeat split; lia.
  - rewrite (monad_processBlock_fail opts s h e w' Hget).
    apply monadCountersTrack_client. repeat split.
Qed.

Lemma monadCountersTrack_sendAlert type d :
  relates monadCountersTrack (sendAlert type d : M W MonadMainnet.Vars unit).
Proof.
  intros s. exists []. simpl. rewrite app_nil_r, !countType_nil.
  repeat split; lia.
Qed.

Ltac step_counters :=
  repeat first
    [ apply relates_bind; [exact monadCountersTrack_trans | | intros ]
    | apply relates_when; [exact monadCountersTrack_client | intros ]
    | apply relates_ret; exact monadCountersTrack_client
    | apply relates_gets; exact monadCountersTrack_client
    | apply relates_call_now; exact monadCountersTrack_client
    | apply relates_call_getBlock; exact monadCountersTrack_client
    | apply relates_call_metadata; exact monadCountersTrack_client
    | apply monadCountersTrack_sendAlert
    | apply monadCountersTrack_logJson; discriminate
    | apply monadCountersTrack_modify; intros []; reflexivity
    | match goal with
      | |- relates _ (match ?x with _ => _ end) => destruct x
      | |- relates _ (let '(_, _) := ?x in _) => destruct x
      | |- relates _ (if ?c then _ else _) => destruct c
      end ].

Lemma monad_rewindCheck_counters L :
  relates monadCountersTrack (@MonadMainnet.rewindCheck W L).
Proof.
  intros s.
  destruct (decide (L < MonadMainnet.maxObservedHeight (vars s))) as [Hlt | Hge].
  - rewrite (monad_rewindCheck_fires s L Hlt). eexists. simpl.
    split; [reflexivity |]. rewrite !countType_one. simpl.
    repeat case_decide; try discriminate; try contradiction.
    repeat split; lia.
  - unfold MonadMainnet.rewindCheck, bind, gets, when. simpl.
    rewrite bool_decide_false by exact Hge.
    apply monadCountersTrack_client. repeat split.
Qed.

Lemma monad_tick_counters : relates monadCountersTrack (MonadMainnet.tick opts).
Proof.
  unfold MonadMainnet.tick.
  apply relates_try_catch; [exact monadCountersTrack_trans | |].
  - unfold MonadMainnet.tickBody.
    apply relates_bind; [exact monadCountersTrack_trans | | intros _].
    { unfold MonadMainnet.metadataCheck. step_counters. }
    apply relates_bind; [exact monadCountersTrack_trans | | intros L].
    { unfold MonadMainnet.fetchLatestHeight. step_counters. }
    apply relates_bind; [exact monadCountersTrack_trans | | intros _].
    { unfold MonadMainnet.coldStart. step_counters. }
    apply relates_bind;
      [exact monadCountersTrack_trans | apply monad_rewindCheck_counters
      | intros _].
    apply relates_bind; [exact monadCountersTrack_trans | | intros _].
    { unfold MonadMainnet.forwardSync. step_counters.
      match goal with
      | |- relates _ (_ _ ?hs) => induction hs as [| h rest IH]
      end; simpl; [apply relates_ret; exact monadCountersTrack_client |].
      destruct (decide (h < 0)); [exact IH |].
      apply relates_bind;
        [exact monadCountersTrack_trans | apply monad_processBlock_counters
        | intros _; exact IH]. }
    apply relates_bind; [exact monadCountersTrack_trans | | intros _].
    { unfold MonadMainnet.deepRecheck.
      match goal with
      | |- relates _ (_ _ ?hs) => induction hs as [| h rest IH]
      end; simpl; [apply relates_ret; exact monadCountersTrack_client |].
      apply relates_bind;
        [exact monadCountersTrack_trans | apply monad_processBlock_counters
        | intros _; exact IH]. }
    unfold MonadMainnet.pruneCache. step_counters.
  - intros message. step_counters.
Qed.
End MonadCounters.

(** X12.  In the Monad mainnet monitor the incident counters of
    [hourlyStats] agree with the log.  Over every sequence of ticks,
    whatever the client does, [blocksReplaced], [reorgsDetected] and
    [chainRewinds] grow by exactly the number of BLOCK_REPLACED,
    REORG_DETECTED and CHAIN_REWIND events logged in those ticks. *)
Theorem X12_monad_counters_match_log :
  forall (W : Type) (opts : Options W) (s s' : Sys W MonadMainnet.Vars),
    ticks (MonadMainnet.tick opts) s s' ->
    exists l,
      events s' = events s ++ l
      /\ blocksReplaced (MonadMainnet.hourlyStats (vars s'))
         = blocksReplaced (MonadMainnet.hourlyStats (vars s))
           + countType "BLOCK_REPLACED" l
      /\ reorgsDetected (MonadMainnet.hourlyStats (vars s'))
         = reorgsDetected (MonadMainnet.hourlyStats (vars s))
           + countType "REORG_DETECTED" l
      /\ chainRewinds (MonadMainnet.hourlyStats (vars s'))
         = chainRewinds (MonadMainnet.hourlyStats (vars s))
           + countType "CHAIN_REWIND" l.
Proof.
  intros W opts s s' Hrun.
  apply (relates_ticks monadCountersTrack monadCountersTrack_client
           monadCountersTrack_trans (MonadMainnet.tick opts) s s');
    [apply monad_tick_counters | exact Hrun].
Qed.

(** Two ticks of the Monad mainnet monitor: the chain 0..2, then block 2
    replaced by a block with another parent. *)
Lemma X12_monad_counters_witness :
  let s := Fake.start (MonadMainnet.initial 0) (Fake.withChain 2 Fake.new) in
  let s1 := (MonadMainnet.tick Scenario.opts (withWorld id s)).2 in
  let s2 :=
    (MonadMainnet.tick Scenario.opts
       (withWorld
          (fun w => Fake.setNow 1 (Fake.setBlock Scenario.block2_reorg w))
          s1)).2 in
  exists l,
    events s2 = events s ++ l
    /\ blocksReplaced (MonadMainnet.hourlyStats (vars s2))
       = blocksReplaced (MonadMainnet.hourlyStats (vars s))
         + countType "BLOCK_REPLACED" l
    /\ reorgsDetected (MonadMainnet.hourlyStats (vars s2))
       = reorgsDetected (MonadMainnet.hourlyStats (vars s))
         + countType "REORG_DETECTED" l
    /\ chainRewinds (MonadMainnet.hourlyStats (vars s2))
       = chainRewinds (MonadMainnet.hourlyStats (vars s))
         + countType "CHAIN_REWIND" l.
Proof.
  intros s s1 s2.
  apply (X12_monad_counters_match_log Fake.World Scenario.opts s s2).
  apply ticks_more. apply ticks_more. apply ticks_none.
Defined.

(** ** The alerts follow the log *)

Lemma ofTypes_app types l k :
  ofTypes types (l ++ k) = ofTypes types l ++ ofTypes types k.
Proof. apply filter_app. Qed.

Lemma ofTypes_in types t d :
  t ∈ types ->
  ofTypes types [{| event_type := t; data := d |}]
  = [{| event_type := t; data := d |}].
Proof.
  intros Hin. unfold ofTypes. rewrite filter_cons_True by exact Hin.
  reflexivity.
Qed.

Lemma ofTypes_out types t d :
  t ∉ types -> ofTypes types [{| event_type := t; data := d |}] = [].
Proof.
  intros Hout. unfold ofTypes. rewrite filter_cons_False by exact Hout.
  reflexivity.
Qed.

Lemma ofTypes_replacedEvents types cache b :
  "BLOCK_REPLACED" ∈ types ->
  ofTypes types (replacedEvents cache b) = replacedEvents cache b.
Proof.
  intros Hin. unfold replacedEvents.
  destruct (cache !! number b) as [c |]; [| reflexivity].
  case_decide; [apply ofTypes_in; exact Hin | reflexivity].
Qed.

Lemma ofTypes_mismatchEvents types name cache b :
  name ∈ types ->
  ofTypes types (mismatchEvents name cache b) = mismatchEvents name cache b.
Proof.
  intros Hin. unfold mismatchEvents.
  destruct (cache !! (number b - 1)) as [p |]; [| reflexivity].
  case_decide; [apply ofTypes_in; exact Hin | reflexivity].
Qed.

Lemma ofTypes_receivedEvents types cache b :
  "BLOCK_RECEIVED" ∉ types -> ofTypes types (receivedEvents cache b) = [].
Proof.
  intros Hout. unfold receivedEvents.
  destruct (newOrChanged cache b); [apply ofTypes_out; exact Hout |].
  reflexivity.
Qed.

Section AlertsFollow.
Context {W V : Type}.
Variable types : list string.

Lemma alertsFollow_client (s s' : Sys W V) :
  sameButClient s s' -> alertsFollow types s s'.
Proof.
  intros (_ & He & Ha). exists []. rewrite He, Ha, !app_nil_r.
  split; reflexivity.
Qed.

Lemma alertsFollow_trans (s1 s2 s3 : Sys W V) :
  alertsFollow types s1 s2 -> alertsFollow types s2 s3 ->
  alertsFollow types s1 s3.
Proof.
  intros (l1 & He1 & Ha1) (l2 & He2 & Ha2).
  exists (l1 ++ l2).
  rewrite He2, He1, Ha2, Ha1, ofTypes_app, !app_assoc.
  split; reflexivity.
Qed.

Lemma alertsFollow_modify (f : V -> V) :
  relates (alertsFollow types) (modify f : M W V unit).
Proof.
  intros s. exists []. simpl. rewrite !app_nil_r. split; reflexivity.
Qed.

(** An event that is logged only. *)
Lemma alertsFollow_logJson t d :
  t ∉ types -> relates (alertsFollow types) (logJson t d : M W V unit).
Proof.
  intros Hout s. exists [{| event_type := t; data := d |}]. simpl.
  rewrite ofTypes_out by exact Hout. rewrite app_nil_r.
  split; reflexivity.
Qed.

(** An event that is logged and sent. *)
Lemma alertsFollow_log_send t d :
  t ∈ types ->
  relates (alertsFollow types)
    (bind (logJson t d) (fun _ => sendAlert t d) : M W V unit).
Proof.
  intros Hin s. exists [{| event_type := t; data := d |}]. simpl.
  rewrite ofTypes_in by exact Hin. split; reflexivity.
Qed.
End AlertsFollow.

Ltac in_types := apply (bool_decide_unpack _); vm_compute; exact I.

Ltac step_alerts types :=
  repeat first
    [ apply (alertsFollow_log_send types); in_types
    | apply relates_bind; [exact (alertsFollow_trans types) | | intros ]
    | apply relates_try_catch;
        [exact (alertsFollow_trans types) | | intros ]
    | apply relates_when; [exact (alertsFollow_client types) | intros _ ]
    | apply relates_ret; exact (alertsFollow_client types)
    | apply relates_gets; exact (alertsFollow_client types)
    | apply relates_call_now; exact (alertsFollow_client types)
    | apply relates_call_getBlock; exact (alertsFollow_client types)
    | apply relates_call_metadata; exact (alertsFollow_client types)
    | apply (alertsFollow_logJson types); in_types
    | apply (alertsFollow_modify types)
    | match goal with
      | |- relates _ (match ?x with _ => _ end) => destruct x
      | |- relates _ (let '(_, _) := ?x in _) => destruct x
      | |- relates _ (if ?c then _ else _) => destruct c
      end ].

Section ReorgAlerts.
Context {W : Type}.
Variable opts : Options W.

Lemma reorg_processBlock_alerts h :
  relates (alertsFollow reorgAlertTypes) (MonitorReorg.processBlock opts h).
Proof.
  intros s.
  destruct (getBlock (client opts) (BlockNumber h true) (world s))
    as [[b | e] w'] eqn:Hget.
  - rewrite (reorg_processBlock_ok opts s h b w' Hget). simpl.
    eexists. split; [reflexivity |].
    rewrite !ofTypes_app, ofTypes_replacedEvents, ofTypes_mismatchEvents,
      ofTypes_receivedEvents, app_nil_r by in_types.
    reflexivity.
  - rewrite (reorg_processBlock_fail opts s h e w' Hget).
    apply alertsFollow_client. repeat split.
Qed.

Lemma reorg_rewindCheck_alerts L :
  relates (alertsFollow reorgAlertTypes) (@MonitorReorg.rewindCheck W L).
Proof.
  intros s.
  destruct (decide (L < MonitorReorg.maxObservedHeight (vars s)))
    as [Hlt | Hge].
  - rewrite (reorg_rewindCheck_fires s L Hlt). eexists. simpl.
    split; [reflexivity |]. rewrite ofTypes_in by in_types. reflexivity.
  - unfold MonitorReorg.rewindCheck, bind, gets, when. simpl.
    rewrite bool_decide_false by exact Hge.
    apply alertsFollow_client. repeat split.
Qed.

Lemma reorg_forwardSyncLoop_alerts hs :
  relates (alertsFollow reorgAlertTypes)
    (MonitorReorg.forwardSyncLoop opts hs).
Proof.
  induction hs as [| h rest IH]; simpl;
    [apply relates_ret; exact (alertsFollow_client reorgAlertTypes) |].
  destruct (decide (h < 0)); [exact IH |].
  apply relates_bind; [exact (alertsFollow_trans reorgAlertTypes) | |].
  - apply relates_try_catch; [exact (alertsFollow_trans reorgAlertTypes) | |].
    + apply relates_bind;
        [exact (alertsFollow_trans reorgAlertTypes)
        | apply reorg_processBlock_alerts | intros _].
      step_alerts reorgAlertTypes.
    + intros err. step_alerts reorgAlertTypes.
  - intros [|]; [exact IH |].
    apply relates_ret; exact (alertsFollow_client reorgAlertTypes).
Qed.

Lemma reorg_recheckLoop_alerts hs :
  relates (alertsFollow reorgAlertTypes) (MonitorReorg.recheckLoop opts hs).
Proof.
  induction hs as [| h rest IH]; simpl;
    [apply relates_ret; exact (alertsFollow_client reorgAlertTypes) |].
  apply relates_bind;
    [exact (alertsFollow_trans reorgAlertTypes) | | intros _; exact IH].
  apply relates_try_catch; [exact (alertsFollow_trans reorgAlertTypes) | |].
  - apply relates_bind;
      [exact (alertsFollow_trans reorgAlertTypes)
      | apply reorg_processBlock_alerts | intros _].
    step_alerts reorgAlertTypes.
  - intros err. step_alerts reorgAlertTypes.
Qed.

Lemma reorg_tick_alerts :
  relates (alertsFollow reorgAlertTypes) (MonitorReorg.tick opts).
Proof.
  unfold MonitorReorg.tick.
  apply relates_try_catch; [exact (alertsFollow_trans reorgAlertTypes) | |].
  - unfold MonitorReorg.tickBody.
    apply relates_bind;
      [exact (alertsFollow_trans reorgAlertTypes) | | intros _].
    { unfold MonitorReorg.metadataCheck. step_alerts reorgAlertTypes. }
    apply relates_bind;
      [exact (alertsFollow_trans reorgAlertTypes) | | intros L].
    { unfold MonitorReorg.fetchLatestHeight. step_alerts reorgAlertTypes. }
    apply relates_bind;
      [exact (alertsFollow_trans reorgAlertTypes)
      | apply reorg_rewindCheck_alerts | intros _].
    apply relates_bind;
      [exact (alertsFollow_trans reorgAlertTypes) | | intros _].
    { unfold MonitorReorg.forwardSync.
      apply relates_bind;
        [exact (alertsFollow_trans reorgAlertTypes)
        | apply relates_gets; exact (alertsFollow_client reorgAlertTypes)
        | intros last].
      apply relates_when;
        [exact (alertsFollow_client reorgAlertTypes) | intros _].
      apply reorg_forwardSyncLoop_alerts. }
    apply relates_bind;
      [exact (alertsFollow_trans reorgAlertTypes) | | intros _].
    { unfold MonitorReorg.deepRecheck.
      apply relates_bind;
        [exact (alertsFollow_trans reorgAlertTypes)
        | apply relates_gets; exact (alertsFollow_client reorgAlertTypes)
        | intros last].
      apply reorg_recheckLoop_alerts. }
    unfold MonitorReorg.pruneCache. step_alerts reorgAlertTypes.
  - intros message. step_alerts reorgAlertTypes.
Qed.
End ReorgAlerts.

(** X13.  In src/monitor_reorg.js the alerts follow the log.  Over every
    sequence of ticks, whatever the client does, the calls of [sendAlert]
    are exactly the logged BLOCK_REPLACED, PARENT_HASH_MISMATCH_DETECTED,
    CHAIN_ID_CHANGED, GENESIS_CHANGED and CHAIN_REWIND events, with the
    same payloads and in the same order; BLOCK_RECEIVED and RPC_ERROR are
    logged only. *)
Theorem X13_reorg_alerts_follow_log :
  forall (W : Type) (opts : Options W) (s s' : Sys W MonitorReorg.Vars),
    ticks (MonitorReorg.tick opts) s s' ->
    exists l,
      events s' = events s ++ l
      /\ alerts s' = alerts s ++ ofTypes reorgAlertTypes l.
Proof.
  intros W opts s s' Hrun.
  apply (relates_ticks (alertsFollow reorgAlertTypes)
           (alertsFollow_client reorgAlertTypes)
           (alertsFollow_trans reorgAlertTypes)
           (MonitorReorg.tick opts) s s');
    [apply reorg_tick_alerts | exact Hrun].
Qed.

(** The chain 0..1, then chain id and genesis block changed: two ticks. *)
Lemma X13_reorg_alerts_witness :
  let s := Fake.start MonitorReorg.initial (Fake.withChain 1 Fake.new) in
  let s1 := (MonitorReorg.tick Scenario.opts (withWorld id s)).2 in
  let s2 :=
    (MonitorReorg.tick Scenario.opts
       (withWorld
          (fun w =>
             Fake.setNow 1
               (Fake.setBlock ScenarioMetadata.genesis_b
                  (Fake.setChainId 2 w)))
          s1)).2 in
  exists l,
    events s2 = events s ++ l
    /\ alerts s2 = alerts s ++ ofTypes reorgAlertTypes l.
Proof.
  intros s s1 s2.
  apply (X13_reorg_alerts_follow_log Fake.World Scenario.opts s s2).
  apply ticks_more. apply ticks_more. apply ticks_none.
Defined.

Section MonadAlerts.
Context {W : Type}.
Variable opts : Options W.

Lemma monad_processBlock_alerts h :
  relates (alertsFollow monadAlertTypes) (MonadMainnet.processBlock opts h).
Proof.
  intros s.
  destruct (getBlock (client opts) (BlockNumber h true) (world s))
    as [[b | e] w'] eqn:Hget.
  - rewrite (monad_processBlock_ok opts s h b w' Hget). simpl.
    eexists. split; [reflexivity |].
    rewrite !ofTypes_app, ofTypes_replacedEvents, ofTypes_mismatchEvents,
      ofTypes_receivedEvents, app_nil_r by in_types.
    reflexivity.
  - rewrite (monad_processBlock_fail opts s h e w' Hget).
    apply alertsFollow_client. repeat split.
Qed.

Lemma monad_rewindCheck_alerts L :
  relates (alertsFollow monadAlertTypes) (@MonadMainnet.rewindCheck W L).
Proof.
  intros s.
  destruct (decide (L < MonadMainnet.maxObservedHeight (vars s)))
    as [Hlt | Hge].
  - rewrite (monad_rewindCheck_fires s L Hlt). eexists. simpl.
    split; [reflexivity |]. rewrite ofTypes_in by in_types. reflexivity.
  - unfold MonadMainnet.rewindCheck, bind, gets, when. simpl.
    rewrite bool_decide_false by exact Hge.
    apply alertsFollow_client. repeat split.
Qed.

Lemma monad_forwardSyncLoop_alerts hs :
  relates (alertsFollow monadAlertTypes)
    (MonadMainnet.forwardSyncLoop opts hs).
Proof.
  induction hs as [| h rest IH]; simpl;
    [apply relates_ret; exact (alertsFollow_client monadAlertTypes) |].
  destruct (decide (h < 0)); [exact IH |].
  apply relates_bind;
    [exact (alertsFollow_trans monadAlertTypes)
    | apply monad_processBlock_alerts | intros _; exact IH].
Qed.

Lemma monad_recheckLoop_alerts hs :
  relates (alertsFollow monadAlertTypes) (MonadMainnet.recheckLoop opts hs).
Proof.
  induction hs as [| h rest IH]; simpl;
    [apply relates_ret; exact (alertsFollow_client monadAlertTypes) |].
  apply relates_bind;
    [exact (alertsFollow_trans monadAlertTypes)
    | apply monad_processBlock_alerts | intros _; exact IH].
Qed.

Lemma monad_tick_alerts :
  relates (alertsFollow monadAlertTypes) (MonadMainnet.tick opts).
Proof.
  unfold MonadMainnet.tick.
  apply relates_try_catch; [exact (alertsFollow_trans monadAlertTypes) | |].
  - unfold MonadMainnet.tickBody.
    apply relates_bind;
      [exact (alertsFollow_trans monadAlertTypes) | | intros _].
    { unfold MonadMainnet.metadataCheck. step_alerts monadAlertTypes. }
    apply relates_bind;
      [exact (alertsFollow_trans monadAlertTypes) | | intros L].
    { unfold MonadMainnet.fetchLatestHeight. step_alerts monadAlertTypes. }
    apply relates_bind;
      [exact (alertsFollow_trans monadAlertTypes) | | intros _].
    { unfold MonadMainnet.coldStart. step_alerts monadAlertTypes. }
    apply relates_bind;
      [exact (alertsFollow_trans monadAlertTypes)
      | apply monad_rewindCheck_alerts | intros _].
    apply relates_bind;
      [exact (alertsFollow_trans monadAlertTypes) | | intros _].
    { unfold MonadMainnet.forwardSync.
      apply relates_bind;
        [exact (alertsFollow_trans monadAlertTypes)
        | apply relates_gets; exact (alertsFollow_client monadAlertTypes)
        | intros last].
      apply relates_when;
        [exact (alertsFollow_client monadAlertTypes) | intros _].
      apply relates_bind;
        [exact (alertsFollow_trans monadAlertTypes)
        | apply monad_forwardSyncLoop_alerts | intros _].
      step_alerts monadAlertTypes. }
    apply relates_bind;
      [exact (alertsFollow_trans monadAlertTypes) | | intros _].
    { unfold MonadMainnet.deepRecheck. apply monad_recheckLoop_alerts. }
    unfold MonadMainnet.pruneCache. step_alerts monadAlertTypes.
  - intros message. step_alerts monadAlertTypes.
Qed.
End MonadAlerts.

(** X14.  In the Monad mainnet monitor only three kinds of events reach
    [sendAlert].  Over every sequence of ticks, whatever the client does,
    the calls of [sendAlert] are exactly the logged BLOCK_REPLACED,
    REORG_DETECTED and CHAIN_REWIND events, with the same payloads and in
    the same order.  CHAIN_ID_CHANGED and GENESIS_CHANGED, although logged
    with severity CRITICAL, are never sent. *)
Theorem X14_monad_alerts_follow_log :
  forall (W : Type) (opts : Options W) (s s' : Sys W MonadMainnet.Vars),
    ticks (MonadMainnet.tick opts) s s' ->
    exists l,
      events s' = events s ++ l
      /\ alerts s' = alerts s ++ ofTypes monadAlertTypes l.
Proof.
  intros W opts s s' Hrun.
  apply (relates_ticks (alertsFollow monadAlertTypes)
           (alertsFollow_client monadAlertTypes)
           (alertsFollow_trans monadAlertTypes)
           (MonadMainnet.tick opts) s s');
    [apply monad_tick_alerts | exact Hrun].
Qed.

(** The chain 0..1, then chain id and genesis block changed: two ticks. *)
Lemma X14_monad_alerts_witness :
  let s := Fake.start (MonadMainnet.initial 0) (Fake.withChain 1 Fake.new) in
  let s1 := (MonadMainnet.tick Scenario.opts (withWorld id s)).2 in
  let s2 :=
    (MonadMainnet.tick Scenario.opts
       (withWorld
          (fun w =>
             Fake.setNow 1
               (Fake.setBlock ScenarioMetadata.genesis_b
                  (Fake.setChainId 2 w)))
          s1)).2 in
  exists l,
    events s2 = events s ++ l
    /\ alerts s2 = alerts s ++ ofTypes monadAlertTypes l.
Proof.
  intros s s1 s2.
  apply (X14_monad_alerts_follow_log Fake.World Scenario.opts s s2).
  apply ticks_more. apply ticks_more. apply ticks_none.
Defined.

(** ** The hourly report *)

Lemma countType_nonneg t l : 0 <= countType t l.
Proof. unfold countType. lia. Qed.

Section HourlyReport.
Context {W : Type}.
Variable opts : Options W.

(** One run of [generateHourlyReport], spelled out. *)
Lemma monad_generateHourlyReport_run (s : Sys W MonadMainnet.Vars) :
  let st := MonadMainnet.hourlyStats (vars s) in
  exists dur lvl why t w',
    MonadMainnet.generateHourlyReport opts s
    = (Ret tt,
       {| vars :=
            MonadMainnet.set_hourlyStats (MonadMainnet.freshStats t) (vars s);
          events :=
            events s
            ++ [{| event_type := "HOURLY_REPORT";
                   data :=
                     HourlyReportData "HOURLY_ANALYSIS" dur st lvl why |}];
          alerts :=
            alerts s
            ++ (if decide (lvl = "LOW") then []
                else [{| event_type := "HOURLY_THREAT_REPORT";
                         data :=
                           HourlyReportData "HOURLY_ANALYSIS" dur st lvl
                             why |}]);
          rpc_log := rpc_log s; world := w' |})
    /\ (lvl = "LOW"
        <-> chainRewinds st <= 0 /\ reorgsDetected st <= 0
            /\ blocksReplaced st <= 0).
Proof.
  intros st. subst st.
  unfold MonadMainnet.generateHourlyReport, MonadMainnet.resetHourlyStats,
    bind, call_now, gets, logJson, sendAlert, modify.
  destruct (now opts (world s)) as [t1 w1]. simpl.
  repeat case_decide; simpl; try discriminate; try congruence;
    destruct (now opts w1) as [t2 w2]; simpl;
    match goal with
    | |- context [HourlyReportData _ ?d _ ?l ?y] => exists d, l, y, t2, w2
    end;
    (split;
       [destruct (decide (_ = "LOW")) as [E | E]; rewrite ?app_nil_r;
        first [reflexivity | discriminate E | congruence] |]);
    (split; [intros; try discriminate; lia | intros; try reflexivity; lia]).
Qed.
End HourlyReport.

(** X15.  The hourly report of the Monad mainnet monitor counts what the
    ticks logged.  Start from counters at zero and run any number of
    ticks, whatever the client does; [generateHourlyReport] then logs one
    HOURLY_REPORT whose [blocksReplaced], [reorgsDetected] and
    [chainRewinds] are the numbers of BLOCK_REPLACED, REORG_DETECTED and
    CHAIN_REWIND events those ticks logged.  The assessment is LOW exactly
    when there was none, the report is sent as an alert exactly when the
    assessment is not LOW, and the counters are back at zero. *)
Theorem X15_hourly_report_counts_incidents :
  forall (W : Type) (opts : Options W) (s s' : Sys W MonadMainnet.Vars),
    noIncidentsCounted (MonadMainnet.hourlyStats (vars s)) ->
    ticks (MonadMainnet.tick opts) s s' ->
    exists l,
      events s' = events s ++ l
      /\ reportsIncidents l s' (MonadMainnet.generateHourlyReport opts s').2.
Proof.
  intros W opts s s' (Hb & Hr & Hc) Hrun.
  destruct (relates_ticks monadCountersTrack monadCountersTrack_client
              monadCountersTrack_trans (MonadMainnet.tick opts) s s'
              (monad_tick_counters opts) Hrun)
    as (l & He & Hb' & Hr' & Hc').
  exists l. split; [exact He |].
  destruct (monad_generateHourlyReport_run opts s')
    as (dur & lvl & why & t & w' & Hgen & Hlow).
  rewrite Hgen. simpl.
  pose proof (countType_nonneg "BLOCK_REPLACED" l).
  pose proof (countType_nonneg "REORG_DETECTED" l).
  pose proof (countType_nonneg "CHAIN_REWIND" l).
  exists dur, (MonadMainnet.hourlyStats (vars s')), lvl, why. simpl.
  split; [reflexivity |].
  split; [lia |]. split; [lia |]. split; [lia |].
  split; [rewrite Hlow; lia |].
  split; [reflexivity |].
  repeat split.
Qed.

(** Two ticks from the start of the monitor: the chain 0..2, then block 2
    replaced by a block with another parent. *)
Lemma X15_hourly_report_witness :
  let s := Fake.start (MonadMainnet.initial 0) (Fake.withChain 2 Fake.new) in
  let s1 := (MonadMainnet.tick Scenario.opts (withWorld id s)).2 in
  let s2 :=
    (MonadMainnet.tick Scenario.opts
       (withWorld
          (fun w => Fake.setNow 1 (Fake.setBlock Scenario.block2_reorg w))
          s1)).2 in
  noIncidentsCounted (MonadMainnet.hourlyStats (vars s))
  /\ exists l,
       events s2 = events s ++ l
       /\ reportsIncidents l s2
            (MonadMainnet.generateHourlyReport Scenario.opts s2).2.
Proof.
  intros s s1 s2.
  assert (H0 : noIncidentsCounted (MonadMainnet.hourlyStats (vars s)))
    by (repeat split).
  split; [exact H0 |].
  apply (X15_hourly_report_counts_incidents Fake.World Scenario.opts s s2 H0).
  apply ticks_more. apply ticks_more. apply ticks_none.
Defined.

(** ** The watcher for Anvil: the bounded cache *)

Lemma foldr_min_in (k : Z) (ks : list Z) : foldr Z.min k ks ∈ k :: ks.
Proof.
  induction ks as [| j ks IH]; simpl; [left |].
  destruct (Z.min_spec j (foldr Z.min k ks)) as [[_ ->] | [_ ->]].
  - right. left.
  - apply elem_of_cons in IH as [-> | IH]; [left | right; right; exact IH].
Qed.

Lemma foldr_min_le (k : Z) (ks : list Z) (j : Z) :
  j ∈ k :: ks -> foldr Z.min k ks <= j.
Proof.
  induction ks as [| i ks IH]; simpl; intros Hin.
  - apply list_elem_of_singleton in Hin. lia.
  - apply elem_of_cons in Hin as [Hj | Hin].
    + assert (foldr Z.min k ks <= j) by (apply IH; rewrite Hj; left). lia.
    + apply elem_of_cons in Hin as [Hj | Hin]; [lia |].
      assert (foldr Z.min k ks <= j) by (apply IH; right; exact Hin). lia.
Qed.

Lemma anvil_key_listed (cache : gmap Z AnvilMonitor.Cached) (k : Z) :
  k ∈ (map_to_list cache).*1 <-> is_Some (cache !! k).
Proof.
  rewrite list_elem_of_fmap. split.
  - intros ([k' c] & -> & Hin). apply elem_of_map_to_list in Hin.
    exists c. exact Hin.
  - intros [c Hc]. exists (k, c). split; [reflexivity |].
    apply elem_of_map_to_list. exact Hc.
Qed.

(** [oldestKey] is a cached height, and no cached height is below it. *)
Lemma anvil_oldestKey_Some (cache : gmap Z AnvilMonitor.Cached) (k : Z) :
  AnvilMonitor.oldestKey cache = Some k ->
  is_Some (cache !! k) /\ forall j, is_Some (cache !! j) -> k <= j.
Proof.
  unfold AnvilMonitor.oldestKey.
  destruct ((map_to_list cache).*1) as [| k0 ks] eqn:Hkeys; [discriminate |].
  intros [= <-]. split.
  - apply anvil_key_listed. rewrite Hkeys. apply foldr_min_in.
  - intros j Hj. apply foldr_min_le. rewrite <- Hkeys.
    apply anvil_key_listed. exact Hj.
Qed.

Lemma anvil_oldestKey_is_Some (cache : gmap Z AnvilMonitor.Cached) :
  cache ≠ ∅ -> is_Some (AnvilMonitor.oldestKey cache).
Proof.
  intros Hne. unfold AnvilMonitor.oldestKey.
  destruct ((map_to_list cache).*1) as [| k0 ks] eqn:Hkeys; [| eexists; reflexivity].
  exfalso. apply Hne. apply map_to_list_empty_iff.
  destruct (map_to_list cache); [reflexivity | discriminate].
Qed.

Lemma anvil_store_size n entry (cache : gmap Z AnvilMonitor.Cached) :
  (size cache <= AnvilMonitor.MAX_CACHE_SIZE)%nat ->
  (size (AnvilMonitor.store n entry cache) <= AnvilMonitor.MAX_CACHE_SIZE)%nat.
Proof.
  intros Hsize. unfold AnvilMonitor.store.
  case_decide as Hbig; [| lia].
  assert (Hins : (size (<[n := entry]> cache) <= S (size cache))%nat).
  { rewrite map_size_insert. destruct (cache !! n); simpl; lia. }
  destruct (AnvilMonitor.oldestKey (<[n := entry]> cache)) as [k |] eqn:Hold.
  - apply anvil_oldestKey_Some in Hold as [Hk _].
    rewrite map_size_delete_Some by exact Hk. lia.
  - destruct (anvil_oldestKey_is_Some (<[n := entry]> cache)) as [k Hk].
    + apply insert_non_empty.
    + congruence.
Qed.

Lemma anvil_checkContinuity_cache b st :
  AnvilMonitor.blockCache (AnvilMonitor.checkContinuity b st)
  = AnvilMonitor.blockCache st.
Proof.
  unfold AnvilMonitor.checkContinuity.
  destruct (AnvilMonitor.blockCache st !! (number b - 1)); [| reflexivity].
  case_decide; reflexivity.
Qed.

Lemma anvil_poll_size {W} (client : Client W) (x : AnvilMonitor.State * W) :
  (size (AnvilMonitor.blockCache x.1) <= AnvilMonitor.MAX_CACHE_SIZE)%nat ->
  (size (AnvilMonitor.blockCache (AnvilMonitor.poll client x).1)
   <= AnvilMonitor.MAX_CACHE_SIZE)%nat.
Proof.
  intros Hsize. unfold AnvilMonitor.poll.
  destruct (getBlock client BlockTagLatest x.2) as [[b | err] w'];
    simpl; [| exact Hsize].
  unfold AnvilMonitor.updateCache.
  destruct (AnvilMonitor.newOrChanged b _); simpl.
  - apply anvil_store_size. rewrite anvil_checkContinuity_cache. exact Hsize.
  - rewrite anvil_checkContinuity_cache. exact Hsize.
Qed.

(** X16.  The cache of the watcher for Anvil (first script of
    src/monitor_reorg.js) never outgrows [MAX_CACHE_SIZE]: if it holds at
    most 100 heights, it still does after any number of polls, whatever
    the node answers. *)
Theorem X16_anvil_cache_bounded :
  forall (W : Type) (client : Client W) (x y : AnvilMonitor.State * W),
    (size (AnvilMonitor.blockCache x.1) <= AnvilMonitor.MAX_CACHE_SIZE)%nat ->
    AnvilMonitor.polls client x y ->
    (size (AnvilMonitor.blockCache y.1) <= AnvilMonitor.MAX_CACHE_SIZE)%nat.
Proof.
  intros W client x y Hsize Hrun.
  induction Hrun as [x | x y f Hrun IH]; [exact Hsize |].
  apply anvil_poll_size. simpl. apply IH. exact Hsize.
Qed.

(** The full cache 11..110 and a node that answers with block 5, polled
    twice. *)
Lemma X16_anvil_cache_bounded_witness :
  let x := (AnvilScenario.full, AnvilScenario.rewound) in
  let y := AnvilMonitor.poll Fake.fakeClient (x.1, id x.2) in
  let z := AnvilMonitor.poll Fake.fakeClient (y.1, id y.2) in
  (size (AnvilMonitor.blockCache z.1) <= AnvilMonitor.MAX_CACHE_SIZE)%nat.
Proof.
  intros x y z.
  apply (X16_anvil_cache_bounded Fake.World Fake.fakeClient x z).
  - vm_compute. lia.
  - apply (AnvilMonitor.polls_more Fake.fakeClient x y id).
    apply (AnvilMonitor.polls_more Fake.fakeClient x x id).
    apply AnvilMonitor.polls_none.
Defined.

(** X17.  The clean-up of the watcher for Anvil deletes the lowest height,
    even when that is the block just stored.  With a full cache and a
    fetched block below every cached height, a poll prints BLOCK_RECEIVED
    and leaves the cache exactly as it was, so the block is printed again
    at every poll for as long as the node answers with it. *)
Theorem X17_anvil_full_cache_forgets_lower_block :
  forall (W : Type) (client : Client W) (st : AnvilMonitor.State)
         (w w' : W) (b : Block),
    size (AnvilMonitor.blockCache st) = AnvilMonitor.MAX_CACHE_SIZE ->
    map_Forall (fun k _ => number b < k) (AnvilMonitor.blockCache st) ->
    getBlock client BlockTagLatest w = (Ret b, w') ->
    AnvilMonitor.poll client (st, w)
    = ({| AnvilMonitor.blockCache := AnvilMonitor.blockCache st;
          AnvilMonitor.printed :=
            AnvilMonitor.printed st
            ++ [{| AnvilMonitor.event_type := "BLOCK_RECEIVED";
                   AnvilMonitor.data :=
                     AnvilMonitor.BlockReceivedData (number b) (hash b)
                       (parentHash b) (length (transactions b)) |}] |},
       w').
Proof.
  intros W client st w w' b Hfull Hlow Hget.
  assert (Hnone : forall k, k <= number b ->
                    AnvilMonitor.blockCache st !! k = None).
  { intros k Hk.
    destruct (AnvilMonitor.blockCache st !! k) as [c |] eqn:Hc;
      [| reflexivity].
    specialize (Hlow k c Hc). simpl in Hlow. lia. }
  unfold AnvilMonitor.poll. simpl. rewrite Hget.
  unfold AnvilMonitor.checkContinuity.
  rewrite (Hnone (number b - 1)) by lia.
  unfold AnvilMonitor.updateCache, AnvilMonitor.newOrChanged.
  rewrite (Hnone (number b)) by lia. simpl.
  unfold AnvilMonitor.set_blockCache. simpl. f_equal. f_equal.
  unfold AnvilMonitor.store.
  rewrite decide_True
    by (rewrite map_size_insert_None by (apply Hnone; lia); lia).
  match goal with
  | |- context [AnvilMonitor.oldestKey ?m] =>
      destruct (AnvilMonitor.oldestKey m) as [k |] eqn:Hold
  end.
  - apply anvil_oldestKey_Some in Hold as [Hk Hmin].
    assert (k = number b) as ->.
    { assert (k <= number b)
        by (apply Hmin; rewrite lookup_insert_eq; eexists; reflexivity).
      destruct (decide (k = number b)) as [-> | Hne]; [reflexivity |].
      rewrite lookup_insert_ne in Hk by congruence.
      rewrite Hnone in Hk by lia. destruct Hk as [? [=]]. }
    apply delete_insert_id. apply Hnone. lia.
  - match goal with
    | H : AnvilMonitor.oldestKey ?m = None |- _ =>
        destruct (anvil_oldestKey_is_Some m) as [k Hk];
          [apply insert_non_empty | congruence]
    end.
Qed.

(** The full cache 11..110 and a node that answers with block 5. *)
Lemma X17_anvil_full_cache_witness :
  AnvilMonitor.poll Fake.fakeClient (AnvilScenario.full, AnvilScenario.rewound)
  = ({| AnvilMonitor.blockCache := AnvilScenario.fullCache;
        AnvilMonitor.printed :=
          [{| AnvilMonitor.event_type := "BLOCK_RECEIVED";
              AnvilMonitor.data :=
                AnvilMonitor.BlockReceivedData 5 "0xblock5" "0xblock4" 2 |}]
     |},
     AnvilScenario.rewound).
Proof.
  apply (X17_anvil_full_cache_forgets_lower_block Fake.World Fake.fakeClient
           AnvilScenario.full AnvilScenario.rewound AnvilScenario.rewound
           (Fake.linearBlock 5)).
  - vm_compute. reflexivity.
  - apply (bool_decide_unpack _). vm_compute. exact I.
  - vm_compute. reflexivity.
Defined.

(** X18.  The watcher for Anvil repeats REORG_DETECTED at every poll.
    When the fetched block does not continue the cached block below it,
    the cache is not full, and the next poll is answered with the same
    block, that second poll prints the same REORG_DETECTED once more,
    prints nothing else and leaves the cache as the first poll left it. *)
Theorem X18_anvil_reorg_repeats :
  forall (W : Type) (client : Client W) (st : AnvilMonitor.State)
         (w w1 w2 : W) (f : W -> W) (b : Block) (p : AnvilMonitor.Cached),
    AnvilMonitor.blockCache st !! (number b - 1) = Some p ->
    parentHash b ≠ AnvilMonitor.cached_hash p ->
    (size (AnvilMonitor.blockCache st) < AnvilMonitor.MAX_CACHE_SIZE)%nat ->
    getBlock client BlockTagLatest w = (Ret b, w1) ->
    getBlock client BlockTagLatest (f w1) = (Ret b, w2) ->
    let y := AnvilMonitor.poll client (st, w) in
    let z := AnvilMonitor.poll client (y.1, f y.2) in
    AnvilMonitor.blockCache z.1 = AnvilMonitor.blockCache y.1
    /\ AnvilMonitor.printed z.1
       = AnvilMonitor.printed y.1
         ++ [{| AnvilMonitor.event_type := "REORG_DETECTED";
                AnvilMonitor.data :=
                  AnvilMonitor.ReorgDetectedData (number b) (parentHash b)
                    (AnvilMonitor.cached_hash p)
                    (AnvilMonitor.calculateDepth (number b)) "HIGH" |}].
Proof.
  intros W client st w w1 w2 f b p Hp Hne Hsize Hget1 Hget2 y z.
  assert (Hy : y.2 = w1
               /\ AnvilMonitor.blockCache y.1 !! (number b - 1) = Some p
               /\ AnvilMonitor.newOrChanged b y.1 = false).
  { subst y. unfold AnvilMonitor.poll. simpl. rewrite Hget1. simpl.
    split; [reflexivity |].
    unfold AnvilMonitor.updateCache.
    destruct (AnvilMonitor.newOrChanged b (AnvilMonitor.checkContinuity b st))
      eqn:Hnew.
    - simpl. rewrite anvil_checkContinuity_cache.
      unfold AnvilMonitor.store.
      rewrite decide_False.
      2:{ rewrite map_size_insert.
          destruct (AnvilMonitor.blockCache st !! number b); simpl; lia. }
      split.
      + rewrite lookup_insert_ne by lia. exact Hp.
      + unfold AnvilMonitor.newOrChanged. simpl.
        rewrite lookup_insert_eq. simpl.
        apply bool_decide_false. intros Hc. apply Hc. reflexivity.
    - rewrite anvil_checkContinuity_cache. split; [exact Hp | exact Hnew]. }
  destruct Hy as (Hw & Hp' & Hnew).
  assert (Hcheck :
    AnvilMonitor.checkContinuity b y.1
    = AnvilMonitor.logJson "REORG_DETECTED"
        (AnvilMonitor.ReorgDetectedData (number b) (parentHash b)
           (AnvilMonitor.cached_hash p)
           (AnvilMonitor.calculateDepth (number b)) "HIGH") y.1).
  { unfold AnvilMonitor.checkContinuity. rewrite Hp'.
    rewrite decide_True by exact Hne. reflexivity. }
  assert (Hz :
    z = (AnvilMonitor.logJson "REORG_DETECTED"
           (AnvilMonitor.ReorgDetectedData (number b) (parentHash b)
              (AnvilMonitor.cached_hash p)
              (AnvilMonitor.calculateDepth (number b)) "HIGH") y.1,
         w2)).
  { subst z. unfold AnvilMonitor.poll. simpl. rewrite Hw, Hget2.
    unfold AnvilMonitor.updateCache. rewrite Hcheck.
    replace (AnvilMonitor.newOrChanged b (AnvilMonitor.logJson _ _ y.1))
      with false by (symmetry; exact Hnew).
    reflexivity. }
  rewrite Hz. split; reflexivity.
Qed.

(** Block 1 of the chain is cached, then block 2 arrives with another
    parent and is fetched twice. *)
Lemma X18_anvil_reorg_repeats_witness :
  let y := AnvilMonitor.poll Fake.fakeClient AnvilScenario.forked in
  let z := AnvilMonitor.poll Fake.fakeClient (y.1, id y.2) in
  AnvilMonitor.blockCache z.1 = AnvilMonitor.blockCache y.1
  /\ AnvilMonitor.printed z.1
     = AnvilMonitor.printed y.1
       ++ [{| AnvilMonitor.event_type := "REORG_DETECTED";
              AnvilMonitor.data :=
                AnvilMonitor.ReorgDetectedData 2 "0xsome_other_parent"
                  "0xblock1" "Calculated based on fork point" "HIGH" |}].
Proof.
  apply (X18_anvil_reorg_repeats Fake.World Fake.fakeClient
           AnvilScenario.forked.1 AnvilScenario.forked.2
           AnvilScenario.forked.2 AnvilScenario.forked.2 id
           Scenario.block2_reorg
           {| AnvilMonitor.cached_hash := "0xblock1";
              AnvilMonitor.cached_parentHash := "0xgenesis" |}).
  - vm_compute. reflexivity.
  - discriminate.
  - vm_compute. lia.
  - vm_compute. reflexivity.
  - vm_compute. reflexivity.
Defined.

(** ** A tick on a chain that has not moved *)

Section QuietTick.
Context {W : Type}.
Variable opts : Options W.
Variable stable : W -> Prop.
Variable chain : Z -> Block.
Variables lo L : Z.
Hypothesis Hanswers : answersFrom opts stable chain lo L.
Hypothesis Hnumber : forall h, number (chain h) = h.

Lemma quiet_no_events (cache : gmap Z CachedBlock) name h :
  cachedChain cache chain lo L -> lo <= h <= L ->
  replacedEvents cache (chain h) = []
  /\ mismatchEvents name cache (chain h) = []
  /\ receivedEvents cache (chain h) = []
  /\ cacheAfter cache (chain h) = cache
  /\ isReplaced cache (chain h) = false
  /\ isMismatch cache (chain h) = false.
Proof.
  intros Hcached Hh. destruct (Hcached h Hh) as ((c & Hc & Hhash) & Hparent).
  unfold replacedEvents, mismatchEvents, receivedEvents, cacheAfter,
    newOrChanged, isReplaced, isMismatch.
  rewrite Hnumber, Hc.
  rewrite (decide_False (P := cached_hash c ≠ hash (chain h)))
    by (intros Hne; apply Hne; exact Hhash).
  rewrite (bool_decide_false (cached_hash c ≠ hash (chain h)))
    by (intros Hne; apply Hne; exact Hhash).
  destruct (cache !! (h - 1)) as [p |] eqn:Hp; [| repeat split].
  specialize (Hparent p eq_refl).
  rewrite (decide_False (P := parentHash (chain h) ≠ cached_hash p))
    by (intros Hne; apply Hne; exact Hparent).
  rewrite (bool_decide_false (parentHash (chain h) ≠ cached_hash p))
    by (intros Hne; apply Hne; exact Hparent).
  repeat split.
Qed.

Lemma reorg_processBlock_quiet (s : Sys W MonitorReorg.Vars) h :
  stable (world s) -> lo <= h <= L ->
  MonitorReorg.maxObservedHeight (vars s) = L ->
  cachedChain (MonitorReorg.blockCache (vars s)) chain lo L ->
  exists w',
    stable w'
    /\ MonitorReorg.processBlock opts h s
       = (Ret true,
          {| vars := vars s; events := events s; alerts := alerts s;
             rpc_log := rpc_log s ++ [fetchOf h]; world := w' |}).
Proof.
  intros Hst Hh Hmax Hcached.
  destruct Hanswers as (_ & _ & Hblock).
  destruct (Hblock (world s) h Hst Hh) as (w' & Hget & Hst').
  exists w'. split; [exact Hst' |].
  rewrite (reorg_processBlock_ok opts s h (chain h) w' Hget).
  destruct (quiet_no_events (MonitorReorg.blockCache (vars s))
              "PARENT_HASH_MISMATCH_DETECTED" h Hcached Hh)
    as (-> & -> & -> & Hcache & _ & _).
  unfold reorgVarsAfter. rewrite Hcache, set_blockCache_same, Hnumber.
  rewrite bool_decide_false by lia.
  rewrite !app_nil_r. reflexivity.
Qed.

Lemma reorg_recheckLoop_quiet (hs : list Z) :
  forall s : Sys W MonitorReorg.Vars,
    stable (world s) -> Forall (fun h => lo <= h <= L) hs ->
    MonitorReorg.maxObservedHeight (vars s) = L ->
    cachedChain (MonitorReorg.blockCache (vars s)) chain lo L ->
    exists w',
      stable w'
      /\ MonitorReorg.recheckLoop opts hs s
         = (Ret tt,
            {| vars := vars s; events := events s; alerts := alerts s;
               rpc_log := rpc_log s ++ map fetchOf hs; world := w' |}).
Proof.
  induction hs as [| h rest IH]; intros s Hst Hall Hmax Hcached.
  - exists (world s). split; [exact Hst |]. simpl. rewrite app_nil_r.
    destruct s; reflexivity.
  - apply Forall_cons in Hall as [Hh Hrest].
    destruct (reorg_processBlock_quiet s h Hst Hh Hmax Hcached)
      as (w1 & Hst1 & Hrun1).
    simpl. unfold bind at 1, try_catch. unfold bind at 1. rewrite Hrun1.
    simpl.
    match goal with
    | |- context [MonitorReorg.recheckLoop opts rest ?s1] =>
        destruct (IH s1 Hst1 Hrest Hmax Hcached) as (w2 & Hst2 & Hrun2)
    end.
    exists w2. split; [exact Hst2 |].
    rewrite Hrun2. simpl. rewrite <- app_assoc. reflexivity.
Qed.

Lemma monad_processBlock_quiet (s : Sys W MonadMainnet.Vars) h :
  stable (world s) -> lo <= h <= L ->
  MonadMainnet.maxObservedHeight (vars s) = L ->
  cachedChain (MonadMainnet.blockCache (vars s)) chain lo L ->
  exists w',
    stable w'
    /\ MonadMainnet.processBlock opts h s
       = (Ret true,
          {| vars := countProcessed 1 (vars s); events := events s;
             alerts := alerts s; rpc_log := rpc_log s ++ [fetchOf h];
             world := w' |}).
Proof.
  intros Hst Hh Hmax Hcached.
  destruct Hanswers as (_ & _ & Hblock).
  destruct (Hblock (world s) h Hst Hh) as (w' & Hget & Hst').
  exists w'. split; [exact Hst' |].
  rewrite (monad_processBlock_ok opts s h (chain h) w' Hget).
  destruct (quiet_no_events (MonadMainnet.blockCache (vars s))
              "REORG_DETECTED" h Hcached Hh)
    as (-> & -> & -> & Hcache & Hrep & Hmis).
  unfold monadVarsAfter. rewrite Hcache, Hrep, Hmis, Hnumber.
  rewrite bool_decide_false by lia.
  rewrite !app_nil_r. destruct s as [[] ? ? ? ?]. reflexivity.
Qed.

Lemma countProcessed_frame n v :
  MonadMainnet.blockCache (countProcessed n v) = MonadMainnet.blockCache v
  /\ MonadMainnet.maxObservedHeight (countProcessed n v)
     = MonadMainnet.maxObservedHeight v
  /\ MonadMainnet.lastProcessedHeight (countProcessed n v)
     = MonadMainnet.lastProcessedHeight v
  /\ MonadMainnet.lastChainId (countProcessed n v) = MonadMainnet.lastChainId v
  /\ MonadMainnet.lastGenesisHash (countProcessed n v)
     = MonadMainnet.lastGenesisHash v
  /\ MonadMainnet.lastMetadataCheckMs (countProcessed n v)
     = MonadMainnet.lastMetadataCheckMs v
  /\ blocksProcessed (MonadMainnet.hourlyStats (countProcessed n v))
     = blocksProcessed (MonadMainnet.hourlyStats v) + Z.of_nat n
  /\ blocksReplaced (MonadMainnet.hourlyStats (countProcessed n v))
     = blocksReplaced (MonadMainnet.hourlyStats v)
  /\ reorgsDetected (MonadMainnet.hourlyStats (countProcessed n v))
     = reorgsDetected (MonadMainnet.hourlyStats v)
  /\ chainRewinds (MonadMainnet.hourlyStats (countProcessed n v))
     = chainRewinds (MonadMainnet.hourlyStats v)
  /\ startTime (MonadMainnet.hourlyStats (countProcessed n v))
     = startTime (MonadMainnet.hourlyStats v).
Proof.
  induction n as [| n IH].
  - simpl. repeat split. lia.
  - unfold countProcessed in *. simpl.
    destruct IH as (H1 & H2 & H3 & H4 & H5 & H6 & H7 & H8 & H9 & H10 & H11).
    repeat split; simpl; try assumption. lia.
Qed.

Lemma monad_recheckLoop_quiet (hs : list Z) :
  forall s : Sys W MonadMainnet.Vars,
    stable (world s) -> Forall (fun h => lo <= h <= L) hs ->
    MonadMainnet.maxObservedHeight (vars s) = L ->
    cachedChain (MonadMainnet.blockCache (vars s)) chain lo L ->
    exists w',
      stable w'
      /\ MonadMainnet.recheckLoop opts hs s
         = (Ret tt,
            {| vars := countProcessed (length hs) (vars s);
               events := events s; alerts := alerts s;
               rpc_log := rpc_log s ++ map fetchOf hs; world := w' |}).
Proof.
  induction hs as [| h rest IH]; intros s Hst Hall Hmax Hcached.
  - exists (world s). split; [exact Hst |]. simpl. rewrite app_nil_r.
    destruct s; reflexivity.
  - apply Forall_cons in Hall as [Hh Hrest].
    destruct (monad_processBlock_quiet s h Hst Hh Hmax Hcached)
      as (w1 & Hst1 & Hrun1).
    simpl. unfold bind at 1. rewrite Hrun1.
    destruct (countProcessed_frame 1 (vars s)) as (Hc & Hm & _).
    match goal with
    | |- context [MonadMainnet.recheckLoop opts rest ?s1] =>
        destruct (IH s1 Hst1 Hrest (eq_trans Hm Hmax)
                    (eq_ind_r (fun c => cachedChain c chain lo L) Hcached Hc))
          as (w2 & Hst2 & Hrun2)
    end.
    exists w2. split; [exact Hst2 |].
    rewrite Hrun2. cbn [vars events alerts rpc_log world length map].
    rewrite <- app_assoc.
    replace (countProcessed (length rest) (countProcessed 1 (vars s)))
      with (countProcessed (S (length rest)) (vars s)).
    + reflexivity.
    + unfold countProcessed. rewrite Nat.iter_succ_r. reflexivity.
Qed.
End QuietTick.

Lemma heights_in_range (from to : Z) :
  Forall (fun h => from <= h <= to) (heights from to).
Proof.
  apply Forall_forall. intros h Hin. unfold heights in Hin.
  apply elem_of_seqZ in Hin. lia.
Qed.

(** X19.  A tick of src/monitor_reorg.js on a chain that has not moved is
    silent.  Suppose the monitor is synced to the tip [L], its cache holds
    the chain on the recheck window [max 0 (L - recheckDepth + 1) .. L],
    no metadata probe is due, and the client answers from that chain.
    Then the tick logs nothing and sends nothing, leaves every variable
    as it was except for pruning the cache, and makes exactly one fetch
    of the latest block followed by one fetch per height of the window. *)
Theorem X19_reorg_quiet_tick :
  forall (W : Type) (opts : Options W) (stable : W -> Prop)
         (chain : Z -> Block) (s : Sys W MonitorReorg.Vars) (L : Z),
    let lo := Z.max 0 (L - recheckDepth opts + 1) in
    stable (world s) ->
    answersFrom opts stable chain lo L ->
    (forall h, number (chain h) = h) ->
    (forall w, stable w ->
       (now opts w).1 - MonitorReorg.lastMetadataCheckMs (vars s)
       < chainMetadataPollMs opts) ->
    MonitorReorg.lastProcessedHeight (vars s) = L ->
    MonitorReorg.maxObservedHeight (vars s) = L ->
    cachedChain (MonitorReorg.blockCache (vars s)) chain lo L ->
    exists w',
      stable w'
      /\ MonitorReorg.tick opts s
         = (Ret tt,
            {| vars :=
                 MonitorReorg.set_blockCache
                   (filter
                      (fun kv => ¬ (kv.1 < Z.max 0 (L - cacheDepth opts + 1)))
                      (MonitorReorg.blockCache (vars s)))
                   (vars s);
               events := events s; alerts := alerts s;
               rpc_log :=
                 rpc_log s
                 ++ CallGetBlock BlockTagLatest :: map fetchOf (heights lo L);
               world := w' |}).
Proof.
  intros W opts stable chain s L lo Hst Hanswers Hnumber Hdue Hlast Hmax
    Hcached.
  pose proof Hanswers as (Hnow & Hlatest & _).
  assert (Hmeta :
    MonitorReorg.metadataCheck opts s
    = (Ret tt,
       {| vars := vars s; events := events s; alerts := alerts s;
          rpc_log := rpc_log s; world := (now opts (world s)).2 |})).
  { specialize (Hdue (world s) Hst).
    unfold MonitorReorg.metadataCheck, bind, call_now, gets, when.
    destruct (now opts (world s)) as [t w0]. simpl in *.
    rewrite bool_decide_false by lia. reflexivity. }
  destruct (Hlatest _ (Hnow _ Hst)) as (w1 & Hget & Hst1).
  set (s1 := {| vars := vars s; events := events s; alerts := alerts s;
                rpc_log := rpc_log s ++ [CallGetBlock BlockTagLatest];
                world := w1 |}).
  destruct (reorg_recheckLoop_quiet opts stable chain lo L Hanswers Hnumber
              (heights lo L) s1 Hst1 (heights_in_range lo L) Hmax Hcached)
    as (w2 & Hst2 & Hrun).
  exists w2. split; [exact Hst2 |].
  unfold MonitorReorg.tick, try_catch, MonitorReorg.tickBody.
  unfold bind at 1. rewrite Hmeta.
  unfold bind at 1.
  unfold MonitorReorg.fetchLatestHeight at 1, bind at 1, call_getBlock at 1.
  cbn [world vars events alerts rpc_log]. rewrite Hget.
  unfold ret at 1. rewrite Hnumber. fold s1.
  unfold bind at 1.
  unfold MonitorReorg.rewindCheck at 1, bind at 1, gets at 1, when at 1.
  replace (MonitorReorg.maxObservedHeight (vars s1)) with L
    by (symmetry; exact Hmax).
  rewrite bool_decide_false by lia. unfold ret at 1.
  unfold bind at 1.
  unfold MonitorReorg.forwardSync at 1, bind at 1, gets at 1, when at 1.
  replace (MonitorReorg.lastProcessedHeight (vars s1)) with L
    by (symmetry; exact Hlast).
  rewrite bool_decide_false by lia. unfold ret at 1.
  unfold bind at 1.
  unfold MonitorReorg.deepRecheck at 1, bind at 1, gets at 1.
  replace (MonitorReorg.lastProcessedHeight (vars s1)) with L
    by (symmetry; exact Hlast).
  fold lo. rewrite Hrun.
  unfold MonitorReorg.pruneCache, modify. subst s1.
  cbn [world vars events alerts rpc_log]. rewrite <- app_assoc.
  reflexivity.
Qed.

Lemma linearBlock_number (h : Z) : number (Fake.linearBlock h) = h.
Proof.
  unfold Fake.linearBlock. case_decide as Hh; [subst h |]; reflexivity.
Qed.

(** The fake client of the tests answers from the linear chain 0..1 as
    long as nobody edits it. *)
Lemma fake_answersFrom (w0 : Fake.World) :
  Fake.latestHeight w0 = 1 ->
  Fake.blocks w0 !! 0 = Some (Fake.linearBlock 0) ->
  Fake.blocks w0 !! 1 = Some (Fake.linearBlock 1) ->
  answersFrom ScenarioMetadata.opts (fun w => w = w0) Fake.linearBlock 0 1.
Proof.
  intros Hlatest H0 H1. repeat split.
  - intros w ->. reflexivity.
  - intros w ->. exists w0. split; [| reflexivity].
    simpl. unfold Fake.fake_getBlock. rewrite Hlatest, H1. reflexivity.
  - intros w h -> Hh. exists w0. split; [| reflexivity].
    simpl. unfold Fake.fake_getBlock.
    assert (h = 0 \/ h = 1) as [-> | ->] by lia.
    + rewrite H0. reflexivity.
    + rewrite H1. reflexivity.
Qed.

(** The second tick on the chain 0..1, half a second after the first. *)
Lemma X19_reorg_quiet_tick_witness :
  let s := ScenarioMetadata.reorgProbed in
  exists w',
    w' = world s
    /\ MonitorReorg.tick ScenarioMetadata.opts s
       = (Ret tt,
          {| vars :=
               MonitorReorg.set_blockCache
                 (filter (fun kv => ¬ (kv.1 < Z.max 0 (1 - 2048 + 1)))
                    (MonitorReorg.blockCache (vars s)))
                 (vars s);
             events := events s; alerts := alerts s;
             rpc_log :=
               rpc_log s
               ++ CallGetBlock BlockTagLatest
                  :: map fetchOf (heights (Z.max 0 (1 - 16 + 1)) 1);
             world := w' |}).
Proof.
  intros s.
  apply (X19_reorg_quiet_tick Fake.World ScenarioMetadata.opts
           (fun w => w = world s) Fake.linearBlock s 1).
  - reflexivity.
  - apply fake_answersFrom; vm_compute; reflexivity.
  - exact linearBlock_number.
  - intros w ->. vm_compute. reflexivity.
  - vm_compute. reflexivity.
  - vm_compute. reflexivity.
  - intros h Hh. assert (h = 0 \/ h = 1) as [-> | ->] by (simpl in Hh; lia).
    + split.
      * eexists. split; vm_compute; reflexivity.
      * intros p Hp. vm_compute in Hp. discriminate Hp.
    + split.
      * eexists. split; vm_compute; reflexivity.
      * intros p Hp. vm_compute in Hp. injection Hp as <-.
        vm_compute. reflexivity.
Defined.

(** X20.  A tick of the Monad mainnet monitor on a chain that has not
    moved is silent, but it counts.  Under the conditions of X19 the tick
    logs nothing and sends nothing and keeps heights and incident
    counters; it fetches the latest block and then every height of the
    recheck window, and [hourlyStats.blocksProcessed] grows by the size of
    that window: the counter counts fetches, not new blocks. *)
Theorem X20_monad_quiet_tick :
  forall (W : Type) (opts : Options W) (stable : W -> Prop)
         (chain : Z -> Block) (s : Sys W MonadMainnet.Vars) (L : Z),
    let lo := Z.max 0 (L - recheckDepth opts + 1) in
    stable (world s) ->
    answersFrom opts stable chain lo L ->
    (forall h, number (chain h) = h) ->
    (forall w, stable w ->
       (now opts w).1 - MonadMainnet.lastMetadataCheckMs (vars s)
       < chainMetadataPollMs opts) ->
    MonadMainnet.lastProcessedHeight (vars s) = L ->
    MonadMainnet.maxObservedHeight (vars s) = L ->
    cachedChain (MonadMainnet.blockCache (vars s)) chain lo L ->
    exists s',
      MonadMainnet.tick opts s = (Ret tt, s')
      /\ stable (world s')
      /\ events s' = events s
      /\ alerts s' = alerts s
      /\ rpc_log s'
         = rpc_log s
           ++ CallGetBlock BlockTagLatest :: map fetchOf (heights lo L)
      /\ MonadMainnet.blockCache (vars s')
         = filter (fun kv => ¬ (kv.1 < Z.max 0 (L - cacheDepth opts + 1)))
             (MonadMainnet.blockCache (vars s))
      /\ MonadMainnet.lastProcessedHeight (vars s') = L
      /\ MonadMainnet.maxObservedHeight (vars s') = L
      /\ blocksProcessed (MonadMainnet.hourlyStats (vars s'))
         = blocksProcessed (MonadMainnet.hourlyStats (vars s))
           + Z.of_nat (length (heights lo L))
      /\ blocksReplaced (MonadMainnet.hourlyStats (vars s'))
         = blocksReplaced (MonadMainnet.hourlyStats (vars s))
      /\ reorgsDetected (MonadMainnet.hourlyStats (vars s'))
         = reorgsDetected (MonadMainnet.hourlyStats (vars s))
      /\ chainRewinds (MonadMainnet.hourlyStats (vars s'))
         = chainRewinds (MonadMainnet.hourlyStats (vars s)).
Proof.
  intros W opts stable chain s L lo Hst Hanswers Hnumber Hdue Hlast Hmax
    Hcached.
  pose proof Hanswers as (Hnow & Hlatest & _).
  assert (Hmeta :
    MonadMainnet.metadataCheck opts s
    = (Ret tt,
       {| vars := vars s; events := events s; alerts := alerts s;
          rpc_log := rpc_log s; world := (now opts (world s)).2 |})).
  { specialize (Hdue (world s) Hst).
    unfold MonadMainnet.metadataCheck, bind, call_now, gets, when.
    destruct (now opts (world s)) as [t w0]. simpl in *.
    rewrite bool_decide_false by lia. reflexivity. }
  destruct (Hlatest _ (Hnow _ Hst)) as (w1 & Hget & Hst1).
  set (s1 := {| vars := vars s; events := events s; alerts := alerts s;
                rpc_log := rpc_log s ++ [CallGetBlock BlockTagLatest];
                world := w1 |}).
  destruct (monad_recheckLoop_quiet opts stable chain lo L Hanswers Hnumber
              (heights lo L) s1 Hst1 (heights_in_range lo L) Hmax Hcached)
    as (w2 & Hst2 & Hrun).
  destruct (countProcessed_frame (length (heights lo L)) (vars s))
    as (Hc & Hm & Hl & _ & _ & _ & Hbp & Hbr & Hrd & Hcr & _).
  eexists. split.
  - unfold MonadMainnet.tick, try_catch, MonadMainnet.tickBody.
    unfold bind at 1. rewrite Hmeta.
    unfold bind at 1.
    unfold MonadMainnet.fetchLatestHeight at 1, bind at 1, call_getBlock at 1.
    cbn [world vars events alerts rpc_log]. rewrite Hget.
    unfold ret at 1. rewrite Hnumber. fold s1.
    unfold bind at 1.
    unfold MonadMainnet.coldStart at 1, bind at 1, gets at 1, when at 1.
    replace (MonadMainnet.lastProcessedHeight (vars s1)) with L
      by (symmetry; exact Hlast).
    replace (bool_decide (L = -1) && bool_decide (L > 0)) with false
      by (repeat case_bool_decide; simpl; first [reflexivity | lia]).
    unfold ret at 1.
    unfold bind at 1.
    unfold MonadMainnet.rewindCheck at 1, bind at 1, gets at 1, when at 1.
    replace (MonadMainnet.maxObservedHeight (vars s1)) with L
      by (symmetry; exact Hmax).
    rewrite bool_decide_false by lia. unfold ret at 1.
    unfold bind at 1.
    unfold MonadMainnet.forwardSync at 1, bind at 1, gets at 1, when at 1.
    replace (MonadMainnet.lastProcessedHeight (vars s1)) with L
      by (symmetry; exact Hlast).
    rewrite bool_decide_false by lia. unfold ret at 1.
    unfold bind at 1.
    unfold MonadMainnet.deepRecheck at 1.
    fold lo. rewrite Hrun.
    unfold MonadMainnet.pruneCache, modify.
    cbn [world vars events alerts rpc_log]. reflexivity.
  - subst s1. cbn [world vars events alerts rpc_log].
    split; [exact Hst2 |]. split; [reflexivity |]. split; [reflexivity |].
    split; [rewrite <- app_assoc; reflexivity |].
    split; [simpl; rewrite Hc; reflexivity |].
    split; [simpl; rewrite Hl; exact Hlast |].
    split; [simpl; rewrite Hm; exact Hmax |].
    simpl. repeat split; assumption.
Qed.

(** The second tick on the chain 0..1, half a second after the first. *)
Lemma X20_monad_quiet_tick_witness :
  let s := ScenarioMetadata.monadProbed in
  exists s',
    MonadMainnet.tick ScenarioMetadata.opts s = (Ret tt, s')
    /\ world s' = world s
    /\ events s' = events s
    /\ alerts s' = alerts s
    /\ rpc_log s'
       = rpc_log s
         ++ CallGetBlock BlockTagLatest
            :: map fetchOf (heights (Z.max 0 (1 - 16 + 1)) 1)
    /\ MonadMainnet.blockCache (vars s')
       = filter (fun kv => ¬ (kv.1 < Z.max 0 (1 - 2048 + 1)))
           (MonadMainnet.blockCache (vars s))
    /\ MonadMainnet.lastProcessedHeight (vars s') = 1
    /\ MonadMainnet.maxObservedHeight (vars s') = 1
    /\ blocksProcessed (MonadMainnet.hourlyStats (vars s'))
       = blocksProcessed (MonadMainnet.hourlyStats (vars s))
         + Z.of_nat (length (heights (Z.max 0 (1 - 16 + 1)) 1))
    /\ blocksReplaced (MonadMainnet.hourlyStats (vars s'))
       = blocksReplaced (MonadMainnet.hourlyStats (vars s))
    /\ reorgsDetected (MonadMainnet.hourlyStats (vars s'))
       = reorgsDetected (MonadMainnet.hourlyStats (vars s))
    /\ chainRewinds (MonadMainnet.hourlyStats (vars s'))
       = chainRewinds (MonadMainnet.hourlyStats (vars s)).
Proof.
  intros s.
  apply (X20_monad_quiet_tick Fake.World ScenarioMetadata.opts
           (fun w => w = world s) Fake.linearBlock s 1).
  - reflexivity.
  - apply fake_answersFrom; vm_compute; reflexivity.
  - exact linearBlock_number.
  - intros w ->. vm_compute. reflexivity.
  - vm_compute. reflexivity.
  - vm_compute. reflexivity.
  - intros h Hh. assert (h = 0 \/ h = 1) as [-> | ->] by (simpl in Hh; lia).
    + split.
      * eexists. split; vm_compute; reflexivity.
      * intros p Hp. vm_compute in Hp. discriminate Hp.
    + split.
      * eexists. split; vm_compute; reflexivity.
      * intros p Hp. vm_compute in Hp. injection Hp as <-.
        vm_compute. reflexivity.
Defined.

(** ** The loops of [tick] as JavaScript counts them: C10 *)









Section MonitorReorgRun.
Context {W : Type}.
Variable opts : Options W.










End MonitorReorgRun.

Section MonadMainnetRun.
Context {W : Type}.
Variable opts : Options W.








End MonadMainnetRun.




